(** * loopy/kernel/array.py: array axis tags, stride normalisation,
      declaration planning and access planning

    A shallow embedding of [loopy/kernel/array.py].  Python values are
    modelled as follows.

    - Strings are [string] (the file is Python 2 code, whose [str] is a
      byte string; [upper] acts on the ASCII letters).
    - Integers are [Z]; symbolic (pymbolic) expressions are syntax trees of
      type [expr], the integer literals being the leaves [EInt].
      [isinstance(x, int)] is the test "[x] is an [EInt]".
    - A raised exception is a value of [exn]; a function that may raise
      returns [result].  Exceptions raised by the source carry the name the
      design document gives them; exceptions raised by the Python runtime
      itself keep their Python name.
    - Python lists and tuples are [list], indexed with stdpp's lookup [!!]
      and updated with [<[ i := x ]>]; the set of target axes is a
      [gset nat]. *)

From stdpp Require Import base decidable option list strings pretty gmap.
From Stdlib Require Import ZArith Lia Ascii String.

Local Open Scope string_scope.
Local Open Scope Z_scope.

(** ** Exceptions and results *)

Inductive exn : Type :=
  (* raised by the source *)
  | InvalidTagSyntax            (* ValueError "invalid arg dim tag" *)
  | InvalidOrder                (* ValueError "'order' must be either 'C' or 'F'" *)
  | InvalidOrderValue           (* ValueError "invalid value ... for ComputedStrideArrayDimTag.order" *)
  | MultipleVectorAxes          (* ValueError "may only have one vector-tagged argument dimension" *)
  | ConflictingStrideSpecification (* ValueError "computed and fixed stride arg dim tags may not be mixed" *)
  | StridesAndDimTags           (* TypeError "may not specify both strides and dim_tags" *)
  | ContradictoryRank           (* ValueError "contradictory values for number of dimensions" *)
  | NonContiguousTargetAxes     (* ValueError "target axes ... are non-contiguous" *)
  | TargetAxisCountOutOfRange   (* ValueError "only supports between %d and %d target axes" *)
  | IndeterminateRank           (* RuntimeError "number of user axes ... cannot be found" *)
  | UnsupportedOperation        (* TypeError raised by ComputedStrideArrayDimTag.map_expr *)
  | NonConstantSplitExtent      (* RuntimeError "shape ... has non-constant integer axis" (sep) *)
  | NonConstantVectorExtent     (* RuntimeError "shape ... has non-constant integer axis" (vec) *)
  | UnsupportedDimTag           (* RuntimeError "unsupported array dim implementation tag" *)
  | SubscriptArityMismatch      (* RuntimeError "wrong number of indices" *)
  | MisalignedVectorStride      (* RuntimeError "not a multiple of the vector axis" *)
  | NonConstantSplitIndex       (* RuntimeError "non-constant index for separate-array axis" (sep) *)
  | NonConstantVectorIndex      (* RuntimeError, same message, raised on the vec branch *)
  | UnsupportedMultiAxisOffset  (* NotImplementedError "offsets for multiple image axes" *)
  (* raised by the Python runtime *)
  | PyTypeError                 (* wrong operand type, wrong number of arguments *)
  | PyIndexError                (* sequence index out of range *)
  | PyKeyError                  (* dictionary key not found *)
  | PyAttributeError            (* attribute read before it is set *)
  | PyNameError                 (* global name not defined *)
  | PyUnboundLocalError         (* local variable referenced before assignment *)
  | PyZeroDivisionError
  | PyAssertionError
  (* raised by a collaborator (the expression parser) *)
  | ParseError.

Inductive result (A : Type) : Type :=
  | Ok (a : A)
  | Raise (e : exn).
Arguments Ok {A} a.
Arguments Raise {A} e.

#[global] Instance result_ret : MRet result := @Ok.
#[global] Instance result_bind : MBind result := λ A B f m,
  match m with Ok a => f a | Raise e => Raise e end.

#[global] Instance result_fmap : FMap result := λ A B f m,
  match m with Ok a => Ok (f a) | Raise e => Raise e end.

Definition is_Ok {A} (r : result A) : bool :=
  match r with Ok _ => true | Raise _ => false end.

#[global] Instance exn_eq_dec : EqDecision exn.
Proof. solve_decision. Defined.

#[global] Instance result_eq_dec {A} `{EqDecision A} : EqDecision (result A).
Proof. solve_decision. Defined.

(** ** Python string operations used by the source *)

Module PyStr.

(** [c.upper()] on one byte: the ASCII lower-case letters move up. *)
Definition upper_ascii (c : ascii) : ascii :=
  let n := nat_of_ascii c in
  if (97 <=? n)%nat && (n <=? 122)%nat then ascii_of_nat (n - 32) else c.

(** [s.upper()] *)
Fixpoint upper (s : string) : string :=
  match s with
  | EmptyString => EmptyString
  | String c r => String (upper_ascii c) (upper r)
  end.

(** [s.startswith(p)] *)
Fixpoint startswith (s p : string) {struct p} : bool :=
  match p, s with
  | EmptyString, _ => true
  | String _ _, EmptyString => false
  | String a p', String b s' => bool_decide (a = b) && startswith s' p'
  end.

(** [p in s]: [p] occurs in [s] as a contiguous substring. *)
Fixpoint contains (s p : string) : bool :=
  startswith s p ||
  match s with
  | EmptyString => false
  | String _ s' => contains s' p
  end.

(** [s[n:]] *)
Fixpoint drop (n : nat) (s : string) : string :=
  match n, s with
  | O, _ => s
  | S n', String _ r => drop n' r
  | S _, EmptyString => EmptyString
  end.

(** [s[:n]] *)
Fixpoint take (n : nat) (s : string) : string :=
  match n, s with
  | S n', String c r => String c (take n' r)
  | _, _ => EmptyString
  end.

(** [s.split(",")]: never the empty list, [",".join] is its inverse. *)
Fixpoint split_comma (s : string) : list string :=
  match s with
  | EmptyString => [EmptyString]
  | String c r =>
      if bool_decide (c = ","%char) then EmptyString :: split_comma r
      else match split_comma r with
           | w :: ws => String c w :: ws
           | [] => [String c EmptyString]
           end
  end.

Definition is_digit (c : ascii) : bool :=
  let n := nat_of_ascii c in (48 <=? n)%nat && (n <=? 57)%nat.

Definition is_letter (c : ascii) : bool :=
  let n := nat_of_ascii c in
  ((65 <=? n)%nat && (n <=? 90)%nat) || ((97 <=? n)%nat && (n <=? 122)%nat).

Definition newline : ascii := ascii_of_nat 10.

Fixpoint has_newline (s : string) : bool :=
  match s with
  | EmptyString => false
  | String c r => bool_decide (c = newline) || has_newline r
  end.

End PyStr.

(** ** Expressions: integers and symbolic trees *)

Inductive expr : Type :=
  | EInt (z : Z)
  | EVar (name : string)
  | ESum (a b : expr)
  | EProduct (a b : expr)
  | EFloorDiv (a b : expr).

#[global] Instance expr_eq_dec : EqDecision expr.
Proof. solve_decision. Defined.

(** [isinstance(e, int)] *)
Definition is_int (e : expr) : bool :=
  match e with EInt _ => true | _ => false end.

(** The arithmetic operators, as Python dispatches them: on two integers
    the integer operation (floor division, [ZeroDivisionError] on a zero
    divisor); when an operand is symbolic, pymbolic's overloaded operator
    builds a tree.  The trees are kept as built: which simplifications
    pymbolic applies to them is not fixed by this file, and no statement
    below depends on the shape of a symbolic result. *)
Definition py_mul (a b : expr) : expr :=
  match a, b with
  | EInt x, EInt y => EInt (x * y)
  | _, _ => EProduct a b
  end.

Definition py_add (a b : expr) : expr :=
  match a, b with
  | EInt x, EInt y => EInt (x + y)
  | _, _ => ESum a b
  end.

Definition py_neg (a : expr) : expr :=
  match a with
  | EInt x => EInt (- x)
  | _ => EProduct (EInt (-1)) a
  end.

Definition py_floordiv (a b : expr) : result expr :=
  match a, b with
  | EInt x, EInt y => if bool_decide (y = 0) then Raise PyZeroDivisionError
                      else Ok (EInt (x / y))
  | _, _ => Ok (EFloorDiv a b)
  end.

(** [pytools.div_ceil(nr, dr)], which is [-(-nr // dr)]. *)
Definition div_ceil (nr dr : expr) : result expr :=
  q ← py_floordiv (py_neg nr) dr; Ok (py_neg q).

(** ** Array dimension tags

    The four tag classes.  A target axis is a natural number: the
    constructors take any Python integer, but [ArrayBase.__init__] only
    accepts tags whose target axes form a range that starts at 0.  The
    [order] of a computed-stride tag is kept as the string the object
    stores.  Objects of other classes (the [else] branches that raise on an
    unknown tag class) are outside this type. *)

Inductive dim_tag : Type :=
  | FixedStrideArrayDimTag (stride : expr) (target_axis : nat)
  | ComputedStrideArrayDimTag (order : string) (pad_to : option expr)
                              (target_axis : nat)
  | SeparateArrayArrayDimTag
  | VectorArrayDimTag.

#[global] Instance dim_tag_eq_dec : EqDecision dim_tag.
Proof. solve_decision. Defined.

(** [isinstance(dt, _StrideArrayDimTagBase)] and the attribute it gives
    access to. *)
Definition stride_target_axis (dt : dim_tag) : option nat :=
  match dt with
  | FixedStrideArrayDimTag _ t => Some t
  | ComputedStrideArrayDimTag _ _ t => Some t
  | _ => None
  end.

(** [ComputedStrideArrayDimTag.__init__] *)
Definition ComputedStrideArrayDimTag_init
    (order : string) (pad_to : option expr) (target_axis : nat)
    : result dim_tag :=
  let order := PyStr.upper order in
  if negb (PyStr.contains "CF" order) then Raise InvalidOrder
  else Ok (ComputedStrideArrayDimTag order pad_to target_axis).

(** ** The textual form of tags *)

Module TagSyntax.

(** [TARGET_AXIS_RE], the pattern "arrow, one digit 0-9, dollar", tried
    at the start of [s]: the two characters of the arrow and one digit,
    then the end of the string or the one newline that ends it (Python's
    dollar anchor).  Returns [int(group(1))]. *)
Definition target_axis_at (s : string) : option nat :=
  match s with
  | String "-" (String ">" (String d rest)) =>
      if PyStr.is_digit d
         && (bool_decide (rest = "")
             || bool_decide (rest = String PyStr.newline ""))
      then Some (nat_of_ascii d - 48)%nat else None
  | _ => None
  end.

(** [TARGET_AXIS_RE.search(tag)]: the leftmost position where the pattern
    matches, as [(match.start(), int(match.group(1)))]. *)
Fixpoint target_axis_search_from (start : nat) (s : string)
    : option (nat * nat) :=
  match target_axis_at s with
  | Some d => Some (start, d)
  | None =>
      match s with
      | EmptyString => None
      | String _ r => target_axis_search_from (S start) r
      end
  end.

Definition target_axis_search : string → option (nat * nat) :=
  target_axis_search_from 0.

(** The longest prefix of letters, and what follows it. *)
Fixpoint span_letters (s : string) : string * string :=
  match s with
  | String c r =>
      if PyStr.is_letter c
      then let '(w, rest) := span_letters r in (String c w, rest)
      else (EmptyString, s)
  | EmptyString => (EmptyString, EmptyString)
  end.

(** [s] without its last character, and that character. *)
Fixpoint unsnoc (s : string) : option (string * ascii) :=
  match s with
  | EmptyString => None
  | String c r =>
      match unsnoc r with
      | None => Some (EmptyString, c)
      | Some (r', l) => Some (String c r', l)
      end
  end.

(** [PADDED_STRIDE_TAG.match(tag)] as [(group(1), group(2))].  The
    pattern is: one or more letters a-z, A-Z (group 1), an opening
    parenthesis, the text pad=, any characters but a newline (group 2), a
    closing parenthesis, the dollar anchor, which also matches before one
    final newline. *)
Definition padded_stride_match (tag : string) : option (string * string) :=
  let '(letters, rest) := span_letters tag in
  if bool_decide (letters = "") then None
  else if negb (PyStr.startswith rest "(pad=") then None
  else
    let body := PyStr.drop 5 rest in
    let body :=
      match unsnoc body with
      | Some (b, c) => if bool_decide (c = PyStr.newline) then b else body
      | None => body
      end in
    match unsnoc body with
    | Some (x, c) =>
        if bool_decide (c = ")"%char) && negb (PyStr.has_newline x)
        then Some (letters, x) else None
    | None => None
    end.

End TagSyntax.

(** What [parse_array_dim_tag] accepts: a tag object or a string.  (A value
    of any other type makes it raise [TypeError]; such values are outside
    this type.) *)
Inductive tag_input : Type :=
  | TagObject (t : dim_tag)
  | TagString (s : string).

(** What [parse_array_dim_tags] accepts: one comma-separated string, or a
    sequence of strings and tag objects. *)
Inductive dim_tags_input : Type :=
  | DimTagsString (s : string)
  | DimTagsList (l : list tag_input).

(** [[f(x) for x in l]] where [f] may raise: the first exception ends the
    comprehension. *)
Fixpoint for_each {A B} (f : A → result B) (l : list A) : result (list B) :=
  match l with
  | [] => Ok []
  | x :: r => y ← f x; ys ← for_each f r; Ok (y :: ys)
  end.

Section Codec.

(** [loopy.symbolic.parse], the expression parser, and [str] on a symbolic
    expression: both live outside [loopy/kernel/array.py]. *)
Variable parse : string → result expr.
Variable str_symbolic : expr → string.

(** [str(e)], as the [%s] conversion applies it. *)
Definition py_str (e : expr) : string :=
  match e with
  | EInt z => pretty z
  | _ => str_symbolic e
  end.

(** The [__str__] methods of the four tag classes. *)
Definition dim_tag_str (t : dim_tag) : string :=
  match t with
  | FixedStrideArrayDimTag stride target_axis =>
      "stride:" +:+ py_str stride +:+ "->" +:+ pretty target_axis
  | ComputedStrideArrayDimTag order None _ => order
  | ComputedStrideArrayDimTag order (Some pad_to) _ =>
      order +:+ "(pad=" +:+ py_str pad_to +:+ ")"
  | SeparateArrayArrayDimTag => "sep"
  | VectorArrayDimTag => "vec"
  end.

(** The [map_expr] methods. *)
Definition map_expr (mapper : expr → expr) (t : dim_tag) : result dim_tag :=
  match t with
  | FixedStrideArrayDimTag stride target_axis =>
      Ok (FixedStrideArrayDimTag (mapper stride) target_axis)
  | ComputedStrideArrayDimTag _ _ _ => Raise UnsupportedOperation
  | SeparateArrayArrayDimTag => Ok t
  | VectorArrayDimTag => Ok t
  end.

Definition is_order_letter (s : string) : bool :=
  bool_decide (s ∈ ["c"; "C"; "f"; "F"]).

(** [parse_array_dim_tag].  The name [parse] is local to the function: it
    is bound by the [from loopy.symbolic import parse] of the stride
    branch only, so the read of [parse] on the padded branch finds the
    local unbound. *)
Definition parse_array_dim_tag (tag : tag_input) : result dim_tag :=
  match tag with
  | TagObject t => Ok t
  | TagString tag =>
      if PyStr.startswith tag "stride:" then
        stride ← parse (PyStr.drop 7 tag);
        Ok (FixedStrideArrayDimTag stride 0)
      else if bool_decide (tag = "sep") then Ok SeparateArrayArrayDimTag
      else if bool_decide (tag = "vec") then Ok VectorArrayDimTag
      else
        let '(target_axis, tag) :=
          match TagSyntax.target_axis_search tag with
          | Some (start, d) => (d, PyStr.take start tag)
          | None => (0%nat, tag)
          end in
        if is_order_letter tag then
          ComputedStrideArrayDimTag_init tag None target_axis
        else
          match TagSyntax.padded_stride_match tag with
          | None => Raise InvalidTagSyntax
          | Some (order, pad_text) =>
              pad ← (Raise PyUnboundLocalError : result expr);
              if negb (is_order_letter order) then Raise InvalidTagSyntax
              else ComputedStrideArrayDimTag_init order (Some pad)
                     target_axis
          end
  end.

(** [parse_array_dim_tags] *)
Definition parse_array_dim_tags (dim_tags : dim_tags_input)
    : result (list dim_tag) :=
  let dim_tags :=
    match dim_tags with
    | DimTagsString s => TagString <$> PyStr.split_comma s
    | DimTagsList l => l
    end in
  for_each parse_array_dim_tag dim_tags.

End Codec.

(** ** Stride normalisation *)

(** The [shape] of an array: [None], [loopy.auto], or a tuple of extents. *)
Inductive shape_t : Type :=
  | ShapeNone
  | ShapeAuto
  | ShapeTuple (extents : list expr).

(** [l[i]] on a list or tuple, for [i >= 0]. *)
Definition index {A} (l : list A) (i : nat) : result A :=
  match l !! i with
  | Some x => Ok x
  | None => Raise PyIndexError
  end.

Definition list_index {A} : list A → nat → result A := index.

(** The three local variables filled by the first loop of
    [convert_computed_to_fixed_dim_tags]. *)
Record tag_groups : Type := {
  vector_dim : option nat;
  computed_stride_dim_tags : list (list nat);
  fixed_stride_dim_tags : list (list nat)
}.

(** [groups[target_axis].append(i)] and [groups[target_axis].insert(0, i)] *)
Definition group_append (groups : list (list nat)) (target_axis i : nat)
    : result (list (list nat)) :=
  l ← index groups target_axis; Ok (<[target_axis := (l ++ [i])%list]> groups).

Definition group_insert0 (groups : list (list nat)) (target_axis i : nat)
    : result (list (list nat)) :=
  l ← index groups target_axis; Ok (<[target_axis := i :: l]> groups).

(** One iteration of [for i, dt in enumerate(dim_tags)]. *)
Definition pick_apart_step (i : nat) (dt : dim_tag) (g : tag_groups)
    : result tag_groups :=
  match dt with
  | VectorArrayDimTag =>
      match vector_dim g with
      | Some _ => Raise MultipleVectorAxes
      | None =>
          Ok {| vector_dim := Some i;
                computed_stride_dim_tags := computed_stride_dim_tags g;
                fixed_stride_dim_tags := fixed_stride_dim_tags g |}
      end
  | FixedStrideArrayDimTag _ target_axis =>
      f ← group_append (fixed_stride_dim_tags g) target_axis i;
      Ok {| vector_dim := vector_dim g;
            computed_stride_dim_tags := computed_stride_dim_tags g;
            fixed_stride_dim_tags := f |}
  | ComputedStrideArrayDimTag order _ target_axis =>
      c ← (if PyStr.contains "cC" order then
             group_insert0 (computed_stride_dim_tags g) target_axis i
           else if PyStr.contains "fF" order then
             group_append (computed_stride_dim_tags g) target_axis i
           else Raise InvalidOrderValue);
      Ok {| vector_dim := vector_dim g;
            computed_stride_dim_tags := c;
            fixed_stride_dim_tags := fixed_stride_dim_tags g |}
  | SeparateArrayArrayDimTag => Ok g
  end.

(** The loop [for i, dt in enumerate(dim_tags)], from position [i] on. *)
Fixpoint pick_apart (i : nat) (dim_tags : list dim_tag) (g : tag_groups)
    : result tag_groups :=
  match dim_tags with
  | [] => Ok g
  | dt :: rest => g' ← pick_apart_step i dt g; pick_apart (S i) rest g'
  end.

(** [dt.pad_to] *)
Definition pad_to_of (dt : dim_tag) : result (option expr) :=
  match dt with
  | ComputedStrideArrayDimTag _ pad_to _ => Ok pad_to
  | _ => Raise PyAttributeError
  end.

(** The loop [for i in computed_stride_dim_tags[target_axis]], from the
    current values of [new_dim_tags] and [stride_so_far].  [Ok None] is the
    function's [return None]; [Ok (Some (tags, s))] is the state the loop
    ends in. *)
Fixpoint convert_computed (shape : shape_t) (dim_tags : list dim_tag)
    (indices : list nat) (new_dim_tags : list dim_tag) (stride_so_far : expr)
    : result (option (list dim_tag * expr)) :=
  match indices with
  | [] => Ok (Some (new_dim_tags, stride_so_far))
  | i :: rest =>
      dt ← index dim_tags i;
      let new_dim_tags :=
        <[i := FixedStrideArrayDimTag stride_so_far 0]> new_dim_tags in
      match shape with
      | ShapeNone => Ok None
      | ShapeAuto => Raise PyTypeError
      | ShapeTuple extents =>
          shape_i ← index extents i;
          let stride_so_far := py_mul stride_so_far shape_i in
          pad_to ← pad_to_of dt;
          stride_so_far ←
            match pad_to with
            | Some pad_to =>
                q ← div_ceil stride_so_far pad_to;
                Ok (py_mul q stride_so_far)
            | None => Ok stride_so_far
            end;
          convert_computed shape dim_tags rest new_dim_tags stride_so_far
      end
  end.

(** The loop [for i in fixed_stride_dim_tags[target_axis]]. *)
Fixpoint keep_fixed (dim_tags : list dim_tag) (indices : list nat)
    (new_dim_tags : list dim_tag) : result (list dim_tag) :=
  match indices with
  | [] => Ok new_dim_tags
  | i :: rest =>
      dt ← index dim_tags i;
      keep_fixed dim_tags rest (<[i := dt]> new_dim_tags)
  end.

(** The loop [for target_axis in range(num_target_axes)], over the target
    axes still to visit. *)
Fixpoint convert_axes (shape : shape_t) (dim_tags : list dim_tag)
    (g : tag_groups) (target_axes : list nat) (new_dim_tags : list dim_tag)
    : result (option (list dim_tag)) :=
  match target_axes with
  | [] => Ok (Some new_dim_tags)
  | target_axis :: rest =>
      computed ← index (computed_stride_dim_tags g) target_axis;
      fixed ← index (fixed_stride_dim_tags g) target_axis;
      if bool_decide (computed ≠ []) && bool_decide (fixed ≠ [])
      then Raise ConflictingStrideSpecification
      else if bool_decide (fixed ≠ []) then
        new_dim_tags ← keep_fixed dim_tags fixed new_dim_tags;
        convert_axes shape dim_tags g rest new_dim_tags
      else
        r ← convert_computed shape dim_tags computed new_dim_tags (EInt 1);
        match r with
        | None => Ok None
        | Some (new_dim_tags, _) =>
            convert_axes shape dim_tags g rest new_dim_tags
        end
  end.

(** [convert_computed_to_fixed_dim_tags(name, num_user_axes,
    num_target_axes, shape, dim_tags)].  [Ok None] is the returned [None]:
    the tags cannot be normalised yet.  [name] only appears in messages and
    [num_user_axes] is not used by the function. *)
Definition convert_computed_to_fixed_dim_tags
    (name : string) (num_user_axes : option nat) (num_target_axes : nat)
    (shape : shape_t) (dim_tags : list dim_tag)
    : result (option (list dim_tag)) :=
  g ← pick_apart 0 dim_tags
        {| vector_dim := None;
           computed_stride_dim_tags := replicate num_target_axes [];
           fixed_stride_dim_tags := replicate num_target_axes [] |};
  convert_axes shape dim_tags g (seq 0 num_target_axes) dim_tags.

(** ** The array descriptor *)

(** [offset]: [0], a string (an argument name), or [loopy.auto]. *)
Inductive offset_t : Type :=
  | OffsetZero
  | OffsetName (s : string)
  | OffsetAuto.

(** [if self.offset:] *)
Definition offset_truthy (o : offset_t) : bool :=
  match o with
  | OffsetZero => false
  | OffsetName s => negb (bool_decide (s = ""))
  | OffsetAuto => true
  end.

(** The set built by [for dt in dim_tags: if isinstance(dt,
    _StrideArrayDimTagBase): target_axes.add(dt.target_axis)]. *)
Definition target_axes_of (dim_tags : list dim_tag) : gset nat :=
  foldl (λ target_axes dt,
           match stride_target_axis dt with
           | Some t => {[ t ]} ∪ target_axes
           | None => target_axes
           end) ∅ dim_tags.

(** [len(dim_tags)] before the tags are parsed: the number of characters
    when [dim_tags] is still a string. *)
Definition dim_tags_input_len (d : dim_tags_input) : nat :=
  match d with
  | DimTagsString s => String.length s
  | DimTagsList l => List.length l
  end.

(** [_parse_shape_or_strides] on a value that holds no string: a tuple is
    kept, a single expression becomes a 1-tuple.  (Strings, and strings
    inside tuples, are first turned into expressions by [pymbolic.parse];
    that parser is outside this file and the inputs here are its
    outputs.) *)
Inductive extents_input : Type :=
  | NotGiven                       (* None *)
  | Auto                           (* loopy.auto *)
  | OneExtent (e : expr)
  | Extents (l : list expr).

Definition known (x : extents_input) : bool :=
  match x with NotGiven | Auto => false | _ => true end.

Definition _parse_shape_or_strides (x : extents_input) : list expr :=
  match x with
  | OneExtent e => [e]
  | Extents l => l
  | _ => []
  end.

Definition shape_of_input (x : extents_input) : shape_t :=
  match x with
  | NotGiven => ShapeNone
  | Auto => ShapeAuto
  | _ => ShapeTuple (_parse_shape_or_strides x)
  end.

Section Array.

Variable parse : string → result expr.

(** The element type: a [numpy.dtype].  [DtypeNone] is [None],
    [DtypeAuto] is [loopy.auto]. *)
Variable dtype : Type.

Inductive dtype_t : Type :=
  | DtypeNone
  | DtypeAuto
  | Dtype (d : dtype).

(** The fields [Record.__init__] stores at the end of
    [ArrayBase.__init__]. *)
Record ArrayBase : Type := {
  name : string;
  dtype_of : dtype_t;
  shape : shape_t;
  dim_tags : option (list dim_tag);
  offset : offset_t;
  order : option string;
  strides : extents_input
}.

(** The class attributes [min_target_axes] and [max_target_axes] of the
    array kind that is being constructed. *)
Variable min_target_axes max_target_axes : nat.

(** [self.name] read inside [__init__].  The attribute is assigned by
    [Record.__init__], the last statement of [__init__]; [self_name] is
    the value the attribute has before that, [None] when the object has
    none (every object that reaches [ArrayBase.__init__] without a
    [name] attribute of its own). *)
Definition read_self_name (self_name : option string) : result string :=
  match self_name with
  | Some n => Ok n
  | None => Raise PyAttributeError
  end.

(** The block [if dim_tags is not None:] that parses the tags, finds the
    number of target axes and normalises. *)
Definition init_dim_tags (self_name : option string) (name : string)
    (num_user_axes : option nat) (shape : shape_t)
    (dim_tags : dim_tags_input) : result (list dim_tag) :=
  dim_tags ← parse_array_dim_tags parse dim_tags;
  let target_axes := target_axes_of dim_tags in
  if negb (bool_decide (target_axes = set_seq 0 (size target_axes))) then
    n ← read_self_name self_name; Raise NonContiguousTargetAxes
  else
    let num_target_axes := size target_axes in
    if negb ((min_target_axes <=? num_target_axes)%nat
             && (num_target_axes <=? max_target_axes)%nat) then
      n ← read_self_name self_name; Raise TargetAxisCountOutOfRange
    else
      new_dim_tags ← convert_computed_to_fixed_dim_tags
                        name num_user_axes num_target_axes shape dim_tags;
      match new_dim_tags with
      | Some new_dim_tags => Ok new_dim_tags
      | None => Ok dim_tags
      end.

(** [ArrayBase.__init__(self, name, dtype, shape, dim_tags, offset,
    strides, order)] *)
Definition ArrayBase_init (self_name : option string)
    (name : string) (dtype : dtype_t) (shape : extents_input)
    (dim_tags : option dim_tags_input) (offset : offset_t)
    (strides : extents_input) (order : option string)
    : result ArrayBase :=
  let strides_known := known strides in
  let shape_known := known shape in
  let strides_parsed := _parse_shape_or_strides strides in
  let shape := shape_of_input shape in
  (* convert strides to dim_tags *)
  if bool_decide (dim_tags ≠ None) && strides_known
  then Raise StridesAndDimTags
  else
    let '(dim_tags, strides) :=
      match dim_tags with
      | None =>
          if strides_known
          then (Some (DimTagsList
                        ((λ s, TagObject (FixedStrideArrayDimTag s 0))
                           <$> strides_parsed)), NotGiven)
          else (None, strides)
      | Some _ => (dim_tags, strides)
      end in
    (* determine number of user axes *)
    let num_user_axes :=
      match shape with
      | ShapeTuple l => Some (List.length l)
      | _ => None
      end in
    num_user_axes ←
      match dim_tags with
      | None => Ok num_user_axes
      | Some d =>
          let new_num_user_axes := dim_tags_input_len d in
          match num_user_axes with
          | None => Ok (Some new_num_user_axes)
          | Some n =>
              if bool_decide (new_num_user_axes ≠ n)
              then Raise ContradictoryRank
              else Ok (Some n)
          end
      end;
    (* convert order to dim_tags *)
    let '(dim_tags, order) :=
      match dim_tags, num_user_axes, order with
      | None, Some n, Some o =>
          (Some (DimTagsList (replicate n (TagString o))), None)
      | _, _, _ => (dim_tags, order)
      end in
    dim_tags ←
      match dim_tags with
      | None => Ok None
      | Some d =>
          t ← init_dim_tags self_name name num_user_axes shape d;
          Ok (Some t)
      end;
    let order := match dim_tags with Some _ => None | None => order end in
    Ok {| name := name; dtype_of := dtype; shape := shape;
          dim_tags := dim_tags; offset := offset; order := order;
          strides := strides |}.

End Array.

Arguments DtypeNone {dtype}.
Arguments DtypeAuto {dtype}.
Arguments Dtype {dtype} d.
Arguments name {dtype} _.
Arguments dtype_of {dtype} _.
Arguments shape {dtype} _.
Arguments dim_tags {dtype} _.
Arguments offset {dtype} _.
Arguments order {dtype} _.
Arguments strides {dtype} _.

(** ** Declaration planning and access planning *)

(** [for i in xrange(n): for res in body(i): yield res], collected: the
    first exception ends the iteration. *)
Definition for_xrange {A} (n : Z) (body : Z → result (list A))
    : result (list A) :=
  @List.concat A <$> for_each body (seqZ 0 n).

(** The record [loopy.codegen.CLArgumentInfo]. *)
Record CLArgumentInfo {dtype : Type} : Type := {
  arg_name : string;
  arg_base_name : option string;
  arg_dtype : @dtype_t dtype;
  arg_shape : option (list (option expr));
  arg_strides : option (list expr);
  arg_offset_for_name : option string
}.
Arguments CLArgumentInfo dtype : clear implicits.

(** The record [AccessInfo].  A field that the constructor call does not
    name is an attribute the object does not have: [array_suffix] is then
    [None].  [vector_index] is [None] for Python's [None]. *)
Record AccessInfo : Type := {
  array_suffix : option string;
  vector_index : option Z;
  subscripts : list expr
}.

(** The [index] argument of [get_access_info]: a tuple, or one expression
    (which is not a tuple). *)
Inductive subscript_input : Type :=
  | OneIndex (e : expr)
  | IndexTuple (l : list expr).

Section Planning.

Variable dtype : Type.

(** [cl.array.vec.types], the dictionary from (element type, lane count)
    to vector type, and [dtype.itemsize]. *)
Variable vec_types : @dtype_t dtype → Z → option dtype.
Variable itemsize : dtype → Z.

(** The cgen declarations: [self.get_arg_decl], implemented by the
    argument classes, and [Const(POD(index_dtype, offset_name))]. *)
Variable cgen_decl : Type.
Variable get_arg_decl :
  string → list (option expr) → @dtype_t dtype → bool → cgen_decl.
Variable const_pod : dtype → string → cgen_decl.

Implicit Types self ary : ArrayBase dtype.

(** [self.dim_tags], where the source iterates over it or subscripts it:
    [None] supports neither. *)
Definition dim_tags_seq self : result (list dim_tag) :=
  match dim_tags self with
  | Some l => Ok l
  | None => Raise PyTypeError
  end.

(** [self.shape], under a name that a local variable [shape] does not
    hide. *)
Definition self_shape self : shape_t := shape self.

(** [self.shape[i]] *)
Definition shape_at self (i : nat) : result expr :=
  match shape self with
  | ShapeTuple l => index l i
  | _ => Raise PyTypeError
  end.

(** [len(self.shape)] *)
Definition shape_len self : result nat :=
  match shape self with
  | ShapeTuple l => Ok (List.length l)
  | _ => Raise PyTypeError
  end.

(** [ArrayBase.num_target_axes] *)
Definition num_target_axes self : result nat :=
  l ← dim_tags_seq self; Ok (size (target_axes_of l)).

(** [ArrayBase.num_user_axes(require_answer)] *)
Definition num_user_axes self (require_answer : bool)
    : result (option nat) :=
  match shape self with
  | ShapeNone =>
      match dim_tags self with
      | Some l => Ok (Some (List.length l))
      | None =>
          if require_answer then Raise IndeterminateRank else Ok None
      end
  | _ => n ← shape_len self; Ok (Some n)
  end.

(** The loop of [ArrayBase.vector_size], from position [i] on.  The
    message of the [RuntimeError] for a non-integer extent names
    [user_axis], which is not defined in [vector_size]. *)
Fixpoint vector_size_from self (i : nat) (tags : list dim_tag)
    : result Z :=
  match tags with
  | [] => Ok 1
  | VectorArrayDimTag :: _ =>
      shape_i ← shape_at self i;
      match shape_i with
      | EInt n =>
          match vec_types (dtype_of self) n, dtype_of self with
          | Some vec_dtype, Dtype d =>
              if bool_decide (itemsize d = 0) then Raise PyZeroDivisionError
              else Ok (itemsize vec_dtype / itemsize d)
          | Some _, _ => Raise PyAttributeError
          | None, _ => Raise PyKeyError
          end
      | _ => Raise PyNameError
      end
  | _ :: rest => vector_size_from self (S i) rest
  end.

(** [ArrayBase.vector_size] *)
Definition vector_size self : result Z :=
  l ← dim_tags_seq self; vector_size_from self 0 l.

Definition decl : Type := cgen_decl * CLArgumentInfo dtype.

(** The call [gen_decls(name_suffix + "_s%d" % i, shape, dtype,
    user_index + (i,))] of the separate-array branch.  [gen_decls] has
    five parameters, none of them with a default value, and the call
    supplies four arguments: Python raises [TypeError] when it binds the
    arguments, before any of the body runs. *)
Definition gen_decls_four_arguments (name_suffix : string)
    (shape : list (option expr)) (dtype : @dtype_t dtype)
    (user_index : list (option Z)) : result (list decl) :=
  Raise PyTypeError.

Section GenDecls.

Variable self : ArrayBase dtype.
Variable is_written : bool.
Variable index_dtype : dtype.
Variable vector_size : Z.

(** The declarations yielded when all user axes are consumed. *)
Definition gen_decls_base (name_suffix : string)
    (shape : list (option expr)) (strides : list expr)
    (dtype : @dtype_t dtype) : list decl :=
  let full_name := name self +:+ name_suffix in
  (get_arg_decl name_suffix shape dtype is_written,
   {| arg_name := full_name; arg_base_name := Some (name self);
      arg_dtype := dtype; arg_shape := Some shape;
      arg_strides := Some strides; arg_offset_for_name := None |})
  :: (if offset_truthy (offset self) then
        let offset_name := full_name +:+ "_offset" in
        [(const_pod index_dtype offset_name,
          {| arg_name := offset_name; arg_base_name := None;
             arg_dtype := Dtype index_dtype; arg_shape := None;
             arg_strides := None; arg_offset_for_name := Some full_name |})]
      else []).

(** [gen_decls(name_suffix, shape, strides, dtype, user_index)], with
    everything it yields collected in order.  [remaining] is
    [num_user_axes - len(user_index)], and [0] when [num_user_axes] is
    [None]: the test [num_user_axes is None or user_axis >=
    num_user_axes] is the test [remaining = 0]. *)
Fixpoint gen_decls (remaining : nat) (name_suffix : string)
    (shape : list (option expr)) (strides : list expr)
    (dtype : @dtype_t dtype) (user_index : list (option Z))
    : result (list decl) :=
  let dtype :=
    match dtype with DtypeNone => dtype_of self | _ => dtype end in
  let user_axis := List.length user_index in
  match remaining with
  | O => Ok (gen_decls_base name_suffix shape strides dtype)
  | S remaining =>
      tags ← dim_tags_seq self;
      dim_tag ← index tags user_axis;
      match dim_tag with
      | FixedStrideArrayDimTag stride _ =>
          new_shape ←
            match self_shape self with
            | ShapeNone => Ok (shape ++ [None])%list
            | _ => shape_i ← shape_at self user_axis;
                   Ok (shape ++ [Some shape_i])%list
            end;
          s ← py_floordiv stride (EInt vector_size);
          gen_decls remaining name_suffix new_shape
            (strides ++ [s])%list dtype (user_index ++ [None])%list
      | SeparateArrayArrayDimTag =>
          shape_i ← shape_at self user_axis;
          match shape_i with
          | EInt n =>
              for_xrange n (λ i,
                gen_decls_four_arguments
                  (name_suffix +:+ "_s" +:+ pretty i) shape dtype
                  (user_index ++ [Some i])%list)
          | _ => Raise NonConstantSplitExtent
          end
      | VectorArrayDimTag =>
          shape_i ← shape_at self user_axis;
          match shape_i with
          | EInt n =>
              match vec_types dtype n with
              | Some vec_dtype =>
                  gen_decls remaining name_suffix shape strides
                    (Dtype vec_dtype) (user_index ++ [None])%list
              | None => Raise PyKeyError
              end
          | _ => Raise NonConstantVectorExtent
          end
      | ComputedStrideArrayDimTag _ _ _ => Raise UnsupportedDimTag
      end
  end.

End GenDecls.

(** [ArrayBase.decl_info(is_written, index_dtype)], as the list of the
    pairs the generator yields. *)
Definition decl_info self (is_written : bool) (index_dtype : dtype)
    : result (list decl) :=
  vs ← vector_size self;
  n ← num_user_axes self false;
  gen_decls self is_written index_dtype vs (default 0%nat n)
    "" [] [] (dtype_of self) [].

(** The local variables of [get_access_info] that its loop updates. *)
Record access_state : Type := {
  st_array_suffix : string;
  st_vector_index : option Z;
  st_subscripts : list expr
}.

(** One iteration of [for i, (idx, dim_tag) in enumerate(zip(index,
    ary.dim_tags))].  In [subscripts[t] += e] the element is read before
    [e] is evaluated. *)
Definition access_step (eval_expr : expr → expr) (vector_size : Z)
    (idx : expr) (dim_tag : dim_tag) (st : access_state)
    : result access_state :=
  match dim_tag with
  | FixedStrideArrayDimTag stride target_axis =>
      _ ← match stride with
          | EInt n =>
              if bool_decide (vector_size = 0) then Raise PyZeroDivisionError
              else if negb (bool_decide (n `mod` vector_size = 0))
              then Raise MisalignedVectorStride
              else Ok ()
          | _ => Ok ()
          end;
      old ← index (st_subscripts st) target_axis;
      q ← py_floordiv stride (EInt vector_size);
      Ok {| st_array_suffix := st_array_suffix st;
            st_vector_index := st_vector_index st;
            st_subscripts :=
              <[target_axis := py_add old (py_mul q idx)]>
                (st_subscripts st) |}
  | SeparateArrayArrayDimTag =>
      match eval_expr idx with
      | EInt i =>
          Ok {| st_array_suffix := st_array_suffix st +:+ "_s" +:+ pretty i;
                st_vector_index := st_vector_index st;
                st_subscripts := st_subscripts st |}
      | _ => Raise NonConstantSplitIndex
      end
  | VectorArrayDimTag =>
      match eval_expr idx with
      | EInt i =>
          match st_vector_index st with
          | Some _ => Raise PyAssertionError
          | None =>
              Ok {| st_array_suffix := st_array_suffix st;
                    st_vector_index := Some i;
                    st_subscripts := st_subscripts st |}
          end
      | _ => Raise NonConstantVectorIndex
      end
  | ComputedStrideArrayDimTag _ _ _ => Raise UnsupportedDimTag
  end.

(** The loop over [zip(index, ary.dim_tags)]: it ends with the shorter
    of the two sequences. *)
Fixpoint access_loop (eval_expr : expr → expr) (vector_size : Z)
    (index : list expr) (tags : list dim_tag) (st : access_state)
    : result access_state :=
  match index, tags with
  | idx :: index', dim_tag :: tags' =>
      st' ← access_step eval_expr vector_size idx dim_tag st;
      access_loop eval_expr vector_size index' tags' st'
  | _, _ => Ok st
  end.

(** [get_access_info(ary, index, eval_expr)] *)
Definition get_access_info ary (index : subscript_input)
    (eval_expr : expr → expr) : result AccessInfo :=
  let index :=
    match index with
    | OneIndex e => [e]
    | IndexTuple l => l
    end in
  match shape ary with
  | ShapeNone =>
      Ok {| array_suffix := None; vector_index := Some 0;
            subscripts := index |}
  | _ =>
      n ← shape_len ary;
      if bool_decide (n ≠ List.length index)
      then Raise SubscriptArityMismatch
      else
        num_target_axes ← num_target_axes ary;
        vector_size ← vector_size ary;
        tags ← dim_tags_seq ary;
        st ← access_loop eval_expr vector_size index tags
               {| st_array_suffix := "";
                  st_vector_index := None;
                  st_subscripts := replicate num_target_axes (EInt 0) |};
        subscripts ←
          (if offset_truthy (offset ary) then
             if bool_decide (1 < num_target_axes)%nat
             then Raise UnsupportedMultiAxisOffset
             else
               let offset_name :=
                 match offset ary with
                 | OffsetName s => s
                 | _ => name ary +:+ st_array_suffix st +:+ "_offset"
                 end in
               s0 ← list_index (st_subscripts st) 0;
               Ok (<[0%nat := py_add (EVar offset_name) s0]>
                     (st_subscripts st))
           else Ok (st_subscripts st));
        Ok {| array_suffix := Some (st_array_suffix st);
              vector_index := st_vector_index st;
              subscripts := subscripts |}
  end.

End Planning.

(** ** Further methods of the array descriptor *)

Section Methods.

Variable parse : string → result expr.
Variable dtype : Type.
Variable itemsize : dtype → Z.
Variable min_target_axes max_target_axes : nat.

(** [ArrayBase.numpy_strides]: [tuple(self.dtype.itemsize*s for s in
    self.strides)].  The generator expression calls [iter(self.strides)]
    when it is created: [None] and [loopy.auto] (a class) are not iterable,
    and neither is a value that is not a tuple.  [self.dtype.itemsize] is
    read once per element. *)
Definition numpy_strides (self : ArrayBase dtype) : result (list expr) :=
  match strides self with
  | Extents l =>
      for_each (λ s, match dtype_of self with
                     | Dtype d => Ok (py_mul (EInt (itemsize d)) s)
                     | _ => Raise PyAttributeError
                     end) l
  | _ => Raise PyTypeError
  end.

(** The keyword argument that [Record.copy] passes for the field [shape]
    when [map_exprs] maps it ([tuple(mapper(s) for s in self.shape)]), and
    the stored value itself when it does not. *)
Definition mapped_shape (mapper : expr → expr) (sh : shape_t)
    : extents_input :=
  match sh with
  | ShapeNone => NotGiven
  | ShapeAuto => Auto
  | ShapeTuple l => Extents (mapper <$> l)
  end.

(** [ArrayBase.map_exprs(mapper)].  Its last statement calls [self.copy]
    with the mapped fields as keyword arguments; that is the [copy] of
    pytools' [Record], which calls the class with every stored field as a
    keyword argument, the given ones replaced, so a new object runs
    [ArrayBase.__init__] on them. *)
Definition map_exprs (self : ArrayBase dtype) (mapper : expr → expr)
    : result (ArrayBase dtype) :=
  let shape_kw := mapped_shape mapper (shape self) in
  dim_tags_kw ←
    match dim_tags self with
    | Some l =>
        l' ← for_each (map_expr mapper) l;
        Ok (Some (DimTagsList (TagObject <$> l')))
    | None => Ok None
    end;
  ArrayBase_init parse dtype min_target_axes max_target_axes None
    (name self) (dtype_of self) shape_kw dim_tags_kw (offset self)
    (strides self) (order self).

End Methods.

(** ** Notions used in the statements *)

(** [p] occurs in [s]: what Python's [p in s] decides. *)
Definition is_substring (p s : string) : Prop :=
  ∃ pre post, s = pre +:+ p +:+ post.

(** The integer strides of a normalised tag list, in declaration order;
    [None] when the normaliser did not return tags or some tag is not a
    fixed stride with an integer value. *)
Definition int_stride (dt : dim_tag) : option Z :=
  match dt with
  | FixedStrideArrayDimTag (EInt s) _ => Some s
  | _ => None
  end.

Definition int_strides (r : result (option (list dim_tag)))
    : option (list Z) :=
  match r with
  | Ok (Some tags) => mapM int_stride tags
  | _ => None
  end.

(** The target axis of a computed-stride tag, and of a fixed-stride tag. *)
Definition computed_axis (dt : dim_tag) : option nat :=
  match dt with
  | ComputedStrideArrayDimTag _ _ t => Some t
  | _ => None
  end.

Definition fixed_axis (dt : dim_tag) : option nat :=
  match dt with
  | FixedStrideArrayDimTag _ t => Some t
  | _ => None
  end.

(** Some tag of the list is a computed-stride (fixed-stride) tag on target
    axis [t]. *)
Definition has_computed (t : nat) (tags : list dim_tag) : bool :=
  existsb (λ dt, bool_decide (computed_axis dt = Some t)) tags.

Definition has_fixed (t : nat) (tags : list dim_tag) : bool :=
  existsb (λ dt, bool_decide (fixed_axis dt = Some t)) tags.

(** The conditions under which the first loop of the normaliser, which
    sorts the axes into groups, runs to its end: every stride tag names a
    target axis below [num_target_axes], every computed-stride tag has an
    order that the loop knows, and at most one tag is a vector tag. *)
Definition order_known (o : string) : bool :=
  PyStr.contains "cC" o || PyStr.contains "fF" o.

Definition tag_in_range (num_target_axes : nat) (dt : dim_tag) : bool :=
  match dt with
  | FixedStrideArrayDimTag _ t => (t <? num_target_axes)%nat
  | ComputedStrideArrayDimTag o _ t =>
      (t <? num_target_axes)%nat && order_known o
  | _ => true
  end.

Fixpoint count_vectors (tags : list dim_tag) : nat :=
  match tags with
  | [] => 0
  | VectorArrayDimTag :: r => S (count_vectors r)
  | _ :: r => count_vectors r
  end.

Definition groupable (num_target_axes : nat) (tags : list dim_tag) : bool :=
  forallb (tag_in_range num_target_axes) tags
  && (count_vectors tags <=? 1)%nat.

(** No tag asks for padding to the integer 0. *)
Definition pad_nonzero (dt : dim_tag) : bool :=
  match dt with
  | ComputedStrideArrayDimTag _ (Some (EInt 0)) _ => false
  | _ => true
  end.

(** What a group holds for target axis [t] once the first loop has seen
    the tags [l], numbered from [i] on: what it held, and the positions of
    the tags of its kind. *)
Definition group_grown (num_target_axes : nat)
    (axis_of : dim_tag → option nat) (i : nat)
    (l : list dim_tag) (old new : list (list nat)) : Prop :=
  List.length new = num_target_axes ∧
  ∀ t grp', new !! t = Some grp' →
    ∃ grp, old !! t = Some grp ∧
      ∀ j, j ∈ grp' ↔
           j ∈ grp ∨ ∃ k dt, j = (i + k)%nat ∧ l !! k = Some dt
                             ∧ axis_of dt = Some t.

(** The groups of target axis [t] hold exactly the positions of the tags
    of their kind. *)
Definition groups_of (num_target_axes : nat) (tags : list dim_tag)
    (g : tag_groups) : Prop :=
  ∀ t, (t < num_target_axes)%nat →
    ∃ cg fg,
      computed_stride_dim_tags g !! t = Some cg
      ∧ fixed_stride_dim_tags g !! t = Some fg
      ∧ (∀ j, j ∈ cg ↔ ∃ dt, tags !! j = Some dt ∧ computed_axis dt = Some t)
      ∧ (∀ j, j ∈ fg ↔ ∃ dt, tags !! j = Some dt ∧ fixed_axis dt = Some t).

(** The stride at position [i] is the smallest of the list. *)
Definition smallest_at (i : nat) (strides : list Z) : Prop :=
  ∃ s, strides !! i = Some s ∧ ∀ s', s' ∈ strides → s ≤ s'.

(** Every tag of the list is a computed-stride tag of order [o] on target
    axis 0, without padding or with padding to a positive integer. *)
Definition pad_positive (pad_to : option expr) : bool :=
  match pad_to with
  | None => true
  | Some (EInt p) => 0 <? p
  | Some _ => false
  end.

Definition uniform_order (o : string) (tags : list dim_tag) : bool :=
  forallb (λ dt, match dt with
                 | ComputedStrideArrayDimTag o' pad_to 0 =>
                     bool_decide (o' = o) && pad_positive pad_to
                 | _ => false
                 end) tags.

(** A list of planned declarations that holds one declaration for the
    array and, when the offset is not 0, one companion declaration that
    carries the offset. *)
Definition one_array_declaration {dtype cgen_decl : Type}
    (offset : offset_t) (ds : list (cgen_decl * CLArgumentInfo dtype))
    : Prop :=
  ∃ d companions,
    ds = d :: companions
    ∧ arg_offset_for_name d.2 = None
    ∧ Forall (λ c, is_Some (arg_offset_for_name c.2)) companions
    ∧ List.length companions
      = (if offset_truthy offset then 1 else 0)%nat.

(** The product of a list of integers. *)
Definition product (l : list Z) : Z := foldr Z.mul 1 l.

(** A tag with its stride, if it has one, passed through [f]. *)
Definition map_stride (f : expr → expr) (dt : dim_tag) : dim_tag :=
  match dt with
  | FixedStrideArrayDimTag s t => FixedStrideArrayDimTag (f s) t
  | _ => dt
  end.

(** The number of commas of a string. *)
Fixpoint count_commas (s : string) : nat :=
  match s with
  | EmptyString => 0
  | String c r =>
      ((if bool_decide (c = ","%char) then 1 else 0) + count_commas r)%nat
  end.

(** No tag of the list is a computed-stride tag. *)
Definition normalised (tags : list dim_tag) : bool :=
  forallb (λ dt, bool_decide (computed_axis dt = None)) tags.

(** Every tag of the list is the computed-stride tag of order [o] on
    target axis 0 without padding. *)
Definition plain_order (o : string) (tags : list dim_tag) : bool :=
  forallb (λ dt, bool_decide (dt = ComputedStrideArrayDimTag o None 0)) tags.

(** What normalisation turns the tag [dt] into, when it returns tags:
    a computed-stride tag becomes some fixed-stride tag on target axis 0,
    every other tag stays. *)
Definition normalised_from (dt dt' : dim_tag) : Prop :=
  match dt with
  | ComputedStrideArrayDimTag _ _ _ =>
      ∃ s, dt' = FixedStrideArrayDimTag s 0
  | _ => dt' = dt
  end.

(** The state of [new_dim_tags] between two target axes: the computed
    tags of the axes in [seen] are replaced, the others are in place. *)
Definition axes_done (tags : list dim_tag) (seen : list nat)
    (new : list dim_tag) : Prop :=
  List.length new = List.length tags
  ∧ ∀ j dt, tags !! j = Some dt →
      match computed_axis dt with
      | Some t =>
          if bool_decide (t ∈ seen)
          then ∃ s, new !! j = Some (FixedStrideArrayDimTag s 0)
          else new !! j = Some dt
      | None => new !! j = Some dt
      end.

(** What a subscript of integer indices selects in an array whose tags
    are [tags]: the name suffix built from the indices of the
    separate-array axes, the index of the vector axis, and the sum of the
    contributions of the fixed-stride axes, stride divided by the vector
    size [m] times index.  As the loop of the access planner does, the
    three stop at the end of the shorter list. *)
Fixpoint split_suffix (tags : list dim_tag) (indices : list Z) : string :=
  match tags, indices with
  | SeparateArrayArrayDimTag :: tags', i :: indices' =>
      "_s" +:+ pretty i +:+ split_suffix tags' indices'
  | _ :: tags', _ :: indices' => split_suffix tags' indices'
  | _, _ => ""
  end.

Fixpoint lane (tags : list dim_tag) (indices : list Z) : option Z :=
  match tags, indices with
  | VectorArrayDimTag :: _, i :: _ => Some i
  | _ :: tags', _ :: indices' => lane tags' indices'
  | _, _ => None
  end.

Fixpoint address (m : Z) (tags : list dim_tag) (indices : list Z) : Z :=
  match tags, indices with
  | FixedStrideArrayDimTag (EInt s) _ :: tags', i :: indices' =>
      s / m * i + address m tags' indices'
  | _ :: tags', _ :: indices' => address m tags' indices'
  | _, _ => 0
  end.

(** Every tag is a separate-array tag, a vector tag, or a fixed-stride
    tag on target axis 0 whose stride is an integer multiple of [m]. *)
Definition aligned (m : Z) (tags : list dim_tag) : bool :=
  forallb (λ dt, match dt with
                 | FixedStrideArrayDimTag (EInt s) 0 =>
                     bool_decide (s `mod` m = 0)
                 | SeparateArrayArrayDimTag | VectorArrayDimTag => true
                 | _ => false
                 end) tags.

(** The position of the element with the indices [indices] in a block
    of extents [ext] laid out with the last index moving fastest, and with
    the first index moving fastest. *)
Fixpoint row_major (ext indices : list Z) : Z :=
  match ext, indices with
  | _ :: ext', i :: indices' => i * product ext' + row_major ext' indices'
  | _, _ => 0
  end.

Fixpoint column_major (ext indices : list Z) : Z :=
  match ext, indices with
  | e :: ext', i :: indices' => i + e * column_major ext' indices'
  | _, _ => 0
  end.

(** The tags that normalisation gives an integer shape for an order
    letter. *)
Definition order_tags (o : string) (ext : list Z) : list dim_tag :=
  (λ j, FixedStrideArrayDimTag
          (EInt (if bool_decide (PyStr.upper o = "C")
                 then product (drop (S j) ext)
                 else product (take j ext))) 0)
  <$> seq 0 (List.length ext).

(** The positions of the computed-stride tags of target axis [t], in
    declaration order; [i] is the position of the first tag of the
    list. *)
Fixpoint positions_from (t i : nat) (tags : list dim_tag) : list nat :=
  match tags with
  | [] => []
  | dt :: rest =>
      if bool_decide (computed_axis dt = Some t)
      then i :: positions_from t (S i) rest
      else positions_from t (S i) rest
  end.

Definition computed_positions (t : nat) (tags : list dim_tag) : list nat :=
  positions_from t 0 tags.

(** Every computed-stride tag of target axis [t] has the order [o]. *)
Definition axis_order (o : string) (t : nat) (tags : list dim_tag) : bool :=
  forallb (λ dt, match dt with
                 | ComputedStrideArrayDimTag o' _ t' =>
                     negb (bool_decide (t' = t)) || bool_decide (o' = o)
                 | _ => true
                 end) tags.

(** Every computed-stride tag of target axis [t] comes with an integer
    extent that is at least 1, and has no padding or a padding to a
    positive integer. *)
Definition axis_ready (t : nat) (tags : list dim_tag) (extents : list expr)
    : bool :=
  forallb (λ '(dt, e),
             match dt with
             | ComputedStrideArrayDimTag _ p t' =>
                 negb (bool_decide (t' = t))
                 || (pad_positive p
                     && match e with EInt z => 1 <=? z | _ => false end)
             | _ => true
             end) (zip tags extents).

(** No target axis carries both a computed-stride and a fixed-stride
    tag. *)
Definition unmixed (num_target_axes : nat) (tags : list dim_tag) : bool :=
  forallb (λ t, negb (has_computed t tags && has_fixed t tags))
          (seq 0 num_target_axes).

(** The product of a list of expressions as the walk of the normaliser
    forms it: from 1, multiplying from the left with Python's [*]. *)
Definition symbolic_product (l : list expr) : expr :=
  foldl py_mul (EInt 1) l.

(** A shape with every extent of its tuple, if it is one, passed through
    [f]. *)
Definition map_shape (f : expr → expr) (sh : shape_t) : shape_t :=
  match sh with
  | ShapeTuple l => ShapeTuple (f <$> l)
  | _ => sh
  end.

(** A shape tuple has as many extents as there are tags. *)
Definition rank_agrees (sh : shape_t) (tags : list dim_tag) : bool :=
  match sh with
  | ShapeTuple l => bool_decide (List.length tags = List.length l)
  | _ => true
  end.

(** ** The tag constructor *)

Lemma startswith_spec s p :
  PyStr.startswith s p = true ↔ ∃ post, s = p +:+ post.
Proof.
  revert s. induction p as [|a p IH]; intros s; simpl.
  - split; [intros _; by exists s | done].
  - destruct s as [|b s]; simpl.
    + split; [done | by intros [post ?]].
    + rewrite andb_true_iff, bool_decide_eq_true, IH. split.
      * intros [-> [post ->]]. by exists post.
      * intros [post [= -> ->]]. eauto.
Qed.

Lemma contains_spec s p :
  PyStr.contains s p = true ↔ is_substring p s.
Proof.
  unfold is_substring. induction s as [|c s IH]; simpl.
  - rewrite orb_false_r, startswith_spec. split.
    + intros [post ->]. by exists "", post.
    + intros [[|a pre] [post H]]; simpl in H; [eauto | done].
  - rewrite orb_true_iff, IH, startswith_spec. split.
    + intros [[post ->] | (pre & post & ->)].
      * by exists "", post.
      * by exists (String c pre), post.
    + intros [[|a pre] [post H]]; simpl in H.
      * left. eauto.
      * injection H as -> ->. right. eauto.
Qed.

(** C10.  [ComputedStrideArrayDimTag.__init__] accepts an order exactly
    when its upper-case form occurs in the two-letter string CF as a
    substring: any other order raises, the accepted tag stores the
    upper-case form; in particular the order x is refused, while the empty
    order and the two-letter order CF are accepted although neither is one
    of the letters C and F. *)
Theorem computed_stride_init_substring order pad_to target_axis :
  (is_substring (PyStr.upper order) "CF" →
     ComputedStrideArrayDimTag_init order pad_to target_axis
     = Ok (ComputedStrideArrayDimTag (PyStr.upper order) pad_to target_axis))
  ∧ (¬ is_substring (PyStr.upper order) "CF" →
     ComputedStrideArrayDimTag_init order pad_to target_axis
     = Raise InvalidOrder)
  ∧ ComputedStrideArrayDimTag_init "x" pad_to target_axis = Raise InvalidOrder
  ∧ ComputedStrideArrayDimTag_init "" pad_to target_axis
    = Ok (ComputedStrideArrayDimTag "" pad_to target_axis)
  ∧ ComputedStrideArrayDimTag_init "CF" pad_to target_axis
    = Ok (ComputedStrideArrayDimTag "CF" pad_to target_axis)
  ∧ "" ≠ "C" ∧ "" ≠ "F" ∧ "CF" ≠ "C" ∧ "CF" ≠ "F".
Proof.
  unfold ComputedStrideArrayDimTag_init.
  split_and!; try done.
  - intros H%contains_spec. by rewrite H.
  - intros H. destruct (PyStr.contains "CF" (PyStr.upper order)) eqn:E; [|done].
    by apply contains_spec in E.
Qed.

Lemma computed_stride_init_substring_witness :
  ComputedStrideArrayDimTag_init "cf" None 0
  = Ok (ComputedStrideArrayDimTag "CF" None 0)
  ∧ ComputedStrideArrayDimTag_init "fc" None 0 = Raise InvalidOrder.
Proof.
  pose proof (computed_stride_init_substring "cf" None 0%nat) as (H1 & _).
  pose proof (computed_stride_init_substring "fc" None 0%nat) as (_ & H2 & _).
  split.
  - apply H1. by exists "", "".
  - apply H2. intros H%contains_spec. vm_compute in H. discriminate H.
Defined.

(** ** The textual form of tags: printing, then parsing *)

(** C4.  Printing a fixed-stride tag and parsing the text back: the parser
    takes the branch of the prefix stride: and returns before it looks for the arrow
    suffix, so it hands everything after the colon, arrow and target axis
    included, to the expression parser and builds a tag on target axis 0.
    Hence no fixed-stride tag on a target axis other than 0 is read back,
    whatever the expression parser and printer do, for instance the tag
    with stride 5 on target axis 1; the tags sep and vec are read back. *)
Theorem fixed_stride_print_parse
    (parse : string → result expr) (str_symbolic : expr → string)
    (stride : expr) (target_axis : nat) :
  parse_array_dim_tag parse
    (TagString (dim_tag_str str_symbolic
                  (FixedStrideArrayDimTag stride target_axis)))
  = (stride' ← parse (py_str str_symbolic stride +:+ "->"
                      +:+ pretty target_axis);
     Ok (FixedStrideArrayDimTag stride' 0))
  ∧ bool_decide
      (parse_array_dim_tag parse
         (TagString (dim_tag_str str_symbolic
                       (FixedStrideArrayDimTag stride (S target_axis))))
       = Ok (FixedStrideArrayDimTag stride (S target_axis))) = false
  ∧ dim_tag_str str_symbolic (FixedStrideArrayDimTag (EInt 5) 1)
    = "stride:5->1"
  ∧ bool_decide
      (parse_array_dim_tag parse (TagString "stride:5->1")
       = Ok (FixedStrideArrayDimTag (EInt 5) 1)) = false
  ∧ parse_array_dim_tag parse
      (TagString (dim_tag_str str_symbolic SeparateArrayArrayDimTag))
    = Ok SeparateArrayArrayDimTag
  ∧ parse_array_dim_tag parse
      (TagString (dim_tag_str str_symbolic VectorArrayDimTag))
    = Ok VectorArrayDimTag.
Proof.
  assert (Hgen : ∀ s t,
    parse_array_dim_tag parse
      (TagString (dim_tag_str str_symbolic (FixedStrideArrayDimTag s t)))
    = (s' ← parse (py_str str_symbolic s +:+ "->" +:+ pretty t);
       Ok (FixedStrideArrayDimTag s' 0))) by done.
  split_and!; [apply Hgen | | by vm_compute | | done | done].
  - rewrite Hgen. apply bool_decide_eq_false.
    by destruct (parse _).
  - apply bool_decide_eq_false. simpl.
    by destruct (parse _).
Qed.

(** ** Stride normalisation on the scenarios of the design document *)

(** C1.  With shape (4,5), the tags C, C are parsed to two computed-stride
    tags of order C on target axis 0 and normalised to fixed strides 5 and
    1 on target axis 0; the tags F, F are normalised to fixed strides 1 and
    4 on target axis 0. *)
Theorem normalize_4_by_5
    (parse : string → result expr) (name : string)
    (num_user_axes : option nat) :
  parse_array_dim_tags parse (DimTagsList [TagString "C"; TagString "C"])
  = Ok [ComputedStrideArrayDimTag "C" None 0;
        ComputedStrideArrayDimTag "C" None 0]
  ∧ convert_computed_to_fixed_dim_tags name num_user_axes 1
      (ShapeTuple [EInt 4; EInt 5])
      [ComputedStrideArrayDimTag "C" None 0;
       ComputedStrideArrayDimTag "C" None 0]
    = Ok (Some [FixedStrideArrayDimTag (EInt 5) 0;
                FixedStrideArrayDimTag (EInt 1) 0])
  ∧ parse_array_dim_tags parse (DimTagsList [TagString "F"; TagString "F"])
    = Ok [ComputedStrideArrayDimTag "F" None 0;
          ComputedStrideArrayDimTag "F" None 0]
  ∧ convert_computed_to_fixed_dim_tags name num_user_axes 1
      (ShapeTuple [EInt 4; EInt 5])
      [ComputedStrideArrayDimTag "F" None 0;
       ComputedStrideArrayDimTag "F" None 0]
    = Ok (Some [FixedStrideArrayDimTag (EInt 1) 0;
                FixedStrideArrayDimTag (EInt 4) 0]).
Proof. by split_and!. Qed.

(** C2.  The padding step computes [div_ceil(stride_so_far, pad_to) *
    stride_so_far], not [div_ceil(stride_so_far, pad_to) * pad_to]: with
    shape (5,3) and the tags F(pad=8), F, the running stride after axis 0
    is 5, the padding step leaves it at 1 * 5 = 5, and the axis that
    follows receives stride 5, which is not a multiple of 8. *)
Theorem pad_to_is_not_applied (name : string) (num_user_axes : option nat) :
  convert_computed_to_fixed_dim_tags name num_user_axes 1
    (ShapeTuple [EInt 5; EInt 3])
    [ComputedStrideArrayDimTag "F" (Some (EInt 8)) 0;
     ComputedStrideArrayDimTag "F" None 0]
  = Ok (Some [FixedStrideArrayDimTag (EInt 1) 0;
              FixedStrideArrayDimTag (EInt 5) 0])
  ∧ 5 `mod` 8 = 5
  ∧ (q ← div_ceil (EInt 5) (EInt 8); Ok (py_mul q (EInt 5))) = Ok (EInt 5).
Proof. by split_and!. Qed.

(** ** Descriptor construction: contiguity of the target axes *)

(** Whatever the tags are, when the target axes in use are not the range
    that starts at 0, the block that handles [dim_tags] raises: the
    non-contiguity error when [self.name] can be read, Python's
    [AttributeError] when it cannot. *)
Lemma init_dim_tags_non_contiguous
    (parse : string → result expr) (min_target_axes max_target_axes : nat)
    (self_name : option string) (name : string)
    (num_user_axes : option nat) (shape : shape_t) (d : dim_tags_input)
    (tags : list dim_tag) :
  parse_array_dim_tags parse d = Ok tags →
  target_axes_of tags ≠ set_seq 0 (size (target_axes_of tags)) →
  init_dim_tags parse min_target_axes max_target_axes self_name name
    num_user_axes shape d
  = match self_name with
    | Some _ => Raise NonContiguousTargetAxes
    | None => Raise PyAttributeError
    end.
Proof.
  intros Hp Hne. unfold init_dim_tags. rewrite Hp. simpl.
  rewrite bool_decide_eq_false_2 by done. by destruct self_name.
Qed.

(** C9.  Constructing a descriptor with shape (4,5) and two fixed-stride
    tags on target axes 0 and 2: the contiguity test fires, and the
    message of the error it is about to raise reads [self.name], which
    [__init__] has not assigned yet; the construction ends with Python's
    [AttributeError], not with the non-contiguity error.  That error is
    raised only for an object that already has a [name] attribute. *)
Theorem non_contiguous_target_axes_error
    (parse : string → result expr) (dtype : Type)
    (min_target_axes max_target_axes : nat) (name : string)
    (dt : dtype_t dtype) (offset : offset_t) (n : string) :
  ArrayBase_init parse dtype min_target_axes max_target_axes None
    name dt (Extents [EInt 4; EInt 5])
    (Some (DimTagsList [TagObject (FixedStrideArrayDimTag (EInt 5) 0);
                        TagObject (FixedStrideArrayDimTag (EInt 1) 2)]))
    offset NotGiven None
  = Raise PyAttributeError
  ∧ ArrayBase_init parse dtype min_target_axes max_target_axes (Some n)
      name dt (Extents [EInt 4; EInt 5])
      (Some (DimTagsList [TagObject (FixedStrideArrayDimTag (EInt 5) 0);
                          TagObject (FixedStrideArrayDimTag (EInt 1) 2)]))
      offset NotGiven None
    = Raise NonContiguousTargetAxes.
Proof. split; vm_compute; reflexivity. Qed.

(** ** Declaration planning *)

(** C3.  The descriptor with tags sep, stride:1 and shape (3,10): the
    planner reaches the separate-array axis, and the first recursive call
    of that branch passes four arguments to the five-parameter
    [gen_decls]; the planner raises [TypeError] and emits no declaration
    at all, where three were expected. *)
Theorem decl_info_separate_axis_raises
    (dtype : Type) (vec_types : dtype_t dtype → Z → option dtype)
    (itemsize : dtype → Z) (cgen_decl : Type)
    (get_arg_decl : string → list (option expr) → dtype_t dtype → bool
                    → cgen_decl)
    (const_pod : dtype → string → cgen_decl)
    (name : string) (dt : dtype_t dtype) (offset : offset_t)
    (is_written : bool) (index_dtype : dtype) :
  decl_info dtype vec_types itemsize cgen_decl get_arg_decl const_pod
    {| name := name; dtype_of := dt;
       shape := ShapeTuple [EInt 3; EInt 10];
       dim_tags := Some [SeparateArrayArrayDimTag;
                         FixedStrideArrayDimTag (EInt 1) 0];
       offset := offset; order := None; strides := NotGiven |}
    is_written index_dtype
  = Raise PyTypeError.
Proof. reflexivity. Qed.

(** ** Access planning *)

(** For the descriptor without shape below and the subscript (i, j), the
    result does not have [vector_index = None]. *)
Lemma access_without_shape_sets_lane :
  ¬ ∃ ai,
      get_access_info () (λ _ _, None) (λ _, 1)
        {| name := "a"; dtype_of := DtypeNone; shape := ShapeNone;
           dim_tags := None; offset := OffsetZero; order := None;
           strides := NotGiven |}
        (IndexTuple [EVar "i"; EVar "j"]) id = Ok ai
      ∧ subscripts ai = [EVar "i"; EVar "j"]
      ∧ vector_index ai = None.
Proof. intros (ai & [= <-] & _ & [=]). Qed.

(** C7.  For a descriptor whose shape is [None], access planning checks
    nothing and returns the subscript tuple as it is (a single expression
    as a 1-tuple) in [subscripts]; but it sets [vector_index] to the
    integer 0, the index of the first entry of a vector, and it does not
    set [array_suffix].  On its path with a shape the same function
    reports an array without a vector axis by [vector_index = None] and
    always sets [array_suffix]: the same descriptor with the shape (n, m)
    and two fixed-stride tags gets, for the subscript (i, j), the suffix
    of no characters and [vector_index = None]. *)
Theorem access_without_shape
    (dtype : Type) (vec_types : dtype_t dtype → Z → option dtype)
    (itemsize : dtype → Z) (ary : ArrayBase dtype)
    (index : subscript_input) (eval_expr : expr → expr) :
  shape ary = ShapeNone →
  get_access_info dtype vec_types itemsize ary index eval_expr
  = Ok {| array_suffix := None;
          vector_index := Some 0;
          subscripts := match index with
                        | OneIndex e => [e]
                        | IndexTuple l => l
                        end |}
  ∧ (λ ai, (array_suffix ai, vector_index ai))
    <$> get_access_info dtype vec_types itemsize
          {| name := name ary; dtype_of := dtype_of ary;
             shape := ShapeTuple [EVar "n"; EVar "m"];
             dim_tags := Some [FixedStrideArrayDimTag (EVar "m") 0;
                               FixedStrideArrayDimTag (EInt 1) 0];
             offset := OffsetZero; order := None; strides := NotGiven |}
          (IndexTuple [EVar "i"; EVar "j"]) eval_expr
    = Ok (Some "", None).
Proof.
  intros H. split.
  - unfold get_access_info. by rewrite H.
  - by vm_compute.
Qed.

Lemma access_without_shape_witness :
  get_access_info () (λ _ _, None) (λ _, 1)
    {| name := "a"; dtype_of := DtypeNone; shape := ShapeNone;
       dim_tags := None; offset := OffsetZero; order := None;
       strides := NotGiven |}
    (IndexTuple [EVar "i"; EVar "j"]) id
  = Ok {| array_suffix := None; vector_index := Some 0;
          subscripts := [EVar "i"; EVar "j"] |}.
Proof.
  pose proof (access_without_shape () (λ _ _, None) (λ _, 1)
           {| name := "a"; dtype_of := DtypeNone; shape := ShapeNone;
              dim_tags := None; offset := OffsetZero; order := None;
              strides := NotGiven |}
           (IndexTuple [EVar "i"; EVar "j"]) id) as H.
  apply H. reflexivity.
Defined.

(** ** The first loop of the normaliser *)

#[local] Arguments PyStr.contains : simpl never.

Section PickApart.

Variable num_target_axes : nat.

Lemma group_grown_nil axis_of i groups :
  List.length groups = num_target_axes →
  group_grown num_target_axes axis_of i [] groups groups.
Proof.
  intros Hl. split; [done|]. intros t grp' H. exists grp'.
  split; [done|]. intros j. split; [auto|].
  intros [?|(k & dt & _ & H' & _)]; [done|]. by rewrite lookup_nil in H'.
Qed.

(** A tag that leaves the groups of this kind alone. *)
Lemma group_grown_skip axis_of i dt l old new :
  axis_of dt = None →
  group_grown num_target_axes axis_of (S i) l old new →
  group_grown num_target_axes axis_of i (dt :: l) old new.
Proof.
  intros Hdt [Hl H]. split; [done|]. intros t grp' Hg.
  destruct (H t grp' Hg) as (grp & Ho & Hiff). exists grp. split; [done|].
  intros j. rewrite Hiff. split.
  - intros [?|(k & dt' & -> & Hk & Ha)]; [by left|right].
    exists (S k), dt'. split_and!; [lia|done|done].
  - intros [?|(k & dt' & -> & Hk & Ha)]; [by left|].
    destruct k as [|k]; simpl in Hk.
    + injection Hk as ->. congruence.
    + right. exists k, dt'. split_and!; [lia|done|done].
Qed.

(** A tag whose position [i] was added to the group of axis [t],
    in front or at the end. *)
Lemma group_grown_add axis_of i dt l t old grp mid new :
  axis_of dt = Some t →
  old !! t = Some grp →
  (∀ j, j ∈ mid ↔ j = i ∨ j ∈ grp) →
  group_grown num_target_axes axis_of (S i) l (<[t := mid]> old) new →
  group_grown num_target_axes axis_of i (dt :: l) old new.
Proof.
  intros Hdt Hold Hmid [Hl H]. split; [done|]. intros t' grp' Hg.
  destruct (H t' grp' Hg) as (grp1 & Ho & Hiff).
  destruct (decide (t' = t)) as [->|Hne].
  - rewrite list_lookup_insert_eq in Ho
      by (by apply lookup_lt_Some in Hold).
    injection Ho as <-. exists grp. split; [done|].
    intros j. rewrite Hiff, Hmid. split.
    + intros [[->|?]|(k & dt' & -> & Hk & Ha)].
      * right. exists 0%nat, dt. split_and!; [lia|done|done].
      * by left.
      * right. exists (S k), dt'. split_and!; [lia|done|done].
    + intros [?|(k & dt' & -> & Hk & Ha)]; [auto|].
      destruct k as [|k]; simpl in Hk.
      * left. left. lia.
      * right. exists k, dt'. split_and!; [lia|done|done].
  - rewrite list_lookup_insert_ne in Ho by done.
    exists grp1. split; [done|]. intros j. rewrite Hiff. split.
    + intros [?|(k & dt' & -> & Hk & Ha)]; [by left|right].
      exists (S k), dt'. split_and!; [lia|done|done].
    + intros [?|(k & dt' & -> & Hk & Ha)]; [by left|].
      destruct k as [|k]; simpl in Hk.
      * injection Hk as ->. congruence.
      * right. exists k, dt'. split_and!; [lia|done|done].
Qed.

Lemma pick_apart_spec l : ∀ i g,
  List.length (computed_stride_dim_tags g) = num_target_axes →
  List.length (fixed_stride_dim_tags g) = num_target_axes →
  forallb (tag_in_range num_target_axes) l = true →
  (count_vectors l + match vector_dim g with Some _ => 1 | None => 0 end
   ≤ 1)%nat →
  ∃ g', pick_apart i l g = Ok g'
    ∧ group_grown num_target_axes computed_axis i l
        (computed_stride_dim_tags g) (computed_stride_dim_tags g')
    ∧ group_grown num_target_axes fixed_axis i l
        (fixed_stride_dim_tags g) (fixed_stride_dim_tags g').
Proof.
  induction l as [|dt l IH]; intros i g Hc Hf Hr Hv.
  - exists g. split_and!; [done|by apply group_grown_nil..].
  - simpl in Hr. apply andb_true_iff in Hr as [Hdt Hr].
    destruct dt as [s t|o p t| |]; simpl in *.
    + apply Nat.ltb_lt in Hdt.
      destruct (lookup_lt_is_Some_2 (fixed_stride_dim_tags g) t)
        as [grp Hgrp]; [lia|].
      unfold group_append, index. rewrite Hgrp. simpl.
      set (g1 := {| vector_dim := vector_dim g;
                    computed_stride_dim_tags := computed_stride_dim_tags g;
                    fixed_stride_dim_tags :=
                      <[t := (grp ++ [i])%list]> (fixed_stride_dim_tags g) |}).
      destruct (IH (S i) g1) as (g' & Hp & Hgc & Hgf);
        [done|by (simpl; rewrite length_insert)|done|done|].
      exists g'. split_and!; [exact Hp|apply group_grown_skip; [done|exact Hgc]|].
      eapply group_grown_add; [done|done| |exact Hgf].
      intros j. rewrite elem_of_app, list_elem_of_singleton. tauto.
    + apply andb_true_iff in Hdt as [Hdt Ho%orb_true_iff].
      apply Nat.ltb_lt in Hdt.
      destruct (lookup_lt_is_Some_2 (computed_stride_dim_tags g) t)
        as [grp Hgrp]; [lia|].
      unfold order_known in Ho.
      destruct (PyStr.contains "cC" o) eqn:EC.
      * unfold group_insert0, index. rewrite Hgrp. simpl.
        set (g1 := {| vector_dim := vector_dim g;
                      computed_stride_dim_tags :=
                        <[t := i :: grp]> (computed_stride_dim_tags g);
                      fixed_stride_dim_tags := fixed_stride_dim_tags g |}).
        destruct (IH (S i) g1) as (g' & Hp & Hgc & Hgf);
          [by (simpl; rewrite length_insert)|done|done|done|].
        exists g'. split_and!; [exact Hp| |apply group_grown_skip; [done|exact Hgf]].
        eapply group_grown_add; [done|done| |exact Hgc].
        intros j. by rewrite elem_of_cons.
      * destruct Ho as [?|Ho]; [done|]. rewrite Ho.
        unfold group_append, index. rewrite Hgrp. simpl.
        set (g1 := {| vector_dim := vector_dim g;
                      computed_stride_dim_tags :=
                        <[t := (grp ++ [i])%list]>
                          (computed_stride_dim_tags g);
                      fixed_stride_dim_tags := fixed_stride_dim_tags g |}).
        destruct (IH (S i) g1) as (g' & Hp & Hgc & Hgf);
          [by (simpl; rewrite length_insert)|done|done|done|].
        exists g'. split_and!; [exact Hp| |apply group_grown_skip; [done|exact Hgf]].
        eapply group_grown_add; [done|done| |exact Hgc].
        intros j. rewrite elem_of_app, list_elem_of_singleton. tauto.
    + destruct (IH (S i) g) as (g' & Hp & Hgc & Hgf); [done..|].
      exists g'. split_and!; [exact Hp|apply group_grown_skip; [done|exact Hgc]
                     |apply group_grown_skip; [done|exact Hgf]].
    + destruct (vector_dim g) eqn:Ev; [lia|].
      set (g1 := {| vector_dim := Some i;
                    computed_stride_dim_tags := computed_stride_dim_tags g;
                    fixed_stride_dim_tags := fixed_stride_dim_tags g |}).
      destruct (IH (S i) g1) as (g' & Hp & Hgc & Hgf);
        [done|done|done|simpl; lia|].
      exists g'. split_and!; [exact Hp|apply group_grown_skip; [done|exact Hgc]
                     |apply group_grown_skip; [done|exact Hgf]].
Qed.

End PickApart.

(** ** The groups the first loop ends with *)

Lemma has_computed_spec t tags :
  has_computed t tags = true
  ↔ ∃ j dt, tags !! j = Some dt ∧ computed_axis dt = Some t.
Proof.
  unfold has_computed. rewrite existsb_exists. split.
  - intros (dt & Hin%list_elem_of_In & Hdt%bool_decide_eq_true).
    apply list_elem_of_lookup in Hin as [j Hj]. eauto.
  - intros (j & dt & Hj & Hdt). exists dt. split.
    + apply list_elem_of_In, list_elem_of_lookup. eauto.
    + by apply bool_decide_eq_true.
Qed.

Lemma has_fixed_spec t tags :
  has_fixed t tags = true
  ↔ ∃ j dt, tags !! j = Some dt ∧ fixed_axis dt = Some t.
Proof.
  unfold has_fixed. rewrite existsb_exists. split.
  - intros (dt & Hin%list_elem_of_In & Hdt%bool_decide_eq_true).
    apply list_elem_of_lookup in Hin as [j Hj]. eauto.
  - intros (j & dt & Hj & Hdt). exists dt. split.
    + apply list_elem_of_In, list_elem_of_lookup. eauto.
    + by apply bool_decide_eq_true.
Qed.

Lemma pick_apart_groups num_target_axes tags :
  groupable num_target_axes tags = true →
  ∃ g,
    pick_apart 0 tags
      {| vector_dim := None;
         computed_stride_dim_tags := replicate num_target_axes [];
         fixed_stride_dim_tags := replicate num_target_axes [] |} = Ok g
    ∧ groups_of num_target_axes tags g.
Proof.
  intros [Hr Hv%Nat.leb_le]%andb_true_iff.
  edestruct (pick_apart_spec num_target_axes tags 0)
    as (g & Hp & [Hlc Hc] & [Hlf Hf]); [..|exists g; split; [exact Hp|]];
    simpl; [by rewrite length_replicate..|done|lia|].
  intros t Ht.
  destruct (lookup_lt_is_Some_2 (computed_stride_dim_tags g) t)
    as [cg Hcg]; [lia|].
  destruct (lookup_lt_is_Some_2 (fixed_stride_dim_tags g) t)
    as [fg Hfg]; [lia|].
  exists cg, fg. split_and!; [done|done|..].
  - destruct (Hc t cg Hcg) as (grp & Hgrp & Hiff).
    apply lookup_replicate in Hgrp as [-> _].
    intros j. rewrite Hiff. split.
    + intros [H|(k & dt & -> & ? & ?)]; [by apply elem_of_nil in H|eauto].
    + intros (dt & ? & ?). right. exists j, dt. done.
  - destruct (Hf t fg Hfg) as (grp & Hgrp & Hiff).
    apply lookup_replicate in Hgrp as [-> _].
    intros j. rewrite Hiff. split.
    + intros [H|(k & dt & -> & ? & ?)]; [by apply elem_of_nil in H|eauto].
    + intros (dt & ? & ?). right. exists j, dt. done.
Qed.

Lemma group_nonempty {A} (l : list A) : l ≠ [] ↔ ∃ x, x ∈ l.
Proof.
  destruct l as [|x l]; split; try done.
  - by intros [x H%elem_of_nil].
  - intros _. exists x. left.
Qed.

Lemma groups_of_computed n tags g t cg :
  groups_of n tags g → (t < n)%nat →
  computed_stride_dim_tags g !! t = Some cg →
  (cg ≠ [] ↔ has_computed t tags = true)
  ∧ ∀ j, j ∈ cg → ∃ o p, tags !! j = Some (ComputedStrideArrayDimTag o p t).
Proof.
  intros Hg Ht Hcg. destruct (Hg t Ht) as (cg' & fg & Hc & _ & Hiff & _).
  assert (cg' = cg) as -> by congruence. split.
  - rewrite group_nonempty, has_computed_spec. split.
    + intros [j (dt & ? & ?)%Hiff]. eauto.
    + intros (j & dt & ? & ?). exists j. apply Hiff. eauto.
  - intros j (dt & Hj & Hdt)%Hiff.
    destruct dt; simplify_eq/=. eauto.
Qed.

Lemma groups_of_fixed n tags g t fg :
  groups_of n tags g → (t < n)%nat →
  fixed_stride_dim_tags g !! t = Some fg →
  (fg ≠ [] ↔ has_fixed t tags = true)
  ∧ ∀ j, j ∈ fg → is_Some (tags !! j).
Proof.
  intros Hg Ht Hfg. destruct (Hg t Ht) as (cg & fg' & _ & Hf & _ & Hiff).
  assert (fg' = fg) as -> by congruence. split.
  - rewrite group_nonempty, has_fixed_spec. split.
    + intros [j (dt & ? & ?)%Hiff]. eauto.
    + intros (j & dt & ? & ?). exists j. apply Hiff. eauto.
  - intros j (dt & Hj & Hdt)%Hiff. eauto.
Qed.

(** ** The second loop of the normaliser *)

Lemma div_ceil_ok s p : p ≠ EInt 0 → ∃ q, div_ceil s p = Ok q.
Proof.
  intros Hp. unfold div_ceil, py_floordiv.
  destruct (py_neg s), p; simpl; eauto.
  rewrite bool_decide_eq_false_2 by congruence. simpl. eauto.
Qed.

Lemma index_Some {A} (l : list A) i x : l !! i = Some x → index l i = Ok x.
Proof. unfold index. by intros ->. Qed.

Lemma keep_fixed_ok tags fg :
  (∀ j, j ∈ fg → is_Some (tags !! j)) →
  ∀ new, ∃ new', keep_fixed tags fg new = Ok new'.
Proof.
  induction fg as [|j fg IH]; intros H new; simpl; [eauto|].
  destruct (H j) as [dt Hdt]; [left|].
  rewrite (index_Some _ _ _ Hdt). simpl. apply IH.
  intros j' Hj'. apply H. by right.
Qed.

Lemma convert_computed_tuple_ok extents tags cg :
  (∀ j, j ∈ cg → ∃ o p t, tags !! j = Some (ComputedStrideArrayDimTag o p t)) →
  forallb pad_nonzero tags = true →
  (List.length tags ≤ List.length extents)%nat →
  ∀ new s, ∃ new' s',
    convert_computed (ShapeTuple extents) tags cg new s
    = Ok (Some (new', s')).
Proof.
  intros Hcg Hpad Hlen. induction cg as [|j cg IH]; intros new s; simpl.
  - eauto.
  - destruct (Hcg j) as (o & p & t & Hj); [left|].
    rewrite (index_Some _ _ _ Hj). simpl.
    destruct (lookup_lt_is_Some_2 extents j) as [e He].
    { apply lookup_lt_Some in Hj. lia. }
    rewrite (index_Some _ _ _ He). simpl.
    destruct p as [pad|]; simpl.
    + destruct (div_ceil_ok (py_mul s e) pad) as [q ->].
      { intros ->. rewrite forallb_forall in Hpad.
        specialize (Hpad _ (proj1 (list_elem_of_In _ _)
                              (list_elem_of_lookup_2 _ _ _ Hj))).
        done. }
      simpl. apply IH. intros j' Hj'. apply Hcg. by right.
    + apply IH. intros j' Hj'. apply Hcg. by right.
Qed.

(** With a tuple for [shape], neither loop ends with [return None]. *)
Lemma convert_computed_tuple_not_deferred extents tags cg :
  ∀ new s, convert_computed (ShapeTuple extents) tags cg new s ≠ Ok None.
Proof.
  induction cg as [|j cg IH]; intros new s; simpl; [done|].
  destruct (index tags j) as [dt|]; simpl; [|done].
  destruct (index extents j) as [e|]; simpl; [|done].
  destruct (pad_to_of dt) as [[pad|]|]; simpl; [|apply IH|done].
  destruct (div_ceil _ _); simpl; [apply IH|done].
Qed.

Lemma convert_axes_tuple_not_deferred extents tags g axes :
  ∀ new, convert_axes (ShapeTuple extents) tags g axes new ≠ Ok None.
Proof.
  induction axes as [|t axes IH]; intros new; simpl; [done|].
  destruct (index (computed_stride_dim_tags g) t) as [cg|]; simpl; [|done].
  destruct (index (fixed_stride_dim_tags g) t) as [fg|]; simpl; [|done].
  destruct (_ && _); [done|].
  destruct (bool_decide (fg ≠ [])).
  - destruct (keep_fixed _ _ _); simpl; [apply IH|done].
  - pose proof (convert_computed_tuple_not_deferred extents tags cg new
                  (EInt 1)) as Hc.
    destruct (convert_computed _ _ _ _ _) as [[[new' s']|]|]; simpl;
      [apply IH|done|done].
Qed.

(** Without a shape, the loop over a non-empty computed group returns
    [None] at its first axis. *)
Lemma convert_computed_no_shape tags j cg new s :
  is_Some (tags !! j) →
  convert_computed ShapeNone tags (j :: cg) new s = Ok None.
Proof. intros [dt Hdt]. simpl. by rewrite (index_Some _ _ _ Hdt). Qed.

Section AxisLoop.

Variables (num_target_axes : nat) (tags : list dim_tag) (g : tag_groups).
Hypothesis Hgroups : groups_of num_target_axes tags g.

(** The mixing error is reached whenever some target axis still to be
    visited carries tags of both kinds: the axes visited before it are
    normalised without an exception. *)
Lemma convert_axes_conflict extents axes :
  forallb pad_nonzero tags = true →
  (List.length tags ≤ List.length extents)%nat →
  (∀ t, t ∈ axes → (t < num_target_axes)%nat) →
  (∃ t, t ∈ axes ∧ has_computed t tags = true ∧ has_fixed t tags = true) →
  ∀ new, convert_axes (ShapeTuple extents) tags g axes new
         = Raise ConflictingStrideSpecification.
Proof.
  intros Hpad Hlen. induction axes as [|t0 axes IH]; intros Hin Hex new.
  { destruct Hex as (t & []%elem_of_nil & _). }
  simpl.
  destruct (Hgroups t0) as (cg & fg & Hcg & Hfg & _); [apply Hin; left|].
  destruct (groups_of_computed _ _ _ _ _ Hgroups (Hin _ ltac:(left)) Hcg)
    as [Hcne Hcin].
  destruct (groups_of_fixed _ _ _ _ _ Hgroups (Hin _ ltac:(left)) Hfg)
    as [Hfne Hfin].
  rewrite (index_Some _ _ _ Hcg), (index_Some _ _ _ Hfg). simpl.
  destruct (decide (cg ≠ [] ∧ fg ≠ [])) as [[Hc Hf]|Hno].
  { by rewrite !bool_decide_eq_true_2. }
  assert (Hrest : ∃ t, t ∈ axes ∧ has_computed t tags = true
                       ∧ has_fixed t tags = true).
  { destruct Hex as (t & [->|Ht]%elem_of_cons & Hc & Hf); [|eauto].
    destruct Hno. split; [by apply Hcne|by apply Hfne]. }
  assert (Hin' : ∀ t, t ∈ axes → (t < num_target_axes)%nat).
  { intros t Ht. apply Hin. by right. }
  destruct (decide (fg ≠ [])) as [Hf|Hf].
  - assert (¬ cg ≠ []) as Hc by tauto.
    rewrite (bool_decide_eq_false_2 _ Hc), (bool_decide_eq_true_2 _ Hf).
    simpl. destruct (keep_fixed_ok tags fg Hfin new) as [new' ->]. simpl.
    by apply IH.
  - rewrite (bool_decide_eq_false_2 _ Hf), andb_false_r.
    destruct (convert_computed_tuple_ok extents tags cg) with
      (new := new) (s := EInt 1) as (new' & s' & ->); [|done|done|].
    { intros j Hj. destruct (Hcin j Hj) as (o & p & ?). eauto. }
    simpl. by apply IH.
Qed.

(** Without a shape, [None] is returned at the first target axis that
    carries a computed-stride tag, provided it carries no fixed-stride
    tag. *)
Lemma convert_axes_deferred n : ∀ a t new,
  (a ≤ t < a + n)%nat → (a + n ≤ num_target_axes)%nat →
  has_computed t tags = true → has_fixed t tags = false →
  (∀ t', (a ≤ t' < t)%nat → has_computed t' tags = false) →
  convert_axes ShapeNone tags g (seq a n) new = Ok None.
Proof.
  induction n as [|n IH]; intros a t new Ht Hn Hc Hf Hbefore; [lia|].
  simpl.
  destruct (Hgroups a) as (cg & fg & Hcg & Hfg & _); [lia|].
  assert (Ha : (a < num_target_axes)%nat) by lia.
  destruct (groups_of_computed _ _ _ _ _ Hgroups Ha Hcg) as [Hcne Hcin].
  destruct (groups_of_fixed _ _ _ _ _ Hgroups Ha Hfg) as [Hfne Hfin].
  rewrite (index_Some _ _ _ Hcg), (index_Some _ _ _ Hfg). simpl.
  destruct (decide (a = t)) as [->|Hne].
  - assert (¬ fg ≠ []) as Hfe by (rewrite Hfne; congruence).
    rewrite (bool_decide_eq_false_2 _ Hfe), andb_false_r.
    destruct cg as [|j cg]; [by apply Hcne in Hc|].
    rewrite convert_computed_no_shape; [done|].
    destruct (Hcin j) as (o & p & ->); [left|]. eauto.
  - assert (¬ cg ≠ []) as Hce.
    { rewrite Hcne, (Hbefore a) by lia. congruence. }
    rewrite (bool_decide_eq_false_2 _ Hce). simpl.
    assert (cg = []) as -> by (by destruct cg; [|destruct Hce]).
    destruct (bool_decide (fg ≠ [])).
    + destruct (keep_fixed_ok tags fg Hfin new) as [new' ->]. simpl.
      apply (IH (S a) t); [lia|lia|done|done|].
      intros t' Ht'. apply Hbefore. lia.
    + simpl. apply (IH (S a) t); [lia|lia|done|done|].
      intros t' Ht'. apply Hbefore. lia.
Qed.

End AxisLoop.

Lemma has_computed_in_range n tags t :
  forallb (tag_in_range n) tags = true →
  has_computed t tags = true → (t < n)%nat.
Proof.
  rewrite forallb_forall, has_computed_spec.
  intros Hall (j & dt & Hj & Hdt).
  specialize (Hall dt (proj1 (list_elem_of_In _ _)
                         (list_elem_of_lookup_2 _ _ _ Hj))).
  destruct dt; simplify_eq/=.
  apply andb_true_iff in Hall as [Hlt _]. by apply Nat.ltb_lt.
Qed.

(** ** Mixing fixed and computed strides *)

(** C8 as the design document states it fails: in the tag list vec, vec,
    stride:1, C, target axis 0 carries a fixed-stride and a computed-stride
    tag, and the normaliser raises the error about the second vector tag,
    which the first loop finds before the mixing test runs. *)
Lemma mixed_tags_other_error :
  has_fixed 0
    [VectorArrayDimTag; VectorArrayDimTag;
     FixedStrideArrayDimTag (EInt 1) 0;
     ComputedStrideArrayDimTag "C" None 0] = true
  ∧ has_computed 0
      [VectorArrayDimTag; VectorArrayDimTag;
       FixedStrideArrayDimTag (EInt 1) 0;
       ComputedStrideArrayDimTag "C" None 0] = true
  ∧ convert_computed_to_fixed_dim_tags "a" (Some 4%nat) 1
      (ShapeTuple [EInt 2; EInt 2; EInt 3; EInt 5])
      [VectorArrayDimTag; VectorArrayDimTag;
       FixedStrideArrayDimTag (EInt 1) 0;
       ComputedStrideArrayDimTag "C" None 0]
    = Raise MultipleVectorAxes
  ∧ convert_computed_to_fixed_dim_tags "a" (Some 4%nat) 1
      (ShapeTuple [EInt 2; EInt 2; EInt 3; EInt 5])
      [VectorArrayDimTag; VectorArrayDimTag;
       FixedStrideArrayDimTag (EInt 1) 0;
       ComputedStrideArrayDimTag "C" None 0]
    ≠ Raise ConflictingStrideSpecification.
Proof. by split_and!. Qed.

(** C8, amended.  Take a tag list that the grouping loop accepts (every
    stride tag names a target axis below the number of target axes, every
    computed-stride order is known to the loop, at most one vector tag),
    with no padding to the integer 0, and a shape tuple at least as long as
    the tag list.  If some target axis carries both a fixed-stride and a
    computed-stride tag, wherever these tags stand in the list, the
    normaliser raises the error for mixed fixed and computed strides. *)
Theorem mixed_stride_tags_conflict
    (name : string) (num_user_axes : option nat) (num_target_axes : nat)
    (extents : list expr) (tags : list dim_tag) (t : nat) :
  groupable num_target_axes tags = true →
  forallb pad_nonzero tags = true →
  (List.length tags ≤ List.length extents)%nat →
  has_fixed t tags = true →
  has_computed t tags = true →
  convert_computed_to_fixed_dim_tags name num_user_axes num_target_axes
    (ShapeTuple extents) tags
  = Raise ConflictingStrideSpecification.
Proof.
  intros Hg Hpad Hlen Hf Hc.
  destruct (pick_apart_groups _ _ Hg) as (g & Hp & Hgroups).
  unfold convert_computed_to_fixed_dim_tags. rewrite Hp. simpl.
  apply (convert_axes_conflict num_target_axes tags g Hgroups);
    [done|done| |].
  - intros t' Ht'%elem_of_seq. lia.
  - exists t. split_and!; [|done|done].
    apply elem_of_seq. apply andb_true_iff in Hg as [Hr _].
    pose proof (has_computed_in_range _ _ _ Hr Hc). lia.
Qed.

Lemma mixed_stride_tags_conflict_witness :
  convert_computed_to_fixed_dim_tags "a" (Some 3%nat) 2
    (ShapeTuple [EInt 4; EInt 5; EVar "n"])
    [ComputedStrideArrayDimTag "F" (Some (EInt 8)) 0;
     ComputedStrideArrayDimTag "C" None 1;
     FixedStrideArrayDimTag (EInt 1) 1]
  = Raise ConflictingStrideSpecification.
Proof.
  apply (mixed_stride_tags_conflict "a" (Some 3%nat) 2
           [EInt 4; EInt 5; EVar "n"]
           [ComputedStrideArrayDimTag "F" (Some (EInt 8)) 0;
            ComputedStrideArrayDimTag "C" None 1;
            FixedStrideArrayDimTag (EInt 1) 1] 1).
  - reflexivity.
  - reflexivity.
  - simpl. lia.
  - reflexivity.
  - reflexivity.
Defined.

(** ** Normalisation when the shape is not known *)

(** C6 as the design document states it fails: with the one-axis shape (n),
    whose extent is the symbolic expression n, and the tag C, the
    normaliser returns a fixed-stride tag, not the sentinel; with shape
    (n, 5) and the tags F, F it returns two fixed-stride tags, the second
    with the symbolic stride 1*n. *)
Lemma symbolic_extent_is_normalised :
  is_int (EVar "n") = false
  ∧ convert_computed_to_fixed_dim_tags "a" (Some 1%nat) 1
      (ShapeTuple [EVar "n"]) [ComputedStrideArrayDimTag "C" None 0]
    = Ok (Some [FixedStrideArrayDimTag (EInt 1) 0])
  ∧ convert_computed_to_fixed_dim_tags "a" (Some 1%nat) 1
      (ShapeTuple [EVar "n"]) [ComputedStrideArrayDimTag "C" None 0]
    ≠ Ok None
  ∧ convert_computed_to_fixed_dim_tags "a" (Some 2%nat) 1
      (ShapeTuple [EVar "n"; EInt 5])
      [ComputedStrideArrayDimTag "F" None 0;
       ComputedStrideArrayDimTag "F" None 0]
    = Ok (Some [FixedStrideArrayDimTag (EInt 1) 0;
                FixedStrideArrayDimTag (py_mul (EInt 1) (EVar "n")) 0])
  ∧ convert_computed_to_fixed_dim_tags "a" (Some 2%nat) 1
      (ShapeTuple [EVar "n"; EInt 5])
      [ComputedStrideArrayDimTag "F" None 0;
       ComputedStrideArrayDimTag "F" None 0]
    ≠ Ok None.
Proof. by split_and!. Qed.

(** ** Which axis receives the smallest stride *)

(** C5 as the design document states it fails, for both orders: with shape
    (4,5), the tags C, C give the first-declared axis the stride 5 and the
    last-declared axis the stride 1; the tags F, F give the last-declared
    axis the stride 4 and the first-declared axis the stride 1. *)
Lemma first_axis_of_order_C_not_smallest :
  int_strides
    (convert_computed_to_fixed_dim_tags "a" (Some 2%nat) 1
       (ShapeTuple [EInt 4; EInt 5])
       [ComputedStrideArrayDimTag "C" None 0;
        ComputedStrideArrayDimTag "C" None 0]) = Some [5; 1]
  ∧ ¬ smallest_at 0 [5; 1]
  ∧ int_strides
      (convert_computed_to_fixed_dim_tags "a" (Some 2%nat) 1
         (ShapeTuple [EInt 4; EInt 5])
         [ComputedStrideArrayDimTag "F" None 0;
          ComputedStrideArrayDimTag "F" None 0]) = Some [1; 4]
  ∧ ¬ smallest_at 1 [1; 4].
Proof.
  split_and!; [done| |done|].
  - intros (s & [= <-] & H). specialize (H 1). 
    assert (5 ≤ 1) by (apply H; set_solver). lia.
  - intros (s & [= <-] & H). specialize (H 1). 
    assert (4 ≤ 1) by (apply H; set_solver). lia.
Qed.

(** The first loop on a list of tags of one order: order C puts every new
    position in front, order F at the end. *)
Lemma pick_apart_uniform_C tags : ∀ i acc,
  uniform_order "C" tags = true →
  pick_apart i tags
    {| vector_dim := None; computed_stride_dim_tags := [acc];
       fixed_stride_dim_tags := [[]] |}
  = Ok {| vector_dim := None;
          computed_stride_dim_tags :=
            [(reverse (seq i (List.length tags)) ++ acc)%list];
          fixed_stride_dim_tags := [[]] |}.
Proof.
  induction tags as [|dt tags IH]; intros i acc Hu; [done|].
  simpl in Hu. apply andb_true_iff in Hu as [Hdt Hu].
  destruct dt as [|o p [|t]| |]; try done.
  apply andb_true_iff in Hdt as [->%bool_decide_eq_true _].
  simpl. change (PyStr.contains "cC" "C") with true. simpl.
  rewrite (IH (S i) (i :: acc) Hu). by rewrite reverse_cons, <- app_assoc.
Qed.

Lemma pick_apart_uniform_F tags : ∀ i acc,
  uniform_order "F" tags = true →
  pick_apart i tags
    {| vector_dim := None; computed_stride_dim_tags := [acc];
       fixed_stride_dim_tags := [[]] |}
  = Ok {| vector_dim := None;
          computed_stride_dim_tags :=
            [(acc ++ seq i (List.length tags))%list];
          fixed_stride_dim_tags := [[]] |}.
Proof.
  induction tags as [|dt tags IH]; intros i acc Hu.
  { simpl. by rewrite app_nil_r. }
  simpl in Hu. apply andb_true_iff in Hu as [Hdt Hu].
  destruct dt as [|o p [|t]| |]; try done.
  apply andb_true_iff in Hdt as [->%bool_decide_eq_true _].
  simpl. change (PyStr.contains "cC" "F") with false.
  change (PyStr.contains "fF" "F") with true. simpl.
  rewrite (IH (S i) (acc ++ [i])%list Hu). by rewrite <- app_assoc.
Qed.

Lemma pad_step_grows s p :
  1 ≤ s → 0 < p →
  ∃ s', (q ← div_ceil (EInt s) (EInt p); Ok (py_mul q (EInt s)))
        = Ok (EInt s') ∧ s ≤ s'.
Proof.
  intros Hs Hp. unfold div_ceil, py_floordiv. simpl.
  rewrite bool_decide_eq_false_2 by lia. simpl.
  eexists. split; [done|].
  assert (- s / p < 0) by (apply Z.div_lt_upper_bound; lia). nia.
Qed.

(** The walk over the positions of one target axis, for positive integer
    extents and paddings: the running stride never decreases, the first
    position visited receives the stride the walk starts with, and every
    position visited receives a stride that is at least as large. *)
Lemma convert_computed_walk extents tags indices : ∀ new s,
  1 ≤ s → NoDup indices →
  (∀ j, j ∈ indices →
     ∃ o p t e, tags !! j = Some (ComputedStrideArrayDimTag o p t)
                ∧ pad_positive p = true
                ∧ extents !! j = Some (EInt e) ∧ 1 ≤ e) →
  ∃ new' s',
    convert_computed (ShapeTuple extents) tags indices new (EInt s)
    = Ok (Some (new', EInt s'))
    ∧ s ≤ s'
    ∧ List.length new' = List.length new
    ∧ (∀ j, j ∉ indices → new' !! j = new !! j)
    ∧ (∀ j, j ∈ indices → (j < List.length new)%nat →
         ∃ sj, new' !! j = Some (FixedStrideArrayDimTag (EInt sj) 0)
               ∧ s ≤ sj)
    ∧ (∀ j rest, indices = j :: rest → (j < List.length new)%nat →
         new' !! j = Some (FixedStrideArrayDimTag (EInt s) 0)).
Proof.
  induction indices as [|j indices IH]; intros new s Hs Hnd Hall.
  { exists new, s. simpl. split_and!; try done; try lia.
    by intros j []%elem_of_nil. }
  apply NoDup_cons in Hnd as [Hj Hnd].
  destruct (Hall j) as (o & p & t & e & Htag & Hp & Hext & He); [left|].
  simpl. rewrite (index_Some _ _ _ Htag), (index_Some _ _ _ Hext). simpl.
  assert (Hpad : ∃ s1,
    match p with
    | Some pad_to => q ← div_ceil (EInt (s * e)) pad_to;
                     Ok (py_mul q (EInt (s * e)))
    | None => Ok (EInt (s * e))
    end = Ok (EInt s1) ∧ s ≤ s1).
  { destruct p as [[pz| | | |]|]; try done.
    - destruct (pad_step_grows (s * e) pz) as (s1 & -> & ?);
        [nia|by apply Z.ltb_lt|]. exists s1. split; [done|nia].
    - exists (s * e). split; [done|nia]. }
  destruct Hpad as (s1 & -> & Hs1). simpl.
  destruct (IH (<[j := FixedStrideArrayDimTag (EInt s) 0]> new) s1)
    as (new' & s' & -> & Hs' & Hlen & Hout & Hin & _);
    [lia|done|intros; apply Hall; by right|].
  rewrite length_insert in Hlen, Hin.
  exists new', s'. split_and!; [done|lia|done|..].
  - intros j' Hj'. rewrite Hout by set_solver.
    apply list_lookup_insert_ne. set_solver.
  - intros j' [->|Hj']%elem_of_cons Hlt.
    + exists s. split; [|lia]. rewrite Hout by done.
      by apply list_lookup_insert_eq.
    + destruct (Hin j' Hj' Hlt) as (sj & ? & ?). exists sj. split; [done|lia].
  - intros j' rest [= <- <-] Hlt. rewrite Hout by done.
    by apply list_lookup_insert_eq.
Qed.

(** ** Declaration planning with fixed-stride and separate-array axes *)

Section SplitAxes.

Variable dtype : Type.
Variable vec_types : dtype_t dtype → Z → option dtype.
Variable itemsize : dtype → Z.
Variable cgen_decl : Type.
Variable get_arg_decl :
  string → list (option expr) → dtype_t dtype → bool → cgen_decl.
Variable const_pod : dtype → string → cgen_decl.
Variable self : ArrayBase dtype.
Variable is_written : bool.
Variable index_dtype : dtype.

Lemma vector_size_from_no_vector i tags :
  Forall (λ dt, dt ≠ VectorArrayDimTag) tags →
  vector_size_from dtype vec_types itemsize self i tags = Ok 1.
Proof.
  intros H. revert i. induction H as [|dt tags Hdt _ IH]; intros i; [done|].
  destruct dt; try done; apply IH.
Qed.

Lemma for_xrange_raises {A} n (body : Z → result (list A)) e :
  0 < n → body 0 = Raise e → for_xrange n body = Raise e.
Proof.
  intros Hn Hb. unfold for_xrange, seqZ.
  destruct (Z.to_nat n) as [|m] eqn:E; [lia|]. simpl.
  change (Z.of_nat 0 + 0) with 0. by rewrite Hb.
Qed.

(** Once the walk has consumed the tags [seen] and stands in front of
    fixed-stride axes followed by a separate-array axis of positive
    integer extent, it raises [TypeError]. *)
Lemma gen_decls_split_raises tags extents rest n pre :
  ∀ name_suffix sh st dt (user_index : list (option Z)) seen,
  dim_tags self = Some tags →
  shape self = ShapeTuple extents →
  List.length user_index = List.length seen →
  tags = (seen ++ pre ++ SeparateArrayArrayDimTag :: rest)%list →
  Forall (λ t, is_Some (fixed_axis t)) pre →
  (List.length tags ≤ List.length extents)%nat →
  extents !! (List.length seen + List.length pre)%nat = Some (EInt n) →
  0 < n →
  gen_decls dtype vec_types cgen_decl get_arg_decl const_pod self is_written
    index_dtype 1 (S (List.length pre + List.length rest))
    name_suffix sh st dt user_index
  = Raise PyTypeError.
Proof.
  induction pre as [|t pre IH];
    intros name_suffix sh st dt user_index seen Htags Hshape Hui Heq Hfix
      Hlen Hext Hn.
  - cbn [gen_decls]. unfold dim_tags_seq. rewrite Htags.
    cbn [mbind result_bind].
    assert (Hlk : tags !! List.length user_index
                  = Some SeparateArrayArrayDimTag).
    { rewrite Heq, Hui, lookup_app_r by lia. by rewrite Nat.sub_diag. }
    rewrite (index_Some _ _ _ Hlk). cbn [mbind result_bind].
    unfold shape_at. rewrite Hshape.
    rewrite Nat.add_0_r, <- Hui in Hext.
    rewrite (index_Some _ _ _ Hext). cbn [mbind result_bind].
    by apply for_xrange_raises.
  - apply Forall_cons in Hfix as [[a Ht] Hfix].
    destruct t as [stride a'| | |]; try done.
    cbn [gen_decls]. unfold dim_tags_seq. rewrite Htags.
    cbn [mbind result_bind].
    assert (Hlk : tags !! List.length user_index
                  = Some (FixedStrideArrayDimTag stride a')).
    { rewrite Heq, Hui, lookup_app_r by lia. by rewrite Nat.sub_diag. }
    rewrite (index_Some _ _ _ Hlk). cbn [mbind result_bind].
    unfold self_shape, shape_at. rewrite Hshape.
    destruct (lookup_lt_is_Some_2 extents (List.length user_index))
      as [e He].
    { rewrite Heq, !length_app in Hlen. simpl in Hlen. lia. }
    rewrite (index_Some _ _ _ He). cbn [mbind result_bind].
    assert (Hq : ∃ q, py_floordiv stride (EInt 1) = Ok q).
    { destruct stride; simpl; eauto. }
    destruct Hq as [q ->]. cbn [mbind result_bind].
    apply (IH _ _ _ _ _ (seen ++ [FixedStrideArrayDimTag stride a'])%list);
      try done.
    + rewrite !length_app. simpl. lia.
    + by rewrite <- app_assoc.
    + rewrite length_app. simpl. simpl in Hext.
      by replace (List.length seen + 1 + List.length pre)%nat
        with (List.length seen + S (List.length pre))%nat by lia.
Qed.

(** A descriptor whose axes are fixed-stride axes up to a first
    separate-array axis of positive integer extent, and that has no vector
    axis: the planner raises [TypeError]. *)
Lemma decl_info_split_raises tags extents pre rest n :
  dim_tags self = Some tags →
  shape self = ShapeTuple extents →
  tags = (pre ++ SeparateArrayArrayDimTag :: rest)%list →
  Forall (λ t, is_Some (fixed_axis t)) pre →
  Forall (λ t, t ≠ VectorArrayDimTag) rest →
  List.length tags = List.length extents →
  extents !! List.length pre = Some (EInt n) →
  0 < n →
  decl_info dtype vec_types itemsize cgen_decl get_arg_decl const_pod
    self is_written index_dtype
  = Raise PyTypeError.
Proof.
  intros Htags Hshape Heq Hfix Hvec Hlen Hext Hn.
  unfold decl_info, vector_size, dim_tags_seq. rewrite Htags.
  cbn [mbind result_bind].
  rewrite vector_size_from_no_vector.
  2:{ rewrite Heq. apply Forall_app. split.
      - eapply Forall_impl; [exact Hfix|]. by intros [] [].
      - by constructor. }
  cbn [mbind result_bind].
  unfold num_user_axes, shape_len. rewrite Hshape.
  cbn [mbind result_bind default Datatypes.id].
  rewrite <- Hlen, Heq, length_app. cbn [List.length].
  replace (List.length pre + S (List.length rest))%nat
    with (S (List.length pre + List.length rest)) by lia.
  apply (gen_decls_split_raises tags extents rest n pre "" [] []
           (dtype_of self) [] []); try done. lia.
Qed.

(** Without any separate-array or vector axis the walk reaches its base
    case. *)
Lemma gen_decls_fixed_only tags extents pre :
  ∀ name_suffix sh st dt (user_index : list (option Z)) seen,
  dim_tags self = Some tags →
  shape self = ShapeTuple extents →
  List.length user_index = List.length seen →
  tags = (seen ++ pre)%list →
  Forall (λ t, is_Some (fixed_axis t)) pre →
  (List.length tags ≤ List.length extents)%nat →
  ∃ ds,
    gen_decls dtype vec_types cgen_decl get_arg_decl const_pod self
      is_written index_dtype 1 (List.length pre)
      name_suffix sh st dt user_index = Ok ds
    ∧ one_array_declaration (offset self) ds.
Proof.
  induction pre as [|t pre IH];
    intros name_suffix sh st dt user_index seen Htags Hshape Hui Heq Hfix
      Hlen.
  - eexists. split; [done|]. unfold gen_decls_base, one_array_declaration.
    eexists _, _. split; [done|]. split; [done|].
    destruct (offset_truthy _); split; try done.
    constructor; [by eexists|done].
  - apply Forall_cons in Hfix as [[a Ht] Hfix].
    destruct t as [stride a'| | |]; try done.
    cbn [gen_decls List.length]. unfold dim_tags_seq. rewrite Htags.
    cbn [mbind result_bind].
    assert (Hlk : tags !! List.length user_index
                  = Some (FixedStrideArrayDimTag stride a')).
    { rewrite Heq, Hui, lookup_app_r by lia. by rewrite Nat.sub_diag. }
    rewrite (index_Some _ _ _ Hlk). cbn [mbind result_bind].
    unfold self_shape, shape_at. rewrite Hshape.
    destruct (lookup_lt_is_Some_2 extents (List.length user_index))
      as [e He].
    { rewrite Heq, !length_app in Hlen. simpl in Hlen. lia. }
    rewrite (index_Some _ _ _ He). cbn [mbind result_bind].
    assert (Hq : ∃ q, py_floordiv stride (EInt 1) = Ok q).
    { destruct stride; simpl; eauto. }
    destruct Hq as [q ->]. cbn [mbind result_bind].
    apply (IH _ _ _ _ _ (seen ++ [FixedStrideArrayDimTag stride a'])%list);
      try done.
    + rewrite !length_app. simpl. lia.
    + by rewrite <- app_assoc.
Qed.

(** A descriptor with fixed-stride axes only and a shape tuple: the
    planner emits one array declaration (the separate-array axes are none,
    their product of extents is 1). *)
Lemma decl_info_fixed_only tags extents :
  dim_tags self = Some tags →
  shape self = ShapeTuple extents →
  Forall (λ t, is_Some (fixed_axis t)) tags →
  List.length tags = List.length extents →
  ∃ ds,
    decl_info dtype vec_types itemsize cgen_decl get_arg_decl const_pod
      self is_written index_dtype = Ok ds
    ∧ one_array_declaration (offset self) ds.
Proof.
  intros Htags Hshape Hfix Hlen.
  unfold decl_info, vector_size, dim_tags_seq. rewrite Htags.
  cbn [mbind result_bind].
  rewrite vector_size_from_no_vector.
  2:{ eapply Forall_impl; [exact Hfix|]. by intros [] []. }
  cbn [mbind result_bind].
  unfold num_user_axes, shape_len. rewrite Hshape.
  cbn [mbind result_bind default Datatypes.id]. rewrite <- Hlen.
  apply (gen_decls_fixed_only tags extents tags "" [] []
           (dtype_of self) [] []); try done. lia.
Qed.

End SplitAxes.

(** ** More on the textual form of tags *)

Lemma target_axis_at_inv s n :
  TagSyntax.target_axis_at s = Some n →
  ∃ d rest,
    s = String "-" (String ">" (String d rest))
    ∧ PyStr.is_digit d = true
    ∧ (rest = "" ∨ rest = String PyStr.newline "")
    ∧ n = (nat_of_ascii d - 48)%nat.
Proof.
  destruct s as [|a [|b [|d rest]]]; try discriminate.
  - destruct a as [[] [] [] [] [] [] [] []]; discriminate.
  - destruct a as [[] [] [] [] [] [] [] []]; try discriminate;
      destruct b as [[] [] [] [] [] [] [] []]; discriminate.
  - intros H.
    destruct a as [[] [] [] [] [] [] [] []]; try discriminate;
      destruct b as [[] [] [] [] [] [] [] []]; try discriminate.
    simpl in H.
    destruct (PyStr.is_digit d) eqn:Ed; [|discriminate].
    destruct (bool_decide (rest = "")) eqn:E1.
    + apply bool_decide_eq_true in E1. injection H as <-. eauto 10.
    + destruct (bool_decide (rest = String PyStr.newline "")) eqn:E2;
        [|discriminate].
      apply bool_decide_eq_true in E2. injection H as <-. eauto 10.
Qed.

Lemma unsnoc_snoc s c :
  TagSyntax.unsnoc (s +:+ String c "") = Some (s, c).
Proof. induction s as [|a s IH]; simpl; [done|]. by rewrite IH. Qed.

(** A text that ends with a closing parenthesis carries no target-axis
    suffix. *)
Lemma target_axis_at_paren s :
  TagSyntax.target_axis_at (s +:+ ")") = None.
Proof.
  destruct (TagSyntax.target_axis_at (s +:+ ")")) as [n|] eqn:E; [|done].
  apply target_axis_at_inv in E as (d & rest & Hs & Hd & Hrest & _).
  exfalso.
  destruct s as [|a [|b [|c s']]]; simpl in Hs; try discriminate.
  - injection Hs as _ _ <- _. discriminate.
  - injection Hs as _ _ _ Hs. destruct Hrest as [->| ->].
    + by destruct s'.
    + destruct s' as [|? [|]]; discriminate.
Qed.

Lemma target_axis_search_paren s i :
  TagSyntax.target_axis_search_from i (s +:+ ")") = None.
Proof.
  revert i. induction s as [|a s IH]; intros i.
  - reflexivity.
  - pose proof (target_axis_at_paren (String a s)) as H.
    change (String a s +:+ ")") with (String a (s +:+ ")")) in *.
    cbn [TagSyntax.target_axis_search_from]. rewrite H. apply IH.
Qed.

(** X1.  Every padded tag text, an order letter c, C, f or F followed by
    (pad=...) with any pad text that holds no newline, makes the parser
    raise [UnboundLocalError]: the pattern matches, and the pad text is
    then handed to [parse], a local name that only the stride branch
    binds. *)
Theorem padded_tag_text_raises
    (parse : string → result expr) (o x : string) :
  is_order_letter o = true →
  PyStr.has_newline x = false →
  parse_array_dim_tag parse (TagString (o +:+ "(pad=" +:+ x +:+ ")"))
  = Raise PyUnboundLocalError.
Proof.
  intros Ho Hx.
  assert (Hcases : o = "c" ∨ o = "C" ∨ o = "f" ∨ o = "F").
  { apply bool_decide_eq_true in Ho.
    repeat (apply elem_of_cons in Ho as [Ho|Ho]; [tauto|]).
    by apply elem_of_nil in Ho. }
  assert (Hsearch : ∀ a,
    TagSyntax.target_axis_search (String a ("(pad=" +:+ x +:+ ")")) = None).
  { intros a. unfold TagSyntax.target_axis_search.
    replace (String a ("(pad=" +:+ x +:+ ")"))
      with ((String a ("(pad=" +:+ x)) +:+ ")").
    - apply target_axis_search_paren.
    - reflexivity. }
  assert (Hmatch : ∀ a, PyStr.is_letter a = true →
    TagSyntax.padded_stride_match (String a ("(pad=" +:+ x +:+ ")"))
    = Some (String a "", x)).
  { intros a Ha. unfold TagSyntax.padded_stride_match. simpl. rewrite Ha.
    simpl. change ("" +:+ x +:+ ")") with (x +:+ ")").
    rewrite !unsnoc_snoc. simpl. rewrite unsnoc_snoc. simpl.
    by rewrite Hx. }
  assert (Hletter : ∀ a, is_order_letter (String a "") = true →
    parse_array_dim_tag parse (TagString (String a ("(pad=" +:+ x +:+ ")")))
    = Raise PyUnboundLocalError).
  { intros a Ha. unfold parse_array_dim_tag.
    assert (PyStr.is_letter a = true ∧ a ≠ "s"%char ∧ a ≠ "v"%char)
      as (Hl & Hs & Hv).
    { apply bool_decide_eq_true in Ha.
      repeat (apply elem_of_cons in Ha as [[= ->]|Ha]; [done|]).
      by apply elem_of_nil in Ha. }
    assert (PyStr.startswith (String a ("(pad=" +:+ x +:+ ")")) "stride:"
            = false) as ->.
    { cbn [PyStr.startswith]. by rewrite bool_decide_eq_false_2 by congruence. }
    rewrite !bool_decide_eq_false_2 by congruence.
    rewrite Hsearch.
    assert (is_order_letter (String a ("(pad=" +:+ x +:+ ")")) = false) as ->.
    { apply bool_decide_eq_false. intros H.
      repeat (apply elem_of_cons in H as [H|H]; [discriminate|]).
      by apply elem_of_nil in H. }
    by rewrite Hmatch. }
  destruct Hcases as [->|[->|[->| ->]]]; by apply Hletter.
Qed.

Lemma padded_tag_text_raises_witness :
  parse_array_dim_tag (λ _, Ok (EInt 8)) (TagString "C(pad=8)")
  = Raise PyUnboundLocalError.
Proof.
  apply (padded_tag_text_raises (λ _, Ok (EInt 8)) "C" "8");
    reflexivity.
Defined.

(** X2.  An order letter followed by an arrow and one digit is parsed to a
    computed-stride tag without padding, with the upper-case letter as its
    order and the digit as its target axis. *)
Theorem order_letter_with_target_axis
    (parse : string → result expr) (o : string) (n : nat) :
  is_order_letter o = true →
  (n < 10)%nat →
  parse_array_dim_tag parse (TagString (o +:+ "->" +:+ pretty n))
  = Ok (ComputedStrideArrayDimTag (PyStr.upper o) None n).
Proof.
  intros Ho Hn.
  assert (Hcases : o = "c" ∨ o = "C" ∨ o = "f" ∨ o = "F").
  { apply bool_decide_eq_true in Ho.
    repeat (apply elem_of_cons in Ho as [Ho|Ho]; [tauto|]).
    by apply elem_of_nil in Ho. }
  do 10 (destruct n as [|n]; [destruct Hcases as [->|[->|[->| ->]]];
                              vm_compute; reflexivity|]).
  lia.
Qed.

Lemma order_letter_with_target_axis_witness :
  parse_array_dim_tag (λ _, Raise ParseError) (TagString "f->2")
  = Ok (ComputedStrideArrayDimTag "F" None 2).
Proof.
  apply (order_letter_with_target_axis (λ _, Raise ParseError) "f" 2);
    [reflexivity|lia].
Defined.

(** X3.  Printing a computed-stride tag of order C or F without padding
    and parsing the text gives the tag back on target axis 0: the printed
    form does not show the target axis. *)
Theorem computed_tag_print_parse
    (parse : string → result expr) (str_symbolic : expr → string)
    (o : string) (t : nat) :
  o = "C" ∨ o = "F" →
  parse_array_dim_tag parse
    (TagString (dim_tag_str str_symbolic
                  (ComputedStrideArrayDimTag o None t)))
  = Ok (ComputedStrideArrayDimTag o None 0).
Proof. by intros [->| ->]. Qed.

Lemma computed_tag_print_parse_witness :
  parse_array_dim_tag (λ _, Raise ParseError)
    (TagString (dim_tag_str (λ _, "")
                  (ComputedStrideArrayDimTag "F" None 2)))
  = Ok (ComputedStrideArrayDimTag "F" None 0).
Proof.
  apply (computed_tag_print_parse (λ _, Raise ParseError) (λ _, "") "F" 2).
  by right.
Defined.

(** A sequence of tag objects passes through [parse_array_dim_tags]
    unchanged. *)
Lemma parse_tag_objects
    (parse : string → result expr) (l : list dim_tag) :
  parse_array_dim_tags parse (DimTagsList (TagObject <$> l)) = Ok l.
Proof.
  unfold parse_array_dim_tags.
  induction l as [|t l IH]; [done|].
  rewrite fmap_cons. cbn [for_each parse_array_dim_tag mbind result_bind].
  by rewrite IH.
Qed.

Lemma split_comma_length s :
  List.length (PyStr.split_comma s) = S (count_commas s).
Proof.
  induction s as [|c s IH]; simpl; [done|].
  destruct (bool_decide (c = ","%char)); simpl; [by rewrite IH|].
  destruct (PyStr.split_comma s); simpl in *; [done|lia].
Qed.

Lemma for_each_length {A B} (f : A → result B) l l' :
  for_each f l = Ok l' → List.length l' = List.length l.
Proof.
  revert l'. induction l as [|x l IH]; intros l'; simpl.
  - by intros [= <-].
  - destruct (f x); simpl; [|done].
    destruct (for_each f l) eqn:E; simpl; [|done].
    intros [= <-]. simpl. f_equal. by apply IH.
Qed.

(** X4.  When a comma-separated string of tags is parsed, there is one tag
    per component: one more than the string has commas. *)
Theorem parse_tag_string_count
    (parse : string → result expr) (s : string) (tags : list dim_tag) :
  parse_array_dim_tags parse (DimTagsString s) = Ok tags →
  List.length tags = S (count_commas s).
Proof.
  unfold parse_array_dim_tags. intros H%for_each_length.
  by rewrite H, length_fmap, split_comma_length.
Qed.

Lemma parse_tag_string_count_witness :
  List.length [ComputedStrideArrayDimTag "C" None 0;
               SeparateArrayArrayDimTag;
               ComputedStrideArrayDimTag "F" None 1] = 3%nat.
Proof.
  apply (parse_tag_string_count (λ _, Raise ParseError) "c,sep,F->1").
  reflexivity.
Defined.

(** ** What normalisation keeps and what it replaces *)

Lemma keep_fixed_same tags fg :
  (∀ j, j ∈ fg → is_Some (tags !! j)) →
  ∀ new, (∀ j, j ∈ fg → new !! j = tags !! j) →
  keep_fixed tags fg new = Ok new.
Proof.
  induction fg as [|j fg IH]; intros H new Hsame; simpl; [done|].
  destruct (H j) as [dt Hdt]; [left|].
  rewrite (index_Some _ _ _ Hdt). simpl.
  rewrite list_insert_id by (rewrite Hsame; [done|left]).
  apply IH; [|]; intros j' Hj'; [apply H|apply Hsame]; by right.
Qed.

Lemma has_computed_normalised t tags :
  normalised tags = true → has_computed t tags = false.
Proof.
  intros Hn. destruct (has_computed t tags) eqn:E; [|done].
  apply has_computed_spec in E as (j & dt & Hj & Hdt).
  unfold normalised in Hn. rewrite forallb_forall in Hn.
  specialize (Hn dt (proj1 (list_elem_of_In _ _)
                       (list_elem_of_lookup_2 _ _ _ Hj))).
  apply bool_decide_eq_true in Hn. congruence.
Qed.

Lemma convert_axes_normalised shape num_target_axes tags g axes :
  groups_of num_target_axes tags g →
  normalised tags = true →
  (∀ t, t ∈ axes → (t < num_target_axes)%nat) →
  convert_axes shape tags g axes tags = Ok (Some tags).
Proof.
  intros Hg Hn. induction axes as [|t axes IH]; intros Hin; [done|].
  simpl.
  assert (Ht : (t < num_target_axes)%nat) by (apply Hin; left).
  destruct (Hg t Ht) as (cg & fg & Hcg & Hfg & _).
  destruct (groups_of_computed _ _ _ _ _ Hg Ht Hcg) as [Hcne _].
  destruct (groups_of_fixed _ _ _ _ _ Hg Ht Hfg) as [_ Hfin].
  rewrite (index_Some _ _ _ Hcg), (index_Some _ _ _ Hfg). simpl.
  assert (cg = []) as ->.
  { destruct cg; [done|]. exfalso.
    assert (has_computed t tags = true) by (by apply Hcne).
    rewrite has_computed_normalised in H; done. }
  rewrite (bool_decide_eq_false_2 (@nil nat ≠ [])) by (intros H; by apply H).
  simpl. destruct (bool_decide (fg ≠ [])).
  - rewrite keep_fixed_same by done. simpl. apply IH.
    intros t' Ht'. apply Hin. by right.
  - simpl. apply IH. intros t' Ht'. apply Hin. by right.
Qed.

(** X5.  A tag list without computed-stride tags that the grouping loop
    accepts is returned as it is, whatever the shape is (a tuple, [None] or
    [loopy.auto]): normalising a normalised list changes nothing and needs
    no shape. *)
Theorem normalised_tags_unchanged
    (name : string) (num_user_axes : option nat) (num_target_axes : nat)
    (shape : shape_t) (tags : list dim_tag) :
  groupable num_target_axes tags = true →
  normalised tags = true →
  convert_computed_to_fixed_dim_tags name num_user_axes num_target_axes
    shape tags = Ok (Some tags).
Proof.
  intros Hg Hn.
  destruct (pick_apart_groups _ _ Hg) as (g & Hp & Hgroups).
  unfold convert_computed_to_fixed_dim_tags. rewrite Hp. simpl.
  apply (convert_axes_normalised shape num_target_axes); [done|done|].
  intros t Ht%elem_of_seq. lia.
Qed.

Lemma normalised_tags_unchanged_witness :
  convert_computed_to_fixed_dim_tags "a" None 2 ShapeNone
    [FixedStrideArrayDimTag (EVar "n") 1; VectorArrayDimTag;
     SeparateArrayArrayDimTag; FixedStrideArrayDimTag (EInt 1) 0]
  = Ok (Some [FixedStrideArrayDimTag (EVar "n") 1; VectorArrayDimTag;
              SeparateArrayArrayDimTag; FixedStrideArrayDimTag (EInt 1) 0]).
Proof.
  apply (normalised_tags_unchanged "a" None 2 ShapeNone
           [FixedStrideArrayDimTag (EVar "n") 1; VectorArrayDimTag;
            SeparateArrayArrayDimTag; FixedStrideArrayDimTag (EInt 1) 0]);
    reflexivity.
Defined.

(** The walk over one group, whenever it ends with tags: the positions of
    the group hold fixed strides on target axis 0, every other position is
    as before. *)
Lemma convert_computed_result shape tags indices :
  ∀ new s new' s',
  convert_computed shape tags indices new s = Ok (Some (new', s')) →
  List.length new' = List.length new
  ∧ (∀ j, j ∉ indices → new' !! j = new !! j)
  ∧ (∀ j, j ∈ indices → (j < List.length new)%nat →
       ∃ sj, new' !! j = Some (FixedStrideArrayDimTag sj 0)).
Proof.
  induction indices as [|i indices IH]; intros new s new' s' H; simpl in H.
  - injection H as <- <-. split_and!; [done|done|].
    by intros j []%elem_of_nil.
  - destruct (index tags i) as [dt|]; simpl in H; [|done].
    destruct shape as [| |extents]; try done.
    destruct (index extents i) as [e|]; simpl in H; [|done].
    destruct (pad_to_of dt) as [pad|]; simpl in H; [|done].
    destruct (match pad with Some _ => _ | None => _ end) as [s1|];
      simpl in H; [|done].
    apply IH in H as (Hlen & Hout & Hin).
    rewrite length_insert in Hlen, Hin.
    split_and!; [done|..].
    + intros j [Hne Hj]%not_elem_of_cons. rewrite Hout by done.
      by apply list_lookup_insert_ne.
    + intros j Hj Hlt. destruct (decide (j ∈ indices)) as [Hji|Hji].
      * by apply Hin.
      * apply elem_of_cons in Hj as [->|?]; [|done].
        rewrite Hout by done. eexists. by apply list_lookup_insert_eq.
Qed.

Lemma keep_fixed_result tags fg :
  ∀ new new', keep_fixed tags fg new = Ok new' →
  List.length new' = List.length new
  ∧ (∀ j, j ∉ fg → new' !! j = new !! j)
  ∧ (∀ j, j ∈ fg → (j < List.length new)%nat → new' !! j = tags !! j).
Proof.
  induction fg as [|i fg IH]; intros new new' H; simpl in H.
  - injection H as <-. split_and!; [done|done|].
    by intros j []%elem_of_nil.
  - destruct (index tags i) as [dt|] eqn:Ei; simpl in H; [|done].
    apply IH in H as (Hlen & Hout & Hin).
    rewrite length_insert in Hlen, Hin.
    split_and!; [done|..].
    + intros j [Hne Hj]%not_elem_of_cons. rewrite Hout by done.
      by apply list_lookup_insert_ne.
    + intros j Hj Hlt. destruct (decide (j ∈ fg)) as [Hji|Hji].
      * by apply Hin.
      * apply elem_of_cons in Hj as [->|?]; [|done].
        rewrite Hout by done. rewrite list_lookup_insert_eq by done.
        unfold index in Ei. by destruct (tags !! i); simplify_eq.
Qed.

Section AxisLoopResult.

Variables (shape : shape_t) (num_target_axes : nat) (tags : list dim_tag)
          (g : tag_groups).
Hypothesis Hgroups : groups_of num_target_axes tags g.

Lemma convert_axes_result axes : ∀ seen new new',
  (∀ t, t ∈ axes → (t < num_target_axes)%nat) →
  axes_done tags seen new →
  convert_axes shape tags g axes new = Ok (Some new') →
  axes_done tags (seen ++ axes) new'.
Proof.
  induction axes as [|t0 axes IH]; intros seen new new' Hin Hdone H.
  { simpl in H. injection H as <-. by rewrite app_nil_r. }
  simpl in H.
  assert (Ht0 : (t0 < num_target_axes)%nat) by (apply Hin; left).
  destruct (Hgroups t0 Ht0) as (cg & fg & Hcg & Hfg & Hciff & Hfiff).
  rewrite (index_Some _ _ _ Hcg), (index_Some _ _ _ Hfg) in H. simpl in H.
  assert (Hstep : ∃ new1,
    axes_done tags (seen ++ [t0]) new1
    ∧ convert_axes shape tags g axes new1 = Ok (Some new')).
  { destruct Hdone as [Hlen Hdone].
    destruct (bool_decide (cg ≠ [])) eqn:Ec, (bool_decide (fg ≠ [])) eqn:Ef;
      simpl in H; try done.
    - (* the walk over the computed group *)
      destruct (convert_computed shape tags cg new (EInt 1))
        as [[[new1 s1]|]|] eqn:Ew; simpl in H; try done.
      apply convert_computed_result in Ew as (Hl1 & Hout & Hinn).
      exists new1. split; [|done]. split; [lia|].
      intros j dt Hj. specialize (Hdone j dt Hj).
      assert (Hjlt : (j < List.length new)%nat).
      { rewrite Hlen. by eapply lookup_lt_Some. }
      destruct (decide (j ∈ cg)) as [Hjc|Hjc].
      + apply Hciff in Hjc as Hjc'. destruct Hjc' as (dt' & Hj' & Ha).
        assert (dt' = dt) as -> by congruence. rewrite Ha.
        rewrite bool_decide_eq_true_2 by (apply elem_of_app; right; left).
        by apply Hinn.
      + rewrite Hout by done.
        destruct (computed_axis dt) as [t|] eqn:Ea; [|done].
        assert (t ≠ t0).
        { intros ->. apply Hjc, Hciff. eauto. }
        destruct (bool_decide (t ∈ seen)) eqn:Es.
        * apply bool_decide_eq_true in Es.
          rewrite bool_decide_eq_true_2 by (apply elem_of_app; by left).
          done.
        * apply bool_decide_eq_false in Es.
          rewrite bool_decide_eq_false_2; [done|].
          intros [?|[->|[]%elem_of_nil]%elem_of_cons]%elem_of_app; done.
    - (* the fixed group is kept *)
      destruct (keep_fixed tags fg new) as [new1|] eqn:Ek; simpl in H;
        [|done].
      apply keep_fixed_result in Ek as (Hl1 & Hout & Hinn).
      exists new1. split; [|done]. split; [lia|].
      intros j dt Hj. specialize (Hdone j dt Hj).
      assert (Hjlt : (j < List.length new)%nat).
      { rewrite Hlen. by eapply lookup_lt_Some. }
      assert (Hcg0 : cg = []).
      { apply bool_decide_eq_false in Ec. destruct cg; [done|].
        by destruct Ec. }
      destruct (decide (j ∈ fg)) as [Hjf|Hjf].
      + apply Hfiff in Hjf as Hjf'. destruct Hjf' as (dt' & Hj' & Ha).
        assert (dt' = dt) as -> by congruence.
        rewrite Hinn, Hj by done.
        by destruct dt.
      + rewrite Hout by done.
        destruct (computed_axis dt) as [t|] eqn:Ea; [|done].
        assert (t ≠ t0).
        { intros ->. assert (j ∈ cg) as Hjc by (apply Hciff; eauto).
          rewrite Hcg0 in Hjc. by apply elem_of_nil in Hjc. }
        destruct (bool_decide (t ∈ seen)) eqn:Es.
        * apply bool_decide_eq_true in Es.
          rewrite bool_decide_eq_true_2 by (apply elem_of_app; by left).
          done.
        * apply bool_decide_eq_false in Es.
          rewrite bool_decide_eq_false_2; [done|].
          intros [?|[->|[]%elem_of_nil]%elem_of_cons]%elem_of_app; done.
    - (* both groups are empty *)
      assert (Hcg0 : cg = []).
      { apply bool_decide_eq_false in Ec. destruct cg; [done|].
        by destruct Ec. }
      subst cg. simpl in H. exists new. split; [|done]. split; [done|].
      intros j dt Hj. specialize (Hdone j dt Hj).
      destruct (computed_axis dt) as [t|] eqn:Ea; [|done].
      assert (t ≠ t0).
      { intros ->. assert (j ∈ @nil nat) as Hjc by (apply Hciff; eauto).
        by apply elem_of_nil in Hjc. }
      destruct (bool_decide (t ∈ seen)) eqn:Es.
      * apply bool_decide_eq_true in Es.
        rewrite bool_decide_eq_true_2 by (apply elem_of_app; by left).
        done.
      * apply bool_decide_eq_false in Es.
        rewrite bool_decide_eq_false_2; [done|].
        intros [?|[->|[]%elem_of_nil]%elem_of_cons]%elem_of_app; done. }
  destruct Hstep as (new1 & Hdone1 & Hrest).
  replace (seen ++ t0 :: axes)%list with ((seen ++ [t0]) ++ axes)%list
    by (by rewrite <- app_assoc).
  apply (IH _ new1); [|done|done].
  intros t Ht. apply Hin. by right.
Qed.

End AxisLoopResult.

(** X6.  Whenever the normaliser returns tags for a tag list that its
    grouping loop accepts, the returned list has the same length, holds a
    fixed-stride tag on target axis 0 at the position of every
    computed-stride tag (also of one that named another target axis),
    holds every other tag unchanged at its position, and so holds no
    computed-stride tag any more. *)
Theorem normalisation_result
    (name : string) (num_user_axes : option nat) (num_target_axes : nat)
    (shape : shape_t) (tags new : list dim_tag) :
  groupable num_target_axes tags = true →
  convert_computed_to_fixed_dim_tags name num_user_axes num_target_axes
    shape tags = Ok (Some new) →
  Forall2 normalised_from tags new ∧ normalised new = true.
Proof.
  intros Hg H.
  destruct (pick_apart_groups _ _ Hg) as (g & Hp & Hgroups).
  unfold convert_computed_to_fixed_dim_tags in H. rewrite Hp in H.
  simpl in H.
  apply (convert_axes_result shape num_target_axes tags g Hgroups
           _ [] tags new) in H.
  - destruct H as [Hlen Hdone].
    assert (HF : Forall2 normalised_from tags new).
    { apply Forall2_same_length_lookup_2; [by apply Nat.eq_sym|].
      intros j dt dt' Hj Hj'. specialize (Hdone j dt Hj).
      destruct dt as [s t|o p t| |]; simpl in *; try congruence.
      rewrite bool_decide_eq_true_2 in Hdone.
      + destruct Hdone as [s Hs]. exists s. congruence.
      + apply elem_of_seq. apply andb_true_iff in Hg as [Hr _].
        rewrite forallb_forall in Hr.
        specialize (Hr _ (proj1 (list_elem_of_In _ _)
                            (list_elem_of_lookup_2 _ _ _ Hj))).
        simpl in Hr. apply andb_true_iff in Hr as [Hr%Nat.ltb_lt _]. lia. }
    split; [done|].
    unfold normalised. apply forallb_forall. intros dt' Hin.
    apply list_elem_of_In, list_elem_of_lookup in Hin as [j Hj'].
    destruct (Forall2_lookup_r _ _ _ _ _ HF Hj') as (dt & Hj & Hn).
    apply bool_decide_eq_true.
    destruct dt; simpl in Hn; try (by subst).
    by destruct Hn as [s ->].
  - intros t Ht%elem_of_seq. lia.
  - split; [done|]. intros j dt Hj.
    destruct (computed_axis dt); [|done].
    rewrite bool_decide_eq_false_2; [done|]. by intros ?%elem_of_nil.
Qed.

Lemma normalisation_result_witness :
  Forall2 normalised_from
    [ComputedStrideArrayDimTag "C" None 1; SeparateArrayArrayDimTag;
     FixedStrideArrayDimTag (EVar "s") 0]
    [FixedStrideArrayDimTag (EInt 1) 0; SeparateArrayArrayDimTag;
     FixedStrideArrayDimTag (EVar "s") 0]
  ∧ normalised
      [FixedStrideArrayDimTag (EInt 1) 0; SeparateArrayArrayDimTag;
       FixedStrideArrayDimTag (EVar "s") 0] = true.
Proof.
  apply (normalisation_result "a" None 2
           (ShapeTuple [EInt 4; EInt 5; EInt 6])
           [ComputedStrideArrayDimTag "C" None 1; SeparateArrayArrayDimTag;
            FixedStrideArrayDimTag (EVar "s") 0]);
    reflexivity.
Defined.

(** ** Row-major and column-major strides *)

Lemma product_app a b : product (a ++ b) = product a * product b.
Proof.
  unfold product. induction a as [|x a IH]; simpl; [lia|].
  rewrite IH. lia.
Qed.

Lemma plain_order_uniform o tags :
  plain_order o tags = true → uniform_order o tags = true.
Proof.
  unfold plain_order, uniform_order. rewrite !forallb_forall.
  intros H dt Hin. specialize (H dt Hin).
  apply bool_decide_eq_true in H as ->. simpl.
  by rewrite bool_decide_eq_true_2.
Qed.

Lemma plain_order_lookup o tags j :
  plain_order o tags = true → (j < List.length tags)%nat →
  tags !! j = Some (ComputedStrideArrayDimTag o None 0).
Proof.
  unfold plain_order. rewrite forallb_forall. intros H Hj.
  destruct (lookup_lt_is_Some_2 tags j Hj) as [dt Hdt].
  specialize (H dt (proj1 (list_elem_of_In _ _)
                      (list_elem_of_lookup_2 _ _ _ Hdt))).
  by apply bool_decide_eq_true in H as ->.
Qed.

Section Walks.

Variables (o : string) (tags : list dim_tag) (ext : list Z).
Hypothesis Hplain : plain_order o tags = true.
Hypothesis Hlen : List.length ext = List.length tags.

(** One step of the walk at position [i], without padding. *)
Lemma convert_computed_step i e rest new s :
  ext !! i = Some e →
  convert_computed (ShapeTuple (EInt <$> ext)) tags (i :: rest) new (EInt s)
  = convert_computed (ShapeTuple (EInt <$> ext)) tags rest
      (<[i := FixedStrideArrayDimTag (EInt s) 0]> new) (EInt (s * e)).
Proof.
  intros He. cbn [convert_computed].
  rewrite (index_Some _ _ _ (plain_order_lookup o tags i Hplain
             ltac:(rewrite <- Hlen; by eapply lookup_lt_Some))).
  cbn [mbind result_bind].
  assert ((EInt <$> ext) !! i = Some (EInt e)) as Hi
    by (by rewrite list_lookup_fmap, He).
  by rewrite (index_Some _ _ _ Hi).
Qed.

(** Positions visited upwards, from [i]: position [j] receives the
    running stride times the product of the extents from [i] up to [j]. *)
Lemma walk_upwards n : ∀ i new s,
  (i + n ≤ List.length ext)%nat →
  ∃ new',
    convert_computed (ShapeTuple (EInt <$> ext)) tags (seq i n) new (EInt s)
    = Ok (Some (new', EInt (s * product (take n (drop i ext)))))
    ∧ List.length new' = List.length new
    ∧ (∀ j, (j < i ∨ i + n ≤ j)%nat → new' !! j = new !! j)
    ∧ (∀ j, (i ≤ j < i + n)%nat → (j < List.length new)%nat →
         new' !! j
         = Some (FixedStrideArrayDimTag
                   (EInt (s * product (take (j - i) (drop i ext)))) 0)).
Proof.
  induction n as [|n IH]; intros i new s Hi.
  { exists new. simpl. rewrite Z.mul_1_r.
    split_and!; [done|done|done|]. intros j ?. lia. }
  destruct (lookup_lt_is_Some_2 ext i) as [e He]; [lia|].
  cbn [seq]. rewrite (convert_computed_step i e _ _ _ He).
  destruct (IH (S i) (<[i := FixedStrideArrayDimTag (EInt s) 0]> new)
              (s * e)) as (new' & -> & Hl & Hout & Hin); [lia|].
  rewrite length_insert in Hl, Hin.
  rewrite (drop_S _ _ _ He).
  exists new'. split_and!.
  - do 3 f_equal. cbn [take product foldr]. fold (product (take n (drop (S i) ext))).
    f_equal. lia.
  - done.
  - intros j Hj. rewrite Hout by lia. apply list_lookup_insert_ne. lia.
  - intros j Hj Hlt. destruct (decide (j = i)) as [->|Hne].
    + rewrite Hout by lia. rewrite list_lookup_insert_eq by done.
      rewrite Nat.sub_diag. simpl. by rewrite Z.mul_1_r.
    + rewrite Hin by lia.
      replace (j - i)%nat with (S (j - S i)) by lia.
      cbn [take product foldr].
      fold (product (take (j - S i) (drop (S i) ext))).
      do 3 f_equal. lia.
Qed.

(** Positions visited downwards, from [n - 1] to 0: position [j]
    receives the running stride times the product of the extents after
    [j]. *)
Lemma walk_downwards n : ∀ new s,
  (n ≤ List.length ext)%nat →
  ∃ new',
    convert_computed (ShapeTuple (EInt <$> ext)) tags (reverse (seq 0 n))
      new (EInt s)
    = Ok (Some (new', EInt (s * product (take n ext))))
    ∧ List.length new' = List.length new
    ∧ (∀ j, (n ≤ j)%nat → new' !! j = new !! j)
    ∧ (∀ j, (j < n)%nat → (j < List.length new)%nat →
         new' !! j
         = Some (FixedStrideArrayDimTag
                   (EInt (s * product (drop (S j) (take n ext)))) 0)).
Proof.
  induction n as [|n IH]; intros new s Hn.
  { exists new. simpl. rewrite Z.mul_1_r.
    split_and!; [done|done|done|]. intros j ?. lia. }
  destruct (lookup_lt_is_Some_2 ext n) as [e He]; [lia|].
  rewrite seq_S, reverse_snoc, Nat.add_0_l.
  rewrite (convert_computed_step n e _ _ _ He).
  destruct (IH (<[n := FixedStrideArrayDimTag (EInt s) 0]> new) (s * e))
    as (new' & -> & Hl & Hout & Hin); [lia|].
  rewrite length_insert in Hl, Hin.
  rewrite (take_S_r _ _ _ He).
  exists new'. split_and!.
  - do 4 f_equal. rewrite product_app. change (product [e]) with (e * 1).
    lia.
  - done.
  - intros j Hj. rewrite Hout by lia. apply list_lookup_insert_ne. lia.
  - intros j Hj Hlt. destruct (decide (j = n)) as [->|Hne].
    + rewrite Hout by lia. rewrite list_lookup_insert_eq by done.
      rewrite drop_ge by (rewrite length_app, length_take; simpl; lia).
      simpl. by rewrite Z.mul_1_r.
    + rewrite Hin by lia.
      rewrite drop_app_le by (rewrite length_take; lia).
      rewrite product_app. change (product [e]) with (e * 1).
      do 3 f_equal. lia.
Qed.

End Walks.

Lemma convert_axes_one_axis shape tags cg new r :
  convert_computed shape tags cg new (EInt 1) = Ok r →
  convert_axes shape tags
    {| vector_dim := None; computed_stride_dim_tags := [cg];
       fixed_stride_dim_tags := [[]] |} [0%nat] new
  = Ok (fst <$> r).
Proof.
  intros Hw. unfold convert_axes.
  cbn [index lookup list_lookup mbind result_bind
       computed_stride_dim_tags fixed_stride_dim_tags].
  rewrite (bool_decide_eq_false_2 (@nil nat ≠ [])) by (intros H; by apply H).
  rewrite andb_false_r, Hw. by destruct r as [[]|].
Qed.

Lemma convert_plain_C
    (name : string) (num_user_axes : option nat)
    (tags : list dim_tag) (ext : list Z) :
  List.length ext = List.length tags →
  plain_order "C" tags = true →
  convert_computed_to_fixed_dim_tags name num_user_axes 1
    (ShapeTuple (EInt <$> ext)) tags
  = Ok (Some ((λ j, FixedStrideArrayDimTag
                      (EInt (product (drop (S j) ext))) 0)
              <$> seq 0 (List.length tags))).
Proof.
  intros Hlen Hp. unfold convert_computed_to_fixed_dim_tags.
  change (replicate 1 (@nil nat)) with [@nil nat].
  change (seq 0 1) with [0%nat].
  rewrite (pick_apart_uniform_C tags 0 [] (plain_order_uniform _ _ Hp)).
  cbn [mbind result_bind]. rewrite app_nil_r.
  destruct (walk_downwards "C" tags ext Hp Hlen (List.length tags) tags 1)
    as (new' & Hw & Hl & _ & Hin); [lia|].
  rewrite (convert_axes_one_axis _ _ _ _ _ Hw). simpl. do 2 f_equal.
  apply list_eq. intros j. rewrite list_lookup_fmap.
  destruct (decide (j < List.length tags)%nat) as [Hj|Hj].
  - rewrite Hin by done.
    rewrite (proj2 (lookup_seq 0 (List.length tags) j j)) by done.
    simpl. rewrite take_ge by lia. by rewrite Z.mul_1_l.
  - rewrite lookup_ge_None_2 by lia.
    by rewrite lookup_ge_None_2 by (rewrite length_seq; lia).
Qed.

Lemma convert_plain_F
    (name : string) (num_user_axes : option nat)
    (tags : list dim_tag) (ext : list Z) :
  List.length ext = List.length tags →
  plain_order "F" tags = true →
  convert_computed_to_fixed_dim_tags name num_user_axes 1
    (ShapeTuple (EInt <$> ext)) tags
  = Ok (Some ((λ j, FixedStrideArrayDimTag
                      (EInt (product (take j ext))) 0)
              <$> seq 0 (List.length tags))).
Proof.
  intros Hlen Hp. unfold convert_computed_to_fixed_dim_tags.
  change (replicate 1 (@nil nat)) with [@nil nat].
  change (seq 0 1) with [0%nat].
  rewrite (pick_apart_uniform_F tags 0 [] (plain_order_uniform _ _ Hp)).
  cbn [mbind result_bind]. rewrite app_nil_l.
  destruct (walk_upwards "F" tags ext Hp Hlen (List.length tags) 0 tags 1)
    as (new' & Hw & Hl & _ & Hin); [lia|].
  rewrite (convert_axes_one_axis _ _ _ _ _ Hw). simpl. do 2 f_equal.
  apply list_eq. intros j. rewrite list_lookup_fmap.
  destruct (decide (j < List.length tags)%nat) as [Hj|Hj].
  - rewrite Hin by lia.
    rewrite (proj2 (lookup_seq 0 (List.length tags) j j)) by done.
    simpl. rewrite Nat.sub_0_r. by rewrite Z.mul_1_l.
  - rewrite lookup_ge_None_2 by lia.
    by rewrite lookup_ge_None_2 by (rewrite length_seq; lia).
Qed.

(** X7.  For a tag list made of the plain tag C only (order C, target axis
    0, no padding) and integer extents, the normaliser returns row-major
    strides: the stride of axis j is the product of the extents of the
    axes after j.  For the plain tag F it returns column-major strides:
    the stride of axis j is the product of the extents of the axes before
    j. *)
Theorem strides_of_plain_order
    (name : string) (num_user_axes : option nat)
    (tags : list dim_tag) (ext : list Z) :
  List.length ext = List.length tags →
  (plain_order "C" tags = true →
   convert_computed_to_fixed_dim_tags name num_user_axes 1
     (ShapeTuple (EInt <$> ext)) tags
   = Ok (Some ((λ j, FixedStrideArrayDimTag
                       (EInt (product (drop (S j) ext))) 0)
               <$> seq 0 (List.length tags))))
  ∧ (plain_order "F" tags = true →
     convert_computed_to_fixed_dim_tags name num_user_axes 1
       (ShapeTuple (EInt <$> ext)) tags
     = Ok (Some ((λ j, FixedStrideArrayDimTag
                         (EInt (product (take j ext))) 0)
                 <$> seq 0 (List.length tags)))).
Proof.
  intros Hlen. split; intros Hp.
  - by apply convert_plain_C.
  - by apply convert_plain_F.
Qed.

Lemma strides_of_plain_order_witness :
  convert_computed_to_fixed_dim_tags "a" (Some 3%nat) 1
    (ShapeTuple (EInt <$> [2; 3; 4]))
    [ComputedStrideArrayDimTag "C" None 0;
     ComputedStrideArrayDimTag "C" None 0;
     ComputedStrideArrayDimTag "C" None 0]
  = Ok (Some [FixedStrideArrayDimTag (EInt 12) 0;
              FixedStrideArrayDimTag (EInt 4) 0;
              FixedStrideArrayDimTag (EInt 1) 0])
  ∧ convert_computed_to_fixed_dim_tags "a" (Some 3%nat) 1
      (ShapeTuple (EInt <$> [2; 3; 4]))
      [ComputedStrideArrayDimTag "F" None 0;
       ComputedStrideArrayDimTag "F" None 0;
       ComputedStrideArrayDimTag "F" None 0]
    = Ok (Some [FixedStrideArrayDimTag (EInt 1) 0;
                FixedStrideArrayDimTag (EInt 2) 0;
                FixedStrideArrayDimTag (EInt 6) 0]).
Proof.
  split.
  - apply (strides_of_plain_order "a" (Some 3%nat)
             [ComputedStrideArrayDimTag "C" None 0;
              ComputedStrideArrayDimTag "C" None 0;
              ComputedStrideArrayDimTag "C" None 0] [2; 3; 4]);
      reflexivity.
  - apply (strides_of_plain_order "a" (Some 3%nat)
             [ComputedStrideArrayDimTag "F" None 0;
              ComputedStrideArrayDimTag "F" None 0;
              ComputedStrideArrayDimTag "F" None 0] [2; 3; 4]);
      reflexivity.
Defined.

(** ** Constructing a descriptor *)

(** X8.  Giving [strides] is the same as giving one fixed-stride tag on
    target axis 0 per stride and no strides: the two calls of the
    constructor give the same result, descriptor or exception, and the
    [order] argument has no influence on either. *)
Theorem strides_are_fixed_tags
    (parse : string → result expr) (dtype : Type)
    (min_target_axes max_target_axes : nat) (self_name : option string)
    (name : string) (dt : dtype_t dtype) (shape strides : extents_input)
    (offset : offset_t) (order order' : option string) :
  known strides = true →
  ArrayBase_init parse dtype min_target_axes max_target_axes self_name
    name dt shape None offset strides order
  = ArrayBase_init parse dtype min_target_axes max_target_axes self_name
      name dt shape
      (Some (DimTagsList
               ((λ s, TagObject (FixedStrideArrayDimTag s 0))
                  <$> _parse_shape_or_strides strides)))
      offset NotGiven order'.
Proof.
  intros Hk. unfold ArrayBase_init. rewrite Hk.
  rewrite (bool_decide_eq_false_2 (None ≠ None)) by (intros H; by apply H).
  change (known NotGiven) with false. rewrite andb_false_r.
  cbn [andb].
  destruct (match shape_of_input shape with
            | ShapeTuple l => Some (List.length l)
            | _ => None
            end) as [n|]; cbn [mbind result_bind].
  - destruct (bool_decide _); [done|]. cbn [mbind result_bind].
    destruct order, order';
      by destruct (init_dim_tags _ _ _ _ _ _ _ _).
  - destruct order, order';
      by destruct (init_dim_tags _ _ _ _ _ _ _ _).
Qed.

Lemma strides_are_fixed_tags_witness :
  ArrayBase_init (λ _, Raise ParseError) () 0 1 None "a" DtypeNone
    (Extents [EVar "n"; EInt 4]) None OffsetZero
    (Extents [EInt 4; EInt 1]) (Some "F")
  = ArrayBase_init (λ _, Raise ParseError) () 0 1 None "a" DtypeNone
      (Extents [EVar "n"; EInt 4])
      (Some (DimTagsList [TagObject (FixedStrideArrayDimTag (EInt 4) 0);
                          TagObject (FixedStrideArrayDimTag (EInt 1) 0)]))
      OffsetZero NotGiven None.
Proof.
  apply (strides_are_fixed_tags (λ _, Raise ParseError) () 0 1 None "a"
           DtypeNone (Extents [EVar "n"; EInt 4])
           (Extents [EInt 4; EInt 1]) OffsetZero (Some "F") None).
  reflexivity.
Defined.

(** X9.  With a known shape and [dim_tags] given as one string, the rank
    test compares the number of axes with the number of characters of the
    string, not with the number of tags it holds: unless the two numbers
    agree the constructor raises the error for contradictory numbers of
    dimensions. *)
Theorem tag_string_rank_is_its_length
    (parse : string → result expr) (dtype : Type)
    (min_target_axes max_target_axes : nat) (self_name : option string)
    (name : string) (dt : dtype_t dtype) (shape strides : extents_input)
    (s : string) (offset : offset_t) (order : option string) :
  known shape = true →
  known strides = false →
  String.length s ≠ List.length (_parse_shape_or_strides shape) →
  ArrayBase_init parse dtype min_target_axes max_target_axes self_name
    name dt shape (Some (DimTagsString s)) offset strides order
  = Raise ContradictoryRank.
Proof.
  intros Hs Hk Hne. unfold ArrayBase_init. rewrite Hk, andb_false_r.
  destruct shape as [| |e|l]; try done; simpl in *;
    by rewrite bool_decide_eq_true_2.
Qed.

Lemma tag_string_rank_is_its_length_witness :
  ArrayBase_init (λ _, Raise ParseError) () 0 1 None "a" DtypeNone
    (Extents [EInt 4; EInt 5]) (Some (DimTagsString "C,C")) OffsetZero
    NotGiven None
  = Raise ContradictoryRank.
Proof.
  apply (tag_string_rank_is_its_length (λ _, Raise ParseError) () 0 1 None
           "a" DtypeNone (Extents [EInt 4; EInt 5]) NotGiven "C,C"
           OffsetZero None); [reflexivity|reflexivity|].
  simpl. lia.
Defined.

Lemma convert_axes_length shape tags g axes : ∀ cur new,
  convert_axes shape tags g axes cur = Ok (Some new) →
  List.length new = List.length cur.
Proof.
  induction axes as [|t axes IH]; intros cur new H; simpl in H.
  - by injection H as <-.
  - destruct (index (computed_stride_dim_tags g) t) as [cg|];
      simpl in H; [|done].
    destruct (index (fixed_stride_dim_tags g) t) as [fg|];
      simpl in H; [|done].
    destruct (_ && _); [done|].
    destruct (bool_decide (fg ≠ [])).
    + destruct (keep_fixed tags fg cur) as [new1|] eqn:Ek; simpl in H;
        [|done].
      apply keep_fixed_result in Ek as (Hl & _). apply IH in H. lia.
    + destruct (convert_computed shape tags cg cur (EInt 1))
        as [[[new1 s1]|]|] eqn:Ew; simpl in H; try done.
      apply convert_computed_result in Ew as (Hl & _). apply IH in H. lia.
Qed.

Lemma convert_length name nua nta shape tags new :
  convert_computed_to_fixed_dim_tags name nua nta shape tags
  = Ok (Some new) →
  List.length new = List.length tags.
Proof.
  unfold convert_computed_to_fixed_dim_tags.
  destruct (pick_apart _ _ _) as [g|]; simpl; [|done].
  apply convert_axes_length.
Qed.

(** X10.  A descriptor that the constructor returns has these fields:
    [strides] is [None] or [loopy.auto], never a tuple; [order] is [None]
    whenever [dim_tags] is set; and when the shape is a tuple and the tags
    did not come as one string, there are as many tags as axes. *)
Theorem constructed_descriptor_fields
    (parse : string → result expr) (dtype : Type)
    (min_target_axes max_target_axes : nat) (self_name : option string)
    (name : string) (dt : dtype_t dtype) (shape_in strides_in : extents_input)
    (tags_in : option dim_tags_input) (offset_in : offset_t)
    (order_in : option string) (ary : ArrayBase dtype) :
  ArrayBase_init parse dtype min_target_axes max_target_axes self_name
    name dt shape_in tags_in offset_in strides_in order_in = Ok ary →
  known (strides ary) = false
  ∧ (is_Some (dim_tags ary) → order ary = None)
  ∧ ((∀ s, tags_in ≠ Some (DimTagsString s)) →
     ∀ extents tags,
       shape ary = ShapeTuple extents → dim_tags ary = Some tags →
       List.length tags = List.length extents).
Proof.
  unfold ArrayBase_init. intros H.
  destruct (bool_decide (tags_in ≠ None) && known strides_in) eqn:E;
    [done|].
  set (tags1 := match tags_in with
                | None => if known strides_in
                          then (Some (DimTagsList
                                  ((λ s, TagObject (FixedStrideArrayDimTag s 0))
                                     <$> _parse_shape_or_strides strides_in)),
                                NotGiven)
                          else (None, strides_in)
                | Some _ => (tags_in, strides_in)
                end) in H.
  assert (Hstr : known tags1.2 = false).
  { subst tags1. destruct tags_in as [d|]; cbn [snd].
    - apply andb_false_iff in E as [E|E]; [|done].
      apply bool_decide_eq_false in E. by destruct E.
    - by destruct (known strides_in) eqn:Ek. }
  assert (Hnostr : (∀ s, tags_in ≠ Some (DimTagsString s)) →
                   ∀ s, tags1.1 ≠ Some (DimTagsString s)).
  { intros Hn s. subst tags1. destruct tags_in; simpl; [apply Hn|].
    by destruct (known strides_in). }
  destruct tags1 as [tags1 strides1]. simpl in Hstr, Hnostr.
  set (nua := match shape_of_input shape_in with
              | ShapeTuple l => Some (List.length l)
              | _ => None
              end) in H.
  destruct (match tags1 with
            | None => Ok nua
            | Some d => _
            end) as [nua'|] eqn:En; simpl in H; [|done].
  assert (Hrank : ∀ d extents, tags1 = Some d →
            shape_of_input shape_in = ShapeTuple extents →
            dim_tags_input_len d = List.length extents).
  { intros d extents -> Hsh. subst nua. rewrite Hsh in En.
    destruct (bool_decide (dim_tags_input_len d ≠ List.length extents))
      eqn:Eb; [done|].
    apply bool_decide_eq_false in Eb. by apply dec_stable in Eb. }
  set (tags2 := match tags1, nua', order_in with
                | None, Some n, Some o =>
                    (Some (DimTagsList (replicate n (TagString o))), None)
                | _, _, _ => (tags1, order_in)
                end) in H.
  assert (Hrank2 : ∀ d extents, tags2.1 = Some d →
            shape_of_input shape_in = ShapeTuple extents →
            dim_tags_input_len d = List.length extents).
  { intros d extents Hd Hsh. subst tags2.
    destruct tags1 as [d1|]; simpl in Hd.
    - injection Hd as ->. by apply Hrank.
    - injection En as <-. subst nua. rewrite Hsh in Hd.
      destruct order_in; simpl in Hd; [|done].
      injection Hd as <-. simpl. by rewrite length_replicate. }
  assert (Hnostr2 : (∀ s, tags_in ≠ Some (DimTagsString s)) →
                    ∀ s, tags2.1 ≠ Some (DimTagsString s)).
  { intros Hn s. subst tags2.
    destruct tags1 as [d1|]; simpl; [by apply Hnostr|].
    by destruct nua', order_in. }
  destruct tags2 as [tags2 order2]. simpl in Hrank2, Hnostr2.
  destruct tags2 as [d|]; simpl in H.
  - destruct (init_dim_tags _ _ _ _ _ _ _ d) as [t|] eqn:Ei; simpl in H;
      [|done].
    injection H as <-. simpl. split_and!; [done|done|].
    intros Hn extents tags Hsh [= <-].
    unfold init_dim_tags in Ei.
    destruct (parse_array_dim_tags parse d) as [parsed|] eqn:Ep;
      simpl in Ei; [|done].
    assert (Hpl : List.length parsed = List.length extents).
    { rewrite <- (Hrank2 d extents eq_refl Hsh).
      destruct d as [s|l]; [by destruct (Hnostr2 Hn s)|].
      unfold parse_array_dim_tags in Ep. by apply for_each_length in Ep. }
    destruct (negb (bool_decide _)); simpl in Ei.
    { by destruct (read_self_name self_name). }
    destruct (negb (_ && _)); simpl in Ei.
    { by destruct (read_self_name self_name). }
    destruct (convert_computed_to_fixed_dim_tags _ _ _ _ _)
      as [[new|]|] eqn:Ec; simpl in Ei; try done.
    + injection Ei as <-. apply convert_length in Ec. lia.
    + by injection Ei as <-.
  - injection H as <-. simpl. split_and!; [done| |done].
    by intros [? [=]].
Qed.

Lemma constructed_descriptor_fields_witness :
  known NotGiven = false
  ∧ (is_Some (Some [FixedStrideArrayDimTag (EInt 5) 0;
                    FixedStrideArrayDimTag (EInt 1) 0]) →
     (None : option string) = None)
  ∧ ((∀ s, Some (DimTagsList [TagString "C"; TagString "C"])
           ≠ Some (DimTagsString s)) →
     ∀ extents tags,
       ShapeTuple [EInt 4; EInt 5] = ShapeTuple extents →
       Some [FixedStrideArrayDimTag (EInt 5) 0;
             FixedStrideArrayDimTag (EInt 1) 0] = Some tags →
       List.length tags = List.length extents).
Proof.
  apply (constructed_descriptor_fields (λ _, Raise ParseError) () 0 1 None
           "a" DtypeNone (Extents [EInt 4; EInt 5]) NotGiven
           (Some (DimTagsList [TagString "C"; TagString "C"])) OffsetZero
           None
           {| name := "a"; dtype_of := DtypeNone;
              shape := ShapeTuple [EInt 4; EInt 5];
              dim_tags := Some [FixedStrideArrayDimTag (EInt 5) 0;
                                FixedStrideArrayDimTag (EInt 1) 0];
              offset := OffsetZero; order := None; strides := NotGiven |}).
  vm_compute. reflexivity.
Defined.

Lemma init_strides_unknown
    (parse : string → result expr) (dtype : Type)
    (min_target_axes max_target_axes : nat) (self_name : option string)
    (name : string) (dt : dtype_t dtype) (shape_in strides_in : extents_input)
    (tags_in : option dim_tags_input) (offset_in : offset_t)
    (order_in : option string) (ary : ArrayBase dtype) :
  ArrayBase_init parse dtype min_target_axes max_target_axes self_name
    name dt shape_in tags_in offset_in strides_in order_in = Ok ary →
  known (strides ary) = false.
Proof.
  unfold ArrayBase_init. intros H.
  destruct (bool_decide (tags_in ≠ None) && known strides_in) eqn:E;
    [done|].
  set (tags1 := match tags_in with
                | None => if known strides_in
                          then (Some (DimTagsList
                                  ((λ s, TagObject (FixedStrideArrayDimTag s 0))
                                     <$> _parse_shape_or_strides strides_in)),
                                NotGiven)
                          else (None, strides_in)
                | Some _ => (tags_in, strides_in)
                end) in H.
  assert (Hstr : known tags1.2 = false).
  { subst tags1. destruct tags_in as [d|]; cbn [snd].
    - apply andb_false_iff in E as [E|E]; [|done].
      apply bool_decide_eq_false in E. by destruct E.
    - by destruct (known strides_in) eqn:Ek. }
  destruct tags1 as [tags1 strides1]. simpl in Hstr.
  destruct (match tags1 with
            | None => Ok _
            | Some d => _
            end) as [nua'|]; simpl in H; [|done].
  destruct (match tags1, nua', order_in with
            | None, Some n, Some o => _
            | _, _, _ => (tags1, order_in)
            end) as [[d|] order2]; simpl in H.
  - destruct (init_dim_tags _ _ _ _ _ _ _ d); simpl in H; [|done].
    by injection H as <-.
  - by injection H as <-.
Qed.

(** X11.  [numpy_strides] raises [TypeError] on every descriptor that the
    constructor returns: the constructor never stores a tuple in
    [strides], and the property iterates over [self.strides]. *)
Theorem numpy_strides_of_constructed
    (parse : string → result expr) (dtype : Type) (itemsize : dtype → Z)
    (min_target_axes max_target_axes : nat) (self_name : option string)
    (name : string) (dt : dtype_t dtype) (shape_in strides_in : extents_input)
    (tags_in : option dim_tags_input) (offset_in : offset_t)
    (order_in : option string) (ary : ArrayBase dtype) :
  ArrayBase_init parse dtype min_target_axes max_target_axes self_name
    name dt shape_in tags_in offset_in strides_in order_in = Ok ary →
  numpy_strides dtype itemsize ary = Raise PyTypeError.
Proof.
  intros H. apply init_strides_unknown in H.
  unfold numpy_strides. by destruct (strides ary).
Qed.

Lemma numpy_strides_of_constructed_witness :
  numpy_strides () (λ _, 4)
    {| name := "a"; dtype_of := Dtype ();
       shape := ShapeTuple [EInt 4; EInt 5];
       dim_tags := Some [FixedStrideArrayDimTag (EInt 5) 0;
                         FixedStrideArrayDimTag (EInt 1) 0];
       offset := OffsetZero; order := None; strides := NotGiven |}
  = Raise PyTypeError.
Proof.
  apply (numpy_strides_of_constructed (λ _, Raise ParseError) () (λ _, 4)
           0 1 None "a" (Dtype ()) (Extents [EInt 4; EInt 5])
           (Extents [EInt 5; EInt 1]) None OffsetZero None).
  vm_compute. reflexivity.
Defined.

Lemma parse_order_replicate (parse : string → result expr) o n :
  is_order_letter o = true →
  parse_array_dim_tags parse (DimTagsList (replicate n (TagString o)))
  = Ok (replicate n (ComputedStrideArrayDimTag (PyStr.upper o) None 0)).
Proof.
  intros Ho.
  assert (Hone : parse_array_dim_tag parse (TagString o)
                 = Ok (ComputedStrideArrayDimTag (PyStr.upper o) None 0)).
  { apply bool_decide_eq_true in Ho.
    repeat (apply elem_of_cons in Ho as [->|Ho]; [reflexivity|]).
    by apply elem_of_nil in Ho. }
  unfold parse_array_dim_tags.
  induction n as [|n IH]; [done|].
  cbn [replicate for_each]. rewrite Hone. cbn [mbind result_bind].
  by rewrite IH.
Qed.

Lemma target_axes_replicate o p n :
  n ≠ 0%nat →
  target_axes_of (replicate n (ComputedStrideArrayDimTag o p 0)) = {[ 0%nat ]}.
Proof.
  intros Hn. unfold target_axes_of.
  assert (H : ∀ acc : gset nat,
    foldl (λ target_axes dt,
             match stride_target_axis dt with
             | Some t => {[ t ]} ∪ target_axes
             | None => target_axes
             end) acc (replicate n (ComputedStrideArrayDimTag o p 0))
    = {[ 0%nat ]} ∪ acc).
  { destruct n as [|n]; [done|]. clear Hn.
    induction n as [|n IH]; intros acc; [done|].
    cbn [replicate foldl stride_target_axis] in *.
    rewrite IH. by rewrite (assoc_L (∪)), (idemp_L (∪)). }
  rewrite H. apply (right_id_L ∅ (∪)).
Qed.

Lemma plain_order_replicate o n :
  plain_order o (replicate n (ComputedStrideArrayDimTag o None 0)) = true.
Proof.
  unfold plain_order. apply forallb_forall.
  intros dt Hin%list_elem_of_In%elem_of_replicate.
  apply bool_decide_eq_true. by destruct Hin.
Qed.

Lemma init_dim_tags_of_order
    (parse : string → result expr) (min_target_axes max_target_axes : nat)
    (self_name : option string) (name : string) (ext : list Z) (o : string) :
  is_order_letter o = true →
  ext ≠ [] →
  (min_target_axes ≤ 1 ≤ max_target_axes)%nat →
  init_dim_tags parse min_target_axes max_target_axes self_name name
    (Some (List.length ext)) (ShapeTuple (EInt <$> ext))
    (DimTagsList (replicate (List.length ext) (TagString o)))
  = Ok (order_tags o ext).
Proof.
  intros Ho Hext Hrange.
  unfold init_dim_tags. rewrite (parse_order_replicate parse o _ Ho).
  cbn [mbind result_bind].
  rewrite target_axes_replicate by (by destruct ext).
  change (bool_decide ({[0%nat]} = set_seq (C:=gset nat) 0 (size ({[0%nat]} : gset nat))))
    with true.
  cbn [negb]. rewrite size_singleton.
  rewrite (proj2 (Nat.leb_le _ _) (proj1 Hrange)),
          (proj2 (Nat.leb_le _ _) (proj2 Hrange)).
  cbn [andb negb].
  pose proof (convert_plain_C name (Some (List.length ext))
                (replicate (List.length ext)
                   (ComputedStrideArrayDimTag "C" None 0)) ext
                ltac:(by rewrite length_replicate)) as HC.
  pose proof (convert_plain_F name (Some (List.length ext))
                (replicate (List.length ext)
                   (ComputedStrideArrayDimTag "F" None 0)) ext
                ltac:(by rewrite length_replicate)) as HF.
  rewrite length_replicate in HC, HF.
  assert (Hcases : PyStr.upper o = "C" ∨ PyStr.upper o = "F").
  { apply bool_decide_eq_true in Ho.
    repeat (apply elem_of_cons in Ho as [->|Ho]; [by auto|]).
    by apply elem_of_nil in Ho. }
  unfold order_tags.
  destruct Hcases as [Hu|Hu]; rewrite Hu in *.
  - rewrite HC by apply plain_order_replicate. done.
  - rewrite HF by apply plain_order_replicate. done.
Qed.

(** X12.  Constructing a descriptor from an integer shape with at least
    one axis and an [order] letter, without tags and strides, for an array
    kind that allows one target axis: the tags of the descriptor are the
    row-major strides of the shape for c or C (the stride of axis j is the
    product of the extents after j), the column-major strides for f or F
    (the product of the extents before j), and [order] is cleared. *)
Theorem order_gives_strides
    (parse : string → result expr) (dtype : Type)
    (min_target_axes max_target_axes : nat) (self_name : option string)
    (name : string) (dt : dtype_t dtype) (ext : list Z)
    (offset : offset_t) (strides : extents_input) (o : string) :
  is_order_letter o = true →
  ext ≠ [] →
  known strides = false →
  (min_target_axes ≤ 1 ≤ max_target_axes)%nat →
  ArrayBase_init parse dtype min_target_axes max_target_axes self_name
    name dt (Extents (EInt <$> ext)) None offset strides (Some o)
  = Ok {| name := name; dtype_of := dt;
          shape := ShapeTuple (EInt <$> ext);
          dim_tags :=
            Some ((λ j, FixedStrideArrayDimTag
                          (EInt (if bool_decide (PyStr.upper o = "C")
                                 then product (drop (S j) ext)
                                 else product (take j ext))) 0)
                  <$> seq 0 (List.length ext));
          offset := offset; order := None; strides := strides |}.
Proof.
  intros Ho Hext Hk Hrange.
  unfold ArrayBase_init. rewrite Hk.
  rewrite (bool_decide_eq_false_2 (None ≠ None)) by (intros H; by apply H).
  cbn [andb shape_of_input _parse_shape_or_strides mbind result_bind].
  rewrite length_fmap.
  by rewrite (init_dim_tags_of_order parse _ _ self_name name ext o Ho
                Hext Hrange).
Qed.

Lemma order_gives_strides_witness :
  ArrayBase_init (λ _, Raise ParseError) () 0 1 None "a" DtypeNone
    (Extents (EInt <$> [2; 3; 4])) None OffsetZero NotGiven (Some "c")
  = Ok {| name := "a"; dtype_of := DtypeNone;
          shape := ShapeTuple [EInt 2; EInt 3; EInt 4];
          dim_tags := Some [FixedStrideArrayDimTag (EInt 12) 0;
                            FixedStrideArrayDimTag (EInt 4) 0;
                            FixedStrideArrayDimTag (EInt 1) 0];
          offset := OffsetZero; order := None; strides := NotGiven |}.
Proof.
  apply (order_gives_strides (λ _, Raise ParseError) () 0 1 None "a"
           DtypeNone [2; 3; 4] OffsetZero NotGiven "c");
    [reflexivity|discriminate|reflexivity|lia].
Defined.

(** ** Access planning with a shape *)

Lemma string_app_assoc (a b c : string) : (a +:+ b) +:+ c = a +:+ b +:+ c.
Proof.
  induction a as [|x a IH]; [done|].
  change (String x ((a +:+ b) +:+ c) = String x (a +:+ b +:+ c)).
  by rewrite IH.
Qed.

Lemma string_app_nil_r (a : string) : a +:+ "" = a.
Proof.
  induction a as [|x a IH]; [done|].
  change (String x (a +:+ "") = String x a). by rewrite IH.
Qed.

(** The loop of the access planner on integer indices. *)
Lemma access_loop_aligned (eval_expr : expr → expr) m tags :
  ∀ (indices : list Z) suffix vi acc,
  (∀ i, eval_expr (EInt i) = EInt i) →
  m ≠ 0 →
  aligned m tags = true →
  (count_vectors tags + match vi with Some _ => 1 | None => 0 end ≤ 1)%nat →
  access_loop eval_expr m (EInt <$> indices) tags
    {| st_array_suffix := suffix; st_vector_index := vi;
       st_subscripts := [EInt acc] |}
  = Ok {| st_array_suffix := suffix +:+ split_suffix tags indices;
          st_vector_index := from_option Some vi (lane tags indices);
          st_subscripts := [EInt (acc + address m tags indices)] |}.
Proof.
  intros indices suffix vi acc Heval Hm. revert indices suffix vi acc.
  induction tags as [|dt tags IH]; intros indices suffix vi acc Ha Hv.
  { destruct indices; simpl; by rewrite string_app_nil_r, Z.add_0_r. }
  destruct indices as [|i indices].
  { destruct dt as [[] ?| | |]; simpl;
      by rewrite string_app_nil_r, Z.add_0_r. }
  simpl in Ha. apply andb_true_iff in Ha as [Hdt Ha].
  rewrite fmap_cons. cbn [access_loop].
  destruct dt as [[s| | | |] [|t]|o p t| |]; try done.
  - apply bool_decide_eq_true in Hdt.
    cbn [access_step mbind result_bind index lookup list_lookup
         st_subscripts st_array_suffix st_vector_index py_floordiv].
    rewrite !bool_decide_eq_false_2 by done. rewrite Hdt.
    rewrite bool_decide_eq_true_2 by done.
    cbn [negb mbind result_bind py_mul py_add list_insert insert].
    rewrite IH by done. cbn [split_suffix lane address].
    by rewrite Z.add_assoc.
  - cbn [access_step]. rewrite Heval.
    cbn [mbind result_bind st_subscripts st_array_suffix st_vector_index].
    rewrite IH by done. cbn [split_suffix lane address].
    by rewrite !string_app_assoc.
  - cbn [access_step]. rewrite Heval.
    destruct vi as [v|]; [simpl in Hv; lia|].
    cbn [mbind result_bind st_subscripts st_array_suffix st_vector_index].
    rewrite IH by (simpl in *; (done || lia)).
    cbn [split_suffix lane address].
    assert (lane tags indices = None) as ->; [|done].
    simpl in Hv. assert (count_vectors tags = 0%nat) as Hc by lia.
    clear -Hc. revert indices.
    induction tags as [|dt tags IH]; intros indices;
      [by destruct indices|].
    destruct dt, indices; simpl in *; try done; by apply IH.
Qed.

Lemma target_axes_aligned m tags :
  aligned m tags = true → has_fixed 0 tags = true →
  target_axes_of tags = {[ 0%nat ]}.
Proof.
  intros Ha Hf. unfold target_axes_of.
  assert (H : ∀ acc : gset nat,
    foldl (λ target_axes dt,
             match stride_target_axis dt with
             | Some t => {[ t ]} ∪ target_axes
             | None => target_axes
             end) acc tags
    = if has_fixed 0 tags then {[ 0%nat ]} ∪ acc else acc).
  { clear Hf. induction tags as [|dt tags IH]; intros acc; [done|].
    simpl in Ha. apply andb_true_iff in Ha as [Hdt Ha].
    cbn [foldl]. rewrite (IH Ha). unfold has_fixed. cbn [existsb].
    fold (has_fixed 0 tags).
    destruct dt as [[s| | | |] [|t]|o p t| |]; try done; simpl.
    destruct (has_fixed 0 tags); [|done].
    by rewrite (assoc_L (∪)), (idemp_L (∪)). }
  rewrite H, Hf. apply (right_id_L ∅ (∪)).
Qed.

Lemma target_axes_aligned_cases m tags :
  aligned m tags = true →
  target_axes_of tags = if has_fixed 0 tags then {[ 0%nat ]} else ∅.
Proof.
  intros Ha. unfold target_axes_of.
  assert (H : ∀ acc : gset nat,
    foldl (λ target_axes dt,
             match stride_target_axis dt with
             | Some t => {[ t ]} ∪ target_axes
             | None => target_axes
             end) acc tags
    = if has_fixed 0 tags then {[ 0%nat ]} ∪ acc else acc).
  { induction tags as [|dt tags IH]; intros acc; [done|].
    simpl in Ha. apply andb_true_iff in Ha as [Hdt Ha].
    cbn [foldl]. rewrite (IH Ha). unfold has_fixed. cbn [existsb].
    fold (has_fixed 0 tags).
    destruct dt as [[s| | | |] [|t]|o p t| |]; try done; simpl.
    destruct (has_fixed 0 tags); [|done].
    by rewrite (assoc_L (∪)), (idemp_L (∪)). }
  rewrite H. destruct (has_fixed 0 tags); [|done].
  apply (right_id_L ∅ (∪)).
Qed.

Lemma lane_no_vector tags : ∀ indices,
  count_vectors tags = 0%nat → lane tags indices = None.
Proof.
  induction tags as [|dt tags IH]; intros indices Hc;
    [by destruct indices|].
  destruct dt, indices; simpl in *; try done; by apply IH.
Qed.

(** The loop over tags none of which is a fixed-stride tag: the
    subscripts stay as they are. *)
Lemma access_loop_no_fixed (eval_expr : expr → expr) m tags :
  ∀ (indices : list Z) suffix vi subs,
  (∀ i, eval_expr (EInt i) = EInt i) →
  aligned m tags = true →
  has_fixed 0 tags = false →
  (count_vectors tags + match vi with Some _ => 1 | None => 0 end ≤ 1)%nat →
  access_loop eval_expr m (EInt <$> indices) tags
    {| st_array_suffix := suffix; st_vector_index := vi;
       st_subscripts := subs |}
  = Ok {| st_array_suffix := suffix +:+ split_suffix tags indices;
          st_vector_index := from_option Some vi (lane tags indices);
          st_subscripts := subs |}.
Proof.
  intros indices suffix vi subs Heval. revert indices suffix vi.
  induction tags as [|dt tags IH]; intros indices suffix vi Ha Hf Hv.
  { destruct indices; simpl; by rewrite string_app_nil_r. }
  destruct indices as [|i indices].
  { destruct dt as [[] ?| | |]; simpl; by rewrite string_app_nil_r. }
  simpl in Ha. apply andb_true_iff in Ha as [Hdt Ha].
  unfold has_fixed in Hf. cbn [existsb] in Hf. fold (has_fixed 0 tags) in Hf.
  apply orb_false_iff in Hf as [Hf0 Hf].
  rewrite fmap_cons. cbn [access_loop].
  destruct dt as [[s| | | |] [|t]|o p t| |]; try done.
  - cbn [access_step]. rewrite Heval.
    cbn [mbind result_bind st_subscripts st_array_suffix st_vector_index].
    rewrite IH by done. cbn [split_suffix lane].
    by rewrite !string_app_assoc.
  - cbn [access_step]. rewrite Heval.
    destruct vi as [v|]; [simpl in Hv; lia|].
    cbn [mbind result_bind st_subscripts st_array_suffix st_vector_index].
    rewrite IH by (simpl in *; (done || lia)).
    cbn [split_suffix lane].
    rewrite lane_no_vector by (simpl in Hv; lia). done.
Qed.

(** X13.  Access planning on a descriptor with a shape tuple, offset 0 and
    tags that are separate-array tags, at most one vector tag and
    fixed-stride tags on target axis 0 whose integer strides are multiples
    of the vector size m, for a subscript of as many integer indices as
    the shape has axes: the array suffix is the concatenation of _s and
    the index for every separate-array axis, in axis order; the vector
    index is the index of the vector axis, [None] without one.  With at
    least one fixed-stride tag there is one subscript, the sum over the
    fixed-stride axes of stride divided by m, times index; without a
    fixed-stride tag there is no target axis and the list of subscripts
    is empty. *)
Theorem access_of_integer_subscript
    (dtype : Type) (vec_types : dtype_t dtype → Z → option dtype)
    (itemsize : dtype → Z) (ary : ArrayBase dtype) (extents : list expr)
    (tags : list dim_tag) (m : Z) (indices : list Z)
    (eval_expr : expr → expr) :
  shape ary = ShapeTuple extents →
  dim_tags ary = Some tags →
  offset ary = OffsetZero →
  List.length extents = List.length indices →
  vector_size dtype vec_types itemsize ary = Ok m →
  m ≠ 0 →
  aligned m tags = true →
  (count_vectors tags ≤ 1)%nat →
  (∀ i, eval_expr (EInt i) = EInt i) →
  get_access_info dtype vec_types itemsize ary
    (IndexTuple (EInt <$> indices)) eval_expr
  = Ok {| array_suffix := Some (split_suffix tags indices);
          vector_index := lane tags indices;
          subscripts := if has_fixed 0 tags
                        then [EInt (address m tags indices)]
                        else [] |}.
Proof.
  intros Hs Ht Ho Hl Hvs Hm Ha Hv Heval.
  unfold get_access_info, shape_len, num_target_axes, dim_tags_seq.
  rewrite Hs, Ht, Ho, Hvs. cbn [mbind result_bind].
  rewrite length_fmap, bool_decide_eq_false_2 by (intros H; by apply H).
  rewrite (target_axes_aligned_cases m tags Ha).
  destruct (has_fixed 0 tags) eqn:Hf.
  - rewrite size_singleton. cbn [replicate].
    rewrite (access_loop_aligned eval_expr m tags indices "" None 0)
      by (done || lia).
    by destruct (lane tags indices).
  - rewrite size_empty. cbn [replicate].
    rewrite (access_loop_no_fixed eval_expr m tags indices "" None [])
      by (done || lia).
    by destruct (lane tags indices).
Qed.

Lemma access_of_integer_subscript_witness :
  get_access_info bool (λ _ _, Some true) (λ d, if d then 16 else 4)
    {| name := "a"; dtype_of := Dtype false;
       shape := ShapeTuple [EInt 2; EVar "n"; EInt 4; EInt 8];
       dim_tags := Some [SeparateArrayArrayDimTag;
                         FixedStrideArrayDimTag (EInt 32) 0;
                         VectorArrayDimTag;
                         FixedStrideArrayDimTag (EInt 4) 0];
       offset := OffsetZero; order := None; strides := NotGiven |}
    (IndexTuple (EInt <$> [1; 5; 3; 7])) id
  = Ok {| array_suffix := Some "_s1"; vector_index := Some 3;
          subscripts := [EInt 47] |}
  ∧ get_access_info bool (λ _ _, Some true) (λ d, if d then 16 else 4)
      {| name := "a"; dtype_of := Dtype false;
         shape := ShapeTuple [EInt 2];
         dim_tags := Some [SeparateArrayArrayDimTag];
         offset := OffsetZero; order := None; strides := NotGiven |}
      (IndexTuple (EInt <$> [1])) id
    = Ok {| array_suffix := Some "_s1"; vector_index := None;
            subscripts := [] |}.
Proof.
  split.
  - apply (access_of_integer_subscript bool (λ _ _, Some true)
             (λ d, if d then 16 else 4)
             {| name := "a"; dtype_of := Dtype false;
                shape := ShapeTuple [EInt 2; EVar "n"; EInt 4; EInt 8];
                dim_tags := Some [SeparateArrayArrayDimTag;
                                  FixedStrideArrayDimTag (EInt 32) 0;
                                  VectorArrayDimTag;
                                  FixedStrideArrayDimTag (EInt 4) 0];
                offset := OffsetZero; order := None; strides := NotGiven |}
             [EInt 2; EVar "n"; EInt 4; EInt 8]
             [SeparateArrayArrayDimTag; FixedStrideArrayDimTag (EInt 32) 0;
              VectorArrayDimTag; FixedStrideArrayDimTag (EInt 4) 0]
             4 [1; 5; 3; 7] id);
      try reflexivity; (lia || done).
  - apply (access_of_integer_subscript bool (λ _ _, Some true)
             (λ d, if d then 16 else 4)
             {| name := "a"; dtype_of := Dtype false;
                shape := ShapeTuple [EInt 2];
                dim_tags := Some [SeparateArrayArrayDimTag];
                offset := OffsetZero; order := None; strides := NotGiven |}
             [EInt 2] [SeparateArrayArrayDimTag] 1 [1] id);
      try reflexivity; try (simpl; lia); done.
Defined.

(** ** Declaration planning: what a run of the planner yields *)

Section PlannerRuns.

Variable dtype : Type.
Variable vec_types : dtype_t dtype → Z → option dtype.
Variable itemsize : dtype → Z.
Variable cgen_decl : Type.
Variable get_arg_decl :
  string → list (option expr) → dtype_t dtype → bool → cgen_decl.
Variable const_pod : dtype → string → cgen_decl.
Variable self : ArrayBase dtype.
Variable is_written : bool.
Variable index_dtype : dtype.

Lemma for_xrange_all_raise {A} n (e : exn) :
  for_xrange (A:=A) n (λ _, Raise e)
  = if bool_decide (0 < n) then Raise e else Ok [].
Proof.
  case_bool_decide as Hn.
  - by apply for_xrange_raises.
  - unfold for_xrange, seqZ. by replace (Z.to_nat n) with 0%nat by lia.
Qed.

(** The walk in front of fixed-stride axes followed by a separate-array
    axis: what happens depends on the extent of that axis only. *)
Lemma gen_decls_at_split tags extents rest e pre :
  ∀ name_suffix sh st dt (user_index : list (option Z)) seen,
  dim_tags self = Some tags →
  shape self = ShapeTuple extents →
  List.length user_index = List.length seen →
  tags = (seen ++ pre ++ SeparateArrayArrayDimTag :: rest)%list →
  Forall (λ t, is_Some (fixed_axis t)) pre →
  (List.length tags ≤ List.length extents)%nat →
  extents !! (List.length seen + List.length pre)%nat = Some e →
  gen_decls dtype vec_types cgen_decl get_arg_decl const_pod self is_written
    index_dtype 1 (S (List.length pre + List.length rest))
    name_suffix sh st dt user_index
  = match e with
    | EInt n => if bool_decide (0 < n) then Raise PyTypeError else Ok []
    | _ => Raise NonConstantSplitExtent
    end.
Proof.
  induction pre as [|t pre IH];
    intros name_suffix sh st dt user_index seen Htags Hshape Hui Heq Hfix
      Hlen Hext.
  - cbn [gen_decls]. unfold dim_tags_seq. rewrite Htags.
    cbn [mbind result_bind].
    assert (Hlk : tags !! List.length user_index
                  = Some SeparateArrayArrayDimTag).
    { rewrite Heq, Hui, lookup_app_r by lia. by rewrite Nat.sub_diag. }
    rewrite (index_Some _ _ _ Hlk). cbn [mbind result_bind].
    unfold shape_at. rewrite Hshape.
    rewrite Nat.add_0_r, <- Hui in Hext.
    rewrite (index_Some _ _ _ Hext). cbn [mbind result_bind].
    destruct e; try done. apply for_xrange_all_raise.
  - apply Forall_cons in Hfix as [[a Ht] Hfix].
    destruct t as [stride a'| | |]; try done.
    cbn [gen_decls]. unfold dim_tags_seq. rewrite Htags.
    cbn [mbind result_bind].
    assert (Hlk : tags !! List.length user_index
                  = Some (FixedStrideArrayDimTag stride a')).
    { rewrite Heq, Hui, lookup_app_r by lia. by rewrite Nat.sub_diag. }
    rewrite (index_Some _ _ _ Hlk). cbn [mbind result_bind].
    unfold self_shape, shape_at. rewrite Hshape.
    destruct (lookup_lt_is_Some_2 extents (List.length user_index))
      as [e' He'].
    { rewrite Heq, !length_app in Hlen. simpl in Hlen. lia. }
    rewrite (index_Some _ _ _ He'). cbn [mbind result_bind].
    assert (Hq : ∃ q, py_floordiv stride (EInt 1) = Ok q).
    { destruct stride; simpl; eauto. }
    destruct Hq as [q ->]. cbn [mbind result_bind].
    apply (IH _ _ _ _ _ (seen ++ [FixedStrideArrayDimTag stride a'])%list);
      try done.
    + rewrite !length_app. simpl. lia.
    + by rewrite <- app_assoc.
    + rewrite length_app. simpl. simpl in Hext.
      by replace (List.length seen + 1 + List.length pre)%nat
        with (List.length seen + S (List.length pre))%nat by lia.
Qed.

(** X14.  Declaration planning for a descriptor with a shape tuple whose
    tags are fixed-stride tags up to a first separate-array tag, with no
    vector tag: a positive integer extent of that axis makes the planner
    raise [TypeError] (the recursive call of the separate-array branch
    lacks an argument), an integer extent that is not positive makes it
    yield no declaration at all, and an extent that is not an integer
    makes it raise the error for a non-constant axis. *)
Theorem decl_info_at_first_split
    (tags : list dim_tag) (extents : list expr)
    (pre rest : list dim_tag) (e : expr) :
  dim_tags self = Some tags →
  shape self = ShapeTuple extents →
  tags = (pre ++ SeparateArrayArrayDimTag :: rest)%list →
  Forall (λ t, is_Some (fixed_axis t)) pre →
  Forall (λ t, t ≠ VectorArrayDimTag) rest →
  List.length tags = List.length extents →
  extents !! List.length pre = Some e →
  decl_info dtype vec_types itemsize cgen_decl get_arg_decl const_pod
    self is_written index_dtype
  = match e with
    | EInt n => if bool_decide (0 < n) then Raise PyTypeError else Ok []
    | _ => Raise NonConstantSplitExtent
    end.
Proof.
  intros Htags Hshape Heq Hfix Hvec Hlen Hext.
  unfold decl_info, vector_size, dim_tags_seq. rewrite Htags.
  cbn [mbind result_bind].
  rewrite vector_size_from_no_vector.
  2:{ rewrite Heq. apply Forall_app. split.
      - eapply Forall_impl; [exact Hfix|]. by intros [] [].
      - by constructor. }
  cbn [mbind result_bind].
  unfold num_user_axes, shape_len. rewrite Hshape.
  cbn [mbind result_bind default Datatypes.id].
  rewrite <- Hlen, Heq, length_app. cbn [List.length].
  replace (List.length pre + S (List.length rest))%nat
    with (S (List.length pre + List.length rest)) by lia.
  apply (gen_decls_at_split tags extents rest e pre "" [] []
           (dtype_of self) [] []); try done. lia.
Qed.

End PlannerRuns.

Lemma decl_info_at_first_split_witness :
  decl_info () (λ _ _, None) (λ _, 1) () (λ _ _ _ _, ()) (λ _ _, ())
    {| name := "a"; dtype_of := Dtype ();
       shape := ShapeTuple [EInt 10; EInt 0; EInt 4];
       dim_tags := Some [FixedStrideArrayDimTag (EInt 1) 0;
                         SeparateArrayArrayDimTag;
                         SeparateArrayArrayDimTag];
       offset := OffsetZero; order := None; strides := NotGiven |}
    true ()
  = Ok [].
Proof.
  apply (decl_info_at_first_split () (λ _ _, None) (λ _, 1) ()
           (λ _ _ _ _, ()) (λ _ _, ())
           {| name := "a"; dtype_of := Dtype ();
              shape := ShapeTuple [EInt 10; EInt 0; EInt 4];
              dim_tags := Some [FixedStrideArrayDimTag (EInt 1) 0;
                                SeparateArrayArrayDimTag;
                                SeparateArrayArrayDimTag];
              offset := OffsetZero; order := None; strides := NotGiven |}
           true ()
           [FixedStrideArrayDimTag (EInt 1) 0; SeparateArrayArrayDimTag;
            SeparateArrayArrayDimTag]
           [EInt 10; EInt 0; EInt 4]
           [FixedStrideArrayDimTag (EInt 1) 0]
           [SeparateArrayArrayDimTag] (EInt 0));
    try reflexivity.
  - repeat constructor. by eexists.
  - repeat constructor. discriminate.
Defined.

Section VectorAxis.

Variable dtype : Type.
Variable vec_types : dtype_t dtype → Z → option dtype.
Variable itemsize : dtype → Z.
Variable cgen_decl : Type.
Variable get_arg_decl :
  string → list (option expr) → dtype_t dtype → bool → cgen_decl.
Variable const_pod : dtype → string → cgen_decl.
Variable self : ArrayBase dtype.
Variable is_written : bool.
Variable index_dtype : dtype.

Variables (tags : list dim_tag) (extents : list expr).
Hypothesis Htags : dim_tags self = Some tags.
Hypothesis Hshape : shape self = ShapeTuple extents.

(** A block of fixed-stride axes with integer strides: every axis adds
    its extent to the shape and its stride, divided by the vector size, to
    the strides. *)
Lemma gen_decls_fixed_block m (block_s : list Z) :
  ∀ (block_e : list expr) k name_suffix sh st d0
    (user_index : list (option Z)) seen es rest er,
  m ≠ 0 →
  tags = (seen ++ ((λ s, FixedStrideArrayDimTag (EInt s) 0) <$> block_s)
          ++ rest)%list →
  extents = (es ++ block_e ++ er)%list →
  List.length es = List.length seen →
  List.length user_index = List.length seen →
  List.length block_e = List.length block_s →
  gen_decls dtype vec_types cgen_decl get_arg_decl const_pod self is_written
    index_dtype m (List.length block_s + k)
    name_suffix sh st (Dtype d0) user_index
  = gen_decls dtype vec_types cgen_decl get_arg_decl const_pod self
      is_written index_dtype m k name_suffix
      (sh ++ (Some <$> block_e))%list
      (st ++ ((λ s, EInt (s / m)) <$> block_s))%list
      (Dtype d0)
      (user_index ++ replicate (List.length block_s) None)%list.
Proof.
  induction block_s as [|s block_s IH];
    intros block_e k name_suffix sh st d0 user_index seen es rest er
      Hm Ht He Hes Hui Hbl.
  { destruct block_e; [|done]. simpl. by rewrite !app_nil_r. }
  destruct block_e as [|e block_e]; [done|].
  cbn [List.length Nat.add gen_decls]. unfold dim_tags_seq. rewrite Htags.
  cbn [mbind result_bind].
  assert (Hlk : tags !! List.length user_index
                = Some (FixedStrideArrayDimTag (EInt s) 0)).
  { rewrite Ht, Hui, lookup_app_r by lia. by rewrite Nat.sub_diag. }
  rewrite (index_Some _ _ _ Hlk). cbn [mbind result_bind].
  unfold self_shape, shape_at. rewrite Hshape.
  assert (Hle : extents !! List.length user_index = Some e).
  { rewrite He, Hui, <- Hes, lookup_app_r by lia. by rewrite Nat.sub_diag. }
  rewrite (index_Some _ _ _ Hle).
  cbn [mbind result_bind py_floordiv].
  rewrite bool_decide_eq_false_2 by done. cbn [mbind result_bind].
  rewrite (IH block_e k name_suffix _ _ d0 _
             (seen ++ [FixedStrideArrayDimTag (EInt s) 0])%list
             (es ++ [e])%list rest er); try done.
  - rewrite fmap_cons. cbn [replicate].
    by rewrite <- !app_assoc.
  - rewrite Ht, fmap_cons. by rewrite <- !app_assoc.
  - rewrite He. by rewrite <- !app_assoc.
  - rewrite !length_app. simpl. lia.
  - rewrite !length_app. simpl. lia.
  - simpl in Hbl. lia.
Qed.

(** The vector axis: no shape entry, no stride, the element type becomes
    the vector type. *)
Lemma gen_decls_vector_step m k name_suffix sh st d0 v n
    (user_index : list (option Z)) :
  tags !! List.length user_index = Some VectorArrayDimTag →
  extents !! List.length user_index = Some (EInt n) →
  vec_types (Dtype d0) n = Some v →
  gen_decls dtype vec_types cgen_decl get_arg_decl const_pod self is_written
    index_dtype m (S k) name_suffix sh st (Dtype d0) user_index
  = gen_decls dtype vec_types cgen_decl get_arg_decl const_pod self
      is_written index_dtype m k name_suffix sh st (Dtype v)
      (user_index ++ [None])%list.
Proof.
  intros Hlk Hle Hv. cbn [gen_decls]. unfold dim_tags_seq. rewrite Htags.
  cbn [mbind result_bind]. rewrite (index_Some _ _ _ Hlk).
  cbn [mbind result_bind]. unfold shape_at. rewrite Hshape.
  rewrite (index_Some _ _ _ Hle). cbn [mbind result_bind]. by rewrite Hv.
Qed.

Lemma vector_size_from_fixed_block (block_s : list Z) rest i :
  vector_size_from dtype vec_types itemsize self i
    (((λ s, FixedStrideArrayDimTag (EInt s) 0) <$> block_s) ++ rest)
  = vector_size_from dtype vec_types itemsize self
      (i + List.length block_s) rest.
Proof.
  revert i. induction block_s as [|s block_s IH]; intros i.
  - simpl. by rewrite Nat.add_0_r.
  - rewrite fmap_cons. cbn [app vector_size_from List.length].
    rewrite IH. f_equal. lia.
Qed.

(** X15.  Declaration planning for a descriptor with offset 0 whose tags
    are fixed-stride tags with integer strides around one vector tag, the
    vector axis having an integer extent n for which the vector-type
    table has an entry v: the planner yields one declaration, whose
    element type is v, whose shape holds the extents of the fixed-stride
    axes only, and whose strides are the strides of these axes divided by
    the vector size, the item size of v divided by the item size of the
    element type. *)
Theorem decl_info_with_vector_axis
    (sp sq : list Z) (ep eq : list expr) (n m : Z) (d v : dtype) :
  tags = (((λ s, FixedStrideArrayDimTag (EInt s) 0) <$> sp)
          ++ VectorArrayDimTag
             :: ((λ s, FixedStrideArrayDimTag (EInt s) 0) <$> sq))%list →
  extents = (ep ++ EInt n :: eq)%list →
  List.length ep = List.length sp →
  List.length eq = List.length sq →
  dtype_of self = Dtype d →
  offset self = OffsetZero →
  vec_types (Dtype d) n = Some v →
  itemsize d ≠ 0 →
  m = itemsize v / itemsize d →
  m ≠ 0 →
  decl_info dtype vec_types itemsize cgen_decl get_arg_decl const_pod
    self is_written index_dtype
  = Ok [(get_arg_decl "" (Some <$> (ep ++ eq))%list (Dtype v) is_written,
         {| arg_name := name self +:+ "";
            arg_base_name := Some (name self);
            arg_dtype := Dtype v;
            arg_shape := Some (Some <$> (ep ++ eq))%list;
            arg_strides := Some ((λ s, EInt (s / m)) <$> (sp ++ sq))%list;
            arg_offset_for_name := None |})].
Proof.
  intros Ht He Hlp Hlq Hd Ho Hv Hi Hm Hm0.
  unfold decl_info, vector_size, dim_tags_seq. rewrite Htags.
  cbn [mbind result_bind].
  assert (Hvs : vector_size_from dtype vec_types itemsize self 0 tags = Ok m).
  { rewrite Ht, vector_size_from_fixed_block. cbn [vector_size_from].
    unfold shape_at. rewrite Hshape.
    assert (Hle : extents !! (0 + List.length sp)%nat = Some (EInt n)).
    { rewrite He, <- Hlp, lookup_app_r by lia.
      by replace (0 + List.length ep - List.length ep)%nat with 0%nat by lia. }
    rewrite (index_Some _ _ _ Hle). cbn [mbind result_bind].
    rewrite Hd, Hv. rewrite bool_decide_eq_false_2 by done. by rewrite Hm. }
  rewrite Hvs. cbn [mbind result_bind].
  unfold num_user_axes, shape_len. rewrite Hshape.
  cbn [mbind result_bind default Datatypes.id].
  rewrite Hd.
  replace (List.length extents)
    with (List.length sp + S (List.length sq + 0))%nat
    by (rewrite He, length_app; simpl; lia).
  rewrite (gen_decls_fixed_block m sp ep _ "" [] [] d [] [] []
             (VectorArrayDimTag
                :: ((λ s, FixedStrideArrayDimTag (EInt s) 0) <$> sq))
             (EInt n :: eq)); try done.
  cbn [app].
  rewrite (gen_decls_vector_step m _ "" _ _ d v n).
  2:{ rewrite length_replicate, Ht, lookup_app_r by (rewrite length_fmap; lia).
      by rewrite length_fmap, Nat.sub_diag. }
  2:{ rewrite length_replicate, He, <- Hlp, lookup_app_r by lia.
      by rewrite Nat.sub_diag. }
  2:{ done. }
  rewrite (gen_decls_fixed_block m sq eq 0 "" _ _ v _
             (((λ s, FixedStrideArrayDimTag (EInt s) 0) <$> sp)
              ++ [VectorArrayDimTag])%list
             (ep ++ [EInt n])%list [] []); try done.
  - cbn [gen_decls]. unfold gen_decls_base. rewrite Ho. cbn [offset_truthy].
    by rewrite <- !fmap_app.
  - rewrite Ht, app_nil_r. by rewrite <- app_assoc.
  - rewrite He, app_nil_r. by rewrite <- app_assoc.
  - rewrite !length_app, length_fmap. simpl. lia.
  - rewrite !length_app, length_replicate, length_fmap. done.
Qed.

End VectorAxis.

Lemma decl_info_with_vector_axis_witness :
  decl_info bool (λ _ _, Some true) (λ d, if d then 16 else 4)
    () (λ _ _ _ _, ()) (λ _ _, ())
    {| name := "a"; dtype_of := Dtype false;
       shape := ShapeTuple [EVar "n"; EInt 4];
       dim_tags := Some [FixedStrideArrayDimTag (EInt 4) 0;
                         VectorArrayDimTag];
       offset := OffsetZero; order := None; strides := NotGiven |}
    true false
  = Ok [((),
         {| arg_name := "a"; arg_base_name := Some "a";
            arg_dtype := Dtype true;
            arg_shape := Some [Some (EVar "n")];
            arg_strides := Some [EInt 1];
            arg_offset_for_name := None |})].
Proof.
  apply (decl_info_with_vector_axis bool (λ _ _, Some true)
           (λ d, if d then 16 else 4) () (λ _ _ _ _, ()) (λ _ _, ())
           {| name := "a"; dtype_of := Dtype false;
              shape := ShapeTuple [EVar "n"; EInt 4];
              dim_tags := Some [FixedStrideArrayDimTag (EInt 4) 0;
                                VectorArrayDimTag];
              offset := OffsetZero; order := None; strides := NotGiven |}
           true false
           [FixedStrideArrayDimTag (EInt 4) 0; VectorArrayDimTag]
           [EVar "n"; EInt 4] eq_refl eq_refl
           [4] [] [EVar "n"] [] 4 4 false true);
    try reflexivity; done.
Defined.

(** ** Mapping the expressions of a descriptor *)

Lemma for_each_map_expr (f : expr → expr) tags :
  normalised tags = true →
  for_each (map_expr f) tags = Ok (map_stride f <$> tags).
Proof.
  induction tags as [|dt tags IH]; intros Hn; [done|].
  simpl in Hn. apply andb_true_iff in Hn as [Hdt Hn].
  cbn [for_each]. rewrite (IH Hn). by destruct dt.
Qed.

Lemma for_each_map_expr_computed (f : expr → expr) tags :
  normalised tags = false →
  for_each (map_expr f) tags = Raise UnsupportedOperation.
Proof.
  induction tags as [|dt tags IH]; intros Hn; [done|].
  simpl in Hn. apply andb_false_iff in Hn as [Hdt|Hn].
  - by destruct dt.
  - cbn [for_each]. rewrite (IH Hn). by destruct dt.
Qed.

Lemma target_axes_map_stride (f : expr → expr) tags :
  target_axes_of (map_stride f <$> tags) = target_axes_of tags.
Proof.
  unfold target_axes_of. generalize (∅ : gset nat).
  induction tags as [|dt tags IH]; intros acc; [done|].
  rewrite fmap_cons. cbn [foldl]. rewrite IH. by destruct dt.
Qed.

Lemma normalised_map_stride (f : expr → expr) tags :
  normalised (map_stride f <$> tags) = normalised tags.
Proof.
  induction tags as [|dt tags IH]; [done|].
  rewrite fmap_cons. unfold normalised in *. cbn [forallb]. rewrite IH.
  by destruct dt.
Qed.

Lemma count_vectors_map_stride (f : expr → expr) tags :
  count_vectors (map_stride f <$> tags) = count_vectors tags.
Proof.
  induction tags as [|dt tags IH]; [done|].
  rewrite fmap_cons. destruct dt; simpl; by rewrite ?IH.
Qed.

Lemma target_axes_elem tags dt t :
  dt ∈ tags → stride_target_axis dt = Some t → t ∈ target_axes_of tags.
Proof.
  unfold target_axes_of. generalize (∅ : gset nat).
  assert (Hacc : ∀ (l : list dim_tag) (acc : gset nat),
            t ∈ acc →
            t ∈ foldl (λ target_axes dt,
                         match stride_target_axis dt with
                         | Some t => {[ t ]} ∪ target_axes
                         | None => target_axes
                         end) acc l).
  { induction l as [|d l IH]; intros acc Ht; [done|].
    cbn [foldl]. apply IH. destruct (stride_target_axis d); [|done].
    apply elem_of_union. by right. }
  induction tags as [|d tags IH]; intros acc Hin Hs.
  { by apply elem_of_nil in Hin. }
  cbn [foldl]. apply elem_of_cons in Hin as [<-|Hin].
  - rewrite Hs. apply Hacc. apply elem_of_union. left.
    by apply elem_of_singleton.
  - by apply IH.
Qed.

Lemma contiguous_in_range tags n :
  target_axes_of tags = set_seq 0 n →
  normalised tags = true →
  forallb (tag_in_range n) tags = true.
Proof.
  intros Hc Hn. apply forallb_forall. intros dt Hin%list_elem_of_In.
  destruct dt as [s t|o p t| |]; try done.
  - simpl. apply Nat.ltb_lt.
    pose proof (target_axes_elem tags _ t Hin eq_refl) as Ht.
    rewrite Hc in Ht. apply elem_of_set_seq in Ht. lia.
  - unfold normalised in Hn. rewrite forallb_forall in Hn.
    apply list_elem_of_In in Hin. by specialize (Hn _ Hin).
Qed.

(** X16.  [map_exprs] on a descriptor that holds a computed-stride tag
    raises the [TypeError] of [ComputedStrideArrayDimTag.map_expr], whatever
    the other fields are: no copy is made.  (A descriptor keeps such tags
    when it was constructed without a shape.) *)
Theorem map_exprs_of_computed_tags
    (parse : string → result expr) (dtype : Type)
    (min_target_axes max_target_axes : nat)
    (self : ArrayBase dtype) (mapper : expr → expr) (tags : list dim_tag) :
  dim_tags self = Some tags →
  normalised tags = false →
  map_exprs parse dtype min_target_axes max_target_axes self mapper
  = Raise UnsupportedOperation.
Proof.
  intros Ht Hn. unfold map_exprs. rewrite Ht.
  by rewrite (for_each_map_expr_computed mapper tags Hn).
Qed.

Lemma map_exprs_of_computed_tags_witness :
  map_exprs (λ _, Raise ParseError) () 0 1
    {| name := "a"; dtype_of := DtypeNone; shape := ShapeNone;
       dim_tags := Some [FixedStrideArrayDimTag (EInt 1) 0;
                         ComputedStrideArrayDimTag "C" None 0];
       offset := OffsetZero; order := None; strides := NotGiven |}
    (λ e, e)
  = Raise UnsupportedOperation.
Proof.
  apply (map_exprs_of_computed_tags (λ _, Raise ParseError) () 0 1
           {| name := "a"; dtype_of := DtypeNone; shape := ShapeNone;
              dim_tags := Some [FixedStrideArrayDimTag (EInt 1) 0;
                                ComputedStrideArrayDimTag "C" None 0];
              offset := OffsetZero; order := None; strides := NotGiven |}
           (λ e, e)
           [FixedStrideArrayDimTag (EInt 1) 0;
            ComputedStrideArrayDimTag "C" None 0]);
    reflexivity.
Defined.

(** X17.  [map_exprs] on a descriptor as the constructor leaves it (no
    strides tuple stored, as many tags as the shape tuple has extents,
    target axes 0..n-1 with n within the class bounds, at most one vector
    tag) whose tags hold no computed-stride tag returns the descriptor
    with [mapper] applied to every extent of the shape tuple and to every
    fixed stride; name, dtype, offset, the stored strides and the kind and
    target axis of every tag are as before, and [order] is [None]. *)
Theorem map_exprs_of_normalised
    (parse : string → result expr) (dtype : Type)
    (min_target_axes max_target_axes : nat)
    (self : ArrayBase dtype) (mapper : expr → expr) (tags : list dim_tag) :
  dim_tags self = Some tags →
  known (strides self) = false →
  rank_agrees (shape self) tags = true →
  normalised tags = true →
  (count_vectors tags ≤ 1)%nat →
  target_axes_of tags = set_seq 0 (size (target_axes_of tags)) →
  (min_target_axes ≤ size (target_axes_of tags) ≤ max_target_axes)%nat →
  map_exprs parse dtype min_target_axes max_target_axes self mapper
  = Ok {| name := name self; dtype_of := dtype_of self;
          shape := map_shape mapper (shape self);
          dim_tags := Some (map_stride mapper <$> tags);
          offset := offset self; order := None;
          strides := strides self |}.
Proof.
  intros Ht Hk Hr Hn Hv Hc Hb. unfold map_exprs. rewrite Ht.
  rewrite (for_each_map_expr mapper tags Hn). cbn [mbind result_bind].
  set (tags' := map_stride mapper <$> tags).
  assert (Hi : ∀ nua sh,
    init_dim_tags parse min_target_axes max_target_axes None (name self)
      nua sh (DimTagsList (TagObject <$> tags')) = Ok tags').
  { intros nua sh. unfold init_dim_tags. rewrite parse_tag_objects.
    cbn [mbind result_bind]. subst tags'.
    rewrite target_axes_map_stride, <- Hc.
    rewrite bool_decide_eq_true_2 by done. cbn [negb].
    destruct Hb as [Hb1 Hb2].
    rewrite (proj2 (Nat.leb_le _ _) Hb1), (proj2 (Nat.leb_le _ _) Hb2).
    cbn [andb negb].
    assert (Hg : groupable (size (target_axes_of tags))
                   (map_stride mapper <$> tags) = true).
    { unfold groupable. apply andb_true_iff. split.
      - apply contiguous_in_range.
        + by rewrite target_axes_map_stride.
        + by rewrite normalised_map_stride.
      - rewrite count_vectors_map_stride. by apply Nat.leb_le. }
    destruct (pick_apart_groups _ _ Hg) as (g & Hp & Hgroups).
    unfold convert_computed_to_fixed_dim_tags. rewrite Hp.
    cbn [mbind result_bind].
    rewrite (convert_axes_normalised sh (size (target_axes_of tags)));
      [done|done|by rewrite normalised_map_stride|].
    intros t Hin%elem_of_seq. lia. }
  unfold ArrayBase_init. rewrite Hk, andb_false_r.
  destruct (shape self) as [| |ext] eqn:Es; cbn [mapped_shape map_shape].
  - cbn [shape_of_input dim_tags_input_len mbind result_bind].
    rewrite Hi. done.
  - cbn [shape_of_input dim_tags_input_len mbind result_bind].
    rewrite Hi. done.
  - cbn [shape_of_input _parse_shape_or_strides dim_tags_input_len].
    simpl in Hr. apply bool_decide_eq_true in Hr.
    rewrite bool_decide_eq_false_2.
    2:{ subst tags'. rewrite !length_fmap. lia. }
    cbn [mbind result_bind]. rewrite Hi. done.
Qed.

Lemma map_exprs_of_normalised_witness :
  map_exprs (λ _, Raise ParseError) () 1 1
    {| name := "a"; dtype_of := DtypeNone;
       shape := ShapeTuple [EVar "n"; EInt 4];
       dim_tags := Some [FixedStrideArrayDimTag (EInt 4) 0;
                         FixedStrideArrayDimTag (EInt 1) 0];
       offset := OffsetZero; order := None; strides := NotGiven |}
    (λ e, EProduct (EInt 2) e)
  = Ok {| name := "a"; dtype_of := DtypeNone;
          shape := ShapeTuple [EProduct (EInt 2) (EVar "n");
                               EProduct (EInt 2) (EInt 4)];
          dim_tags := Some [FixedStrideArrayDimTag
                              (EProduct (EInt 2) (EInt 4)) 0;
                            FixedStrideArrayDimTag
                              (EProduct (EInt 2) (EInt 1)) 0];
          offset := OffsetZero; order := None; strides := NotGiven |}.
Proof.
  apply (map_exprs_of_normalised (λ _, Raise ParseError) () 1 1
           {| name := "a"; dtype_of := DtypeNone;
              shape := ShapeTuple [EVar "n"; EInt 4];
              dim_tags := Some [FixedStrideArrayDimTag (EInt 4) 0;
                                FixedStrideArrayDimTag (EInt 1) 0];
              offset := OffsetZero; order := None; strides := NotGiven |}
           (λ e, EProduct (EInt 2) e)
           [FixedStrideArrayDimTag (EInt 4) 0;
            FixedStrideArrayDimTag (EInt 1) 0]);
    try reflexivity.
  - simpl. lia.
  - vm_compute. lia.
Defined.

(** ** Construction followed by access *)

Lemma address_of_strides (strides indices : list Z) :
  address 1 ((λ s, FixedStrideArrayDimTag (EInt s) 0) <$> strides) indices
  = foldr Z.add 0 (zip_with Z.mul strides indices).
Proof.
  revert indices. induction strides as [|s strides IH]; intros [|i indices];
    try done.
  rewrite fmap_cons. cbn [address zip_with foldr]. rewrite IH.
  by rewrite Z.div_1_r.
Qed.

Lemma row_major_strides (ext indices : list Z) :
  foldr Z.add 0
    (zip_with Z.mul
       ((λ j, product (drop (S j) ext)) <$> seq 0 (List.length ext)) indices)
  = row_major ext indices.
Proof.
  revert indices. induction ext as [|e ext IH]; intros [|i indices];
    try done.
  cbn [List.length seq]. rewrite fmap_cons, <- fmap_S_seq, <- list_fmap_compose.
  cbn [zip_with foldr row_major drop].
  rewrite drop_0, <- IH, Z.mul_comm. reflexivity.
Qed.

Lemma column_major_strides (c : Z) (ext indices : list Z) :
  foldr Z.add 0
    (zip_with Z.mul
       ((λ j, c * product (take j ext)) <$> seq 0 (List.length ext)) indices)
  = c * column_major ext indices.
Proof.
  revert c indices. induction ext as [|e ext IH]; intros c [|i indices];
    try (simpl; lia).
  cbn [List.length seq]. rewrite fmap_cons, <- fmap_S_seq, <- list_fmap_compose.
  cbn [zip_with foldr column_major].
  rewrite Z.mul_add_distr_l, Z.mul_assoc, <- (IH (c * e)).
  f_equal; [by rewrite take_0; simpl; lia|].
  do 2 f_equal. apply list_fmap_ext. intros k j _.
  unfold compose. cbn [take]. unfold product. cbn [foldr]. lia.
Qed.

Lemma address_of_order_tags (o : string) (ext indices : list Z) :
  address 1 (order_tags o ext) indices
  = if bool_decide (PyStr.upper o = "C")
    then row_major ext indices else column_major ext indices.
Proof.
  unfold order_tags. destruct (bool_decide (PyStr.upper o = "C")).
  - rewrite (list_fmap_compose (λ j, product (drop (S j) ext))
               (λ s, FixedStrideArrayDimTag (EInt s) 0)).
    by rewrite address_of_strides, row_major_strides.
  - transitivity
      (address 1 ((λ s, FixedStrideArrayDimTag (EInt s) 0)
                  <$> ((λ j, 1 * product (take j ext))
                       <$> seq 0 (List.length ext))) indices).
    { f_equal. rewrite <- list_fmap_compose. apply list_fmap_ext.
      intros k j _. unfold compose. by rewrite Z.mul_1_l. }
    rewrite address_of_strides, column_major_strides. lia.
Qed.

Lemma order_tags_aligned (o : string) (ext : list Z) :
  aligned 1 (order_tags o ext) = true
  ∧ count_vectors (order_tags o ext) = 0%nat
  ∧ Forall (λ dt, dt ≠ VectorArrayDimTag) (order_tags o ext)
  ∧ (ext ≠ [] → has_fixed 0 (order_tags o ext) = true)
  ∧ ∀ indices, split_suffix (order_tags o ext) indices = ""
               ∧ lane (order_tags o ext) indices = None.
Proof.
  unfold order_tags.
  assert (Hf : ext ≠ [] →
          has_fixed 0 ((λ j, FixedStrideArrayDimTag
                          (EInt (if bool_decide (PyStr.upper o = "C")
                                 then product (drop (S j) ext)
                                 else product (take j ext))) 0)
                       <$> seq 0 (List.length ext)) = true).
  { intros Hext. by destruct ext as [|e ext]. }
  revert Hf. generalize (seq 0 (List.length ext)) as js.
  intros js Hf. split_and!; [| | |done|].
  - clear Hf. induction js as [|j js IH]; [done|]. rewrite fmap_cons.
    unfold aligned in *. cbn [forallb]. rewrite IH, Z.mod_1_r.
    by rewrite bool_decide_eq_true_2.
  - clear Hf. induction js as [|j js IH]; [done|]. by rewrite fmap_cons.
  - clear Hf. induction js as [|j js IH]; [by constructor|].
    rewrite fmap_cons. by constructor.
  - clear Hf.
    induction js as [|j js IH]; intros indices; [by destruct indices|].
    rewrite fmap_cons. destruct indices as [|i indices]; [done|].
    apply IH.
Qed.

(** X18.  Constructing a descriptor from an integer shape with at least
    one axis and an [order] letter (no tags, no strides, offset 0, one
    target axis allowed) succeeds, and access planning on the result with
    one integer index per axis gives one subscript, no array suffix text
    and no vector index.  The subscript is the row-major position of the
    indices for c or C (last index fastest) and the column-major position
    for f or F (first index fastest). *)
Theorem access_after_order
    (parse : string → result expr) (dtype : Type)
    (vec_types : dtype_t dtype → Z → option dtype) (itemsize : dtype → Z)
    (min_target_axes max_target_axes : nat) (self_name : option string)
    (name : string) (dt : dtype_t dtype) (ext indices : list Z)
    (strides : extents_input) (o : string) (eval_expr : expr → expr) :
  is_order_letter o = true →
  ext ≠ [] →
  known strides = false →
  (min_target_axes ≤ 1 ≤ max_target_axes)%nat →
  List.length indices = List.length ext →
  (∀ i, eval_expr (EInt i) = EInt i) →
  ∃ ary,
    ArrayBase_init parse dtype min_target_axes max_target_axes self_name
      name dt (Extents (EInt <$> ext)) None OffsetZero strides (Some o)
    = Ok ary
    ∧ get_access_info dtype vec_types itemsize ary
        (IndexTuple (EInt <$> indices)) eval_expr
      = Ok {| array_suffix := Some "";
              vector_index := None;
              subscripts :=
                [EInt (if bool_decide (PyStr.upper o = "C")
                       then row_major ext indices
                       else column_major ext indices)] |}.
Proof.
  intros Ho Hext Hk Hrange Hlen Heval.
  destruct (order_tags_aligned o ext) as (Ha & Hcv & Hnv & Hf & Hsl).
  destruct (Hsl indices) as [Hsuffix Hlane].
  eexists. split.
  - unfold ArrayBase_init. rewrite Hk.
    rewrite (bool_decide_eq_false_2 (None ≠ None))
      by (intros H; by apply H).
    cbn [andb shape_of_input _parse_shape_or_strides mbind result_bind].
    rewrite length_fmap.
    rewrite (init_dim_tags_of_order parse _ _ self_name name ext o Ho
               Hext Hrange).
    reflexivity.
  - unfold get_access_info, shape_len, num_target_axes, vector_size,
      dim_tags_seq.
    cbn [shape dim_tags offset mbind result_bind].
    rewrite !length_fmap, Hlen.
    rewrite bool_decide_eq_false_2 by (intros H; by apply H).
    rewrite (target_axes_aligned 1 _ Ha (Hf Hext)), size_singleton.
    rewrite vector_size_from_no_vector by done.
    cbn [mbind result_bind replicate].
    rewrite (access_loop_aligned eval_expr 1 _ indices "" None 0)
      by (done || lia).
    rewrite Hsuffix, Hlane, address_of_order_tags. done.
Qed.

Lemma access_after_order_witness :
  ∃ ary,
    ArrayBase_init (λ _, Raise ParseError) () 0 1 None "a" DtypeNone
      (Extents (EInt <$> [2; 3; 4])) None OffsetZero NotGiven (Some "c")
    = Ok ary
    ∧ get_access_info () (λ _ _, None) (λ _, 4) ary
        (IndexTuple (EInt <$> [1; 2; 3])) id
      = Ok {| array_suffix := Some ""; vector_index := None;
              subscripts := [EInt 23] |}.
Proof.
  apply (access_after_order (λ _, Raise ParseError) () (λ _ _, None)
           (λ _, 4) 0 1 None "a" DtypeNone [2; 3; 4] [1; 2; 3] NotGiven
           "c" id); try reflexivity; try done.
  lia.
Defined.

(** ** The vector size of an array with a symbolic vector extent *)

Lemma vector_size_from_skip
    (dtype : Type) (vec_types : dtype_t dtype → Z → option dtype)
    (itemsize : dtype → Z) (self : ArrayBase dtype)
    (pre rest : list dim_tag) (i : nat) :
  Forall (λ dt, dt ≠ VectorArrayDimTag) pre →
  vector_size_from dtype vec_types itemsize self i (pre ++ rest)
  = vector_size_from dtype vec_types itemsize self
      (i + List.length pre) rest.
Proof.
  intros H. revert i. induction H as [|dt pre Hdt _ IH]; intros i.
  - simpl. by rewrite Nat.add_0_r.
  - cbn [app List.length]. replace (i + S (List.length pre))%nat
      with (S i + List.length pre)%nat by lia.
    rewrite <- IH. by destruct dt.
Qed.

(** X19.  When the extent of the first vector axis is not an integer,
    [vector_size] raises [NameError]: the message of the [RuntimeError] it
    means to raise names [user_axis], a name that [vector_size] does not
    define.  Declaration planning and, for a subscript of the right
    length, access planning call [vector_size] and end with the same
    [NameError]. *)
Theorem vector_size_symbolic_extent
    (dtype : Type) (vec_types : dtype_t dtype → Z → option dtype)
    (itemsize : dtype → Z) (self : ArrayBase dtype)
    (pre post : list dim_tag) (extents : list expr) (e : expr) :
  shape self = ShapeTuple extents →
  dim_tags self = Some (pre ++ VectorArrayDimTag :: post)%list →
  Forall (λ dt, dt ≠ VectorArrayDimTag) pre →
  extents !! List.length pre = Some e →
  (∀ n, e ≠ EInt n) →
  vector_size dtype vec_types itemsize self = Raise PyNameError
  ∧ (∀ (cgen_decl : Type)
       (get_arg_decl : string → list (option expr) → dtype_t dtype → bool
                       → cgen_decl)
       (const_pod : dtype → string → cgen_decl)
       (is_written : bool) (index_dtype : dtype),
       decl_info dtype vec_types itemsize cgen_decl get_arg_decl const_pod
         self is_written index_dtype = Raise PyNameError)
  ∧ (∀ (index : list expr) (eval_expr : expr → expr),
       List.length index = List.length extents →
       get_access_info dtype vec_types itemsize self (IndexTuple index)
         eval_expr = Raise PyNameError).
Proof.
  intros Hs Ht Hpre He Hne.
  assert (Hvs : vector_size dtype vec_types itemsize self
                = Raise PyNameError).
  { unfold vector_size, dim_tags_seq. rewrite Ht. cbn [mbind result_bind].
    rewrite vector_size_from_skip by done.
    cbn [vector_size_from Nat.add]. unfold shape_at. rewrite Hs.
    rewrite (index_Some _ _ _ He). cbn [mbind result_bind].
    destruct e as [n| | | |]; try done. by destruct (Hne n). }
  split_and!; [done| |].
  - intros. unfold decl_info. by rewrite Hvs.
  - intros index eval_expr Hl. unfold get_access_info.
    rewrite Hs. unfold shape_len, num_target_axes, dim_tags_seq.
    rewrite Hs, Ht. cbn [mbind result_bind].
    rewrite bool_decide_eq_false_2 by (intros H; by apply H).
    by rewrite Hvs.
Qed.

Lemma vector_size_symbolic_extent_witness :
  vector_size () (λ _ _, Some ()) (λ _, 4)
    {| name := "a"; dtype_of := Dtype ();
       shape := ShapeTuple [EInt 8; EVar "n"];
       dim_tags := Some [FixedStrideArrayDimTag (EInt 1) 0;
                         VectorArrayDimTag];
       offset := OffsetZero; order := None; strides := NotGiven |}
  = Raise PyNameError.
Proof.
  pose proof (vector_size_symbolic_extent () (λ _ _, Some ()) (λ _, 4)
           {| name := "a"; dtype_of := Dtype ();
              shape := ShapeTuple [EInt 8; EVar "n"];
              dim_tags := Some [FixedStrideArrayDimTag (EInt 1) 0;
                                VectorArrayDimTag];
              offset := OffsetZero; order := None; strides := NotGiven |}
           [FixedStrideArrayDimTag (EInt 1) 0] [] [EInt 8; EVar "n"]
           (EVar "n") eq_refl eq_refl) as H.
  apply H.
  - by repeat constructor.
  - reflexivity.
  - intros n. discriminate.
Defined.

(** ** The processing order of one target axis *)

Lemma positions_from_elem t tags : ∀ i j,
  j ∈ positions_from t i tags
  ↔ ∃ k dt, j = (i + k)%nat ∧ tags !! k = Some dt
            ∧ computed_axis dt = Some t.
Proof.
  induction tags as [|dt tags IH]; intros i j; cbn [positions_from].
  { split; [by intros []%elem_of_nil|]. by intros (k & dt & _ & [=] & _). }
  destruct (bool_decide (computed_axis dt = Some t)) eqn:E.
  - rewrite elem_of_cons, IH. split.
    + intros [->|(k & dt' & -> & Hk & Hd)].
      * exists 0%nat, dt.
        split_and!; [lia|done|by apply bool_decide_eq_true in E].
      * exists (S k), dt'. split_and!; [lia|done|done].
    + intros (k & dt' & -> & Hk & Hd). destruct k as [|k].
      * left. lia.
      * right. exists k, dt'. split_and!; [lia|done|done].
  - rewrite IH. split.
    + intros (k & dt' & -> & Hk & Hd). exists (S k), dt'.
      split_and!; [lia|done|done].
    + intros (k & dt' & -> & Hk & Hd). destruct k as [|k].
      * simpl in Hk. injection Hk as <-.
        by apply bool_decide_eq_false in E.
      * exists k, dt'. split_and!; [lia|done|done].
Qed.

Lemma positions_from_NoDup t tags : ∀ i, NoDup (positions_from t i tags).
Proof.
  induction tags as [|dt tags IH]; intros i; cbn [positions_from];
    [constructor|].
  destruct (bool_decide _); [|apply IH].
  apply NoDup_cons. split; [|apply IH].
  rewrite positions_from_elem. intros (k & dt' & ? & _). lia.
Qed.

(** The first loop, seen from one target axis whose computed-stride tags
    all have order C: every position is put in front of the group, so the
    group ends as the positions in reverse declaration order.  With order
    F every position is put at the end. *)
Lemma pick_apart_order_C t tags : ∀ i g g' acc,
  axis_order "C" t tags = true →
  pick_apart i tags g = Ok g' →
  computed_stride_dim_tags g !! t = Some acc →
  computed_stride_dim_tags g' !! t
  = Some (reverse (positions_from t i tags) ++ acc)%list.
Proof.
  induction tags as [|dt tags IH]; intros i g g' acc Ho H Hacc.
  { simpl in H. by injection H as <-. }
  simpl in Ho. apply andb_true_iff in Ho as [Hdt Ho].
  cbn [pick_apart] in H.
  destruct (pick_apart_step i dt g) as [g1|] eqn:Es; simpl in H; [|done].
  cbn [positions_from].
  destruct dt as [s ta|o p ta| |]; cbn [pick_apart_step] in Es.
  - destruct (group_append _ _ _) as [f|]; simpl in Es; [|done].
    injection Es as <-. rewrite bool_decide_eq_false_2 by done.
    by apply (IH _ _ _ _ Ho H).
  - destruct (decide (ta = t)) as [->|Hne].
    + rewrite bool_decide_eq_true_2 by done.
      apply orb_true_iff in Hdt as [Hdt|Hdt].
      { by apply negb_true_iff, bool_decide_eq_false in Hdt. }
      apply bool_decide_eq_true in Hdt as ->.
      change (PyStr.contains "cC" "C") with true in Es.
      unfold group_insert0 in Es. rewrite (index_Some _ _ _ Hacc) in Es.
      simpl in Es. injection Es as <-.
      rewrite (IH (S i) _ g' (i :: acc) Ho H).
      * by rewrite reverse_cons, <- app_assoc.
      * simpl. apply list_lookup_insert_eq. by eapply lookup_lt_Some.
    + rewrite bool_decide_eq_false_2 by (simpl; congruence).
      apply (IH (S i) g1 g' acc Ho H).
      destruct (PyStr.contains "cC" o).
      * unfold group_insert0 in Es.
        destruct (index _ ta) as [l|]; simpl in Es; [|done].
        injection Es as <-. simpl. by rewrite list_lookup_insert_ne.
      * destruct (PyStr.contains "fF" o); [|done].
        unfold group_append in Es.
        destruct (index _ ta) as [l|]; simpl in Es; [|done].
        injection Es as <-. simpl. by rewrite list_lookup_insert_ne.
  - injection Es as <-. by apply (IH _ _ _ _ Ho H).
  - destruct (vector_dim g); [done|]. injection Es as <-.
    by apply (IH _ _ _ _ Ho H).
Qed.

Lemma pick_apart_order_F t tags : ∀ i g g' acc,
  axis_order "F" t tags = true →
  pick_apart i tags g = Ok g' →
  computed_stride_dim_tags g !! t = Some acc →
  computed_stride_dim_tags g' !! t
  = Some (acc ++ positions_from t i tags)%list.
Proof.
  induction tags as [|dt tags IH]; intros i g g' acc Ho H Hacc.
  { simpl in H. injection H as <-. by rewrite app_nil_r. }
  simpl in Ho. apply andb_true_iff in Ho as [Hdt Ho].
  cbn [pick_apart] in H.
  destruct (pick_apart_step i dt g) as [g1|] eqn:Es; simpl in H; [|done].
  cbn [positions_from].
  destruct dt as [s ta|o p ta| |]; cbn [pick_apart_step] in Es.
  - destruct (group_append _ _ _) as [f|]; simpl in Es; [|done].
    injection Es as <-. rewrite bool_decide_eq_false_2 by done.
    by apply (IH _ _ _ _ Ho H).
  - destruct (decide (ta = t)) as [->|Hne].
    + rewrite bool_decide_eq_true_2 by done.
      apply orb_true_iff in Hdt as [Hdt|Hdt].
      { by apply negb_true_iff, bool_decide_eq_false in Hdt. }
      apply bool_decide_eq_true in Hdt as ->.
      change (PyStr.contains "cC" "F") with false in Es.
      change (PyStr.contains "fF" "F") with true in Es.
      unfold group_append in Es. rewrite (index_Some _ _ _ Hacc) in Es.
      simpl in Es. injection Es as <-.
      rewrite (IH (S i) _ g' (acc ++ [i])%list Ho H).
      * by rewrite <- app_assoc.
      * simpl. apply list_lookup_insert_eq. by eapply lookup_lt_Some.
    + rewrite bool_decide_eq_false_2 by (simpl; congruence).
      apply (IH (S i) g1 g' acc Ho H).
      destruct (PyStr.contains "cC" o).
      * unfold group_insert0 in Es.
        destruct (index _ ta) as [l|]; simpl in Es; [|done].
        injection Es as <-. simpl. by rewrite list_lookup_insert_ne.
      * destruct (PyStr.contains "fF" o); [|done].
        unfold group_append in Es.
        destruct (index _ ta) as [l|]; simpl in Es; [|done].
        injection Es as <-. simpl. by rewrite list_lookup_insert_ne.
  - injection Es as <-. by apply (IH _ _ _ _ Ho H).
  - destruct (vector_dim g); [done|]. injection Es as <-.
    by apply (IH _ _ _ _ Ho H).
Qed.

(** The loop over the target axes, cut in two. *)
Lemma convert_axes_app shape tags g a1 a2 : ∀ new,
  convert_axes shape tags g (a1 ++ a2) new
  = (r ← convert_axes shape tags g a1 new;
     match r with
     | None => Ok None
     | Some new1 => convert_axes shape tags g a2 new1
     end).
Proof.
  induction a1 as [|t a1 IH]; intros new; [done|].
  cbn [app convert_axes].
  destruct (index (computed_stride_dim_tags g) t) as [cg|]; simpl; [|done].
  destruct (index (fixed_stride_dim_tags g) t) as [fg|]; simpl; [|done].
  destruct (_ && _); [done|].
  destruct (bool_decide (fg ≠ [])).
  - destruct (keep_fixed _ _ _); simpl; [apply IH|done].
  - destruct (convert_computed _ _ _ _ _) as [[[n1 s1]|]|]; simpl;
      [apply IH|done|done].
Qed.

Lemma unmixed_spec n tags t :
  unmixed n tags = true → (t < n)%nat →
  has_computed t tags = true → has_fixed t tags = false.
Proof.
  unfold unmixed. rewrite forallb_forall. intros H Ht Hc.
  assert (Hin : In t (seq 0 n)) by (apply in_seq; lia).
  specialize (H t Hin).
  rewrite Hc in H. simpl in H. by apply negb_true_iff in H.
Qed.

Section AxisLoopRuns.

Variables (num_target_axes : nat) (tags : list dim_tag) (g : tag_groups).
Hypothesis Hgroups : groups_of num_target_axes tags g.

(** With a shape tuple that is long enough, no padding to 0 and no target
    axis that mixes the two kinds of stride tags, the loop over the
    target axes ends with tags. *)
Lemma convert_axes_ok extents axes :
  forallb pad_nonzero tags = true →
  (List.length tags ≤ List.length extents)%nat →
  unmixed num_target_axes tags = true →
  (∀ t, t ∈ axes → (t < num_target_axes)%nat) →
  ∀ new, ∃ new',
    convert_axes (ShapeTuple extents) tags g axes new = Ok (Some new').
Proof.
  intros Hpad Hlen Hmix. induction axes as [|t0 axes IH]; intros Hin new.
  { simpl. eauto. }
  simpl.
  assert (Ht0 : (t0 < num_target_axes)%nat) by (apply Hin; left).
  destruct (Hgroups t0 Ht0) as (cg & fg & Hcg & Hfg & _).
  destruct (groups_of_computed _ _ _ _ _ Hgroups Ht0 Hcg) as [Hcne Hcin].
  destruct (groups_of_fixed _ _ _ _ _ Hgroups Ht0 Hfg) as [Hfne Hfin].
  rewrite (index_Some _ _ _ Hcg), (index_Some _ _ _ Hfg). simpl.
  assert (Hin' : ∀ t, t ∈ axes → (t < num_target_axes)%nat).
  { intros t Ht. apply Hin. by right. }
  destruct (decide (fg ≠ [])) as [Hf|Hf].
  - assert (¬ cg ≠ []) as Hc.
    { intros Hc. apply Hcne in Hc. apply Hfne in Hf.
      rewrite (unmixed_spec _ _ _ Hmix Ht0 Hc) in Hf. done. }
    rewrite (bool_decide_eq_false_2 _ Hc), (bool_decide_eq_true_2 _ Hf).
    simpl. destruct (keep_fixed_ok tags fg Hfin new) as [new' ->]. simpl.
    by apply IH.
  - rewrite (bool_decide_eq_false_2 _ Hf), andb_false_r.
    destruct (convert_computed_tuple_ok extents tags cg) with
      (new := new) (s := EInt 1) as (new' & s' & ->); [|done|done|].
    { intros j Hj. destruct (Hcin j Hj) as (o & p & ?). eauto. }
    simpl. by apply IH.
Qed.

(** The target axes other than [t] leave the positions of the
    computed-stride tags of [t] as they are. *)
Lemma convert_axes_frame shape t axes : ∀ new new',
  (∀ t', t' ∈ axes → (t' < num_target_axes)%nat) →
  t ∉ axes →
  convert_axes shape tags g axes new = Ok (Some new') →
  List.length new' = List.length new
  ∧ ∀ j dt, tags !! j = Some dt → computed_axis dt = Some t →
            new' !! j = new !! j.
Proof.
  induction axes as [|t0 axes IH]; intros new new' Hin Hnot H.
  { simpl in H. by injection H as <-. }
  apply not_elem_of_cons in Hnot as [Hne Hnot].
  simpl in H.
  assert (Ht0 : (t0 < num_target_axes)%nat) by (apply Hin; left).
  destruct (Hgroups t0 Ht0) as (cg & fg & Hcg & Hfg & Hciff & Hfiff).
  rewrite (index_Some _ _ _ Hcg), (index_Some _ _ _ Hfg) in H. simpl in H.
  assert (Hin' : ∀ t', t' ∈ axes → (t' < num_target_axes)%nat).
  { intros t' Ht'. apply Hin. by right. }
  assert (Hstep : ∃ new1,
    convert_axes shape tags g axes new1 = Ok (Some new')
    ∧ List.length new1 = List.length new
    ∧ ∀ j dt, tags !! j = Some dt → computed_axis dt = Some t →
              new1 !! j = new !! j).
  { destruct (bool_decide (cg ≠ []) && bool_decide (fg ≠ [])); [done|].
    destruct (bool_decide (fg ≠ [])).
    - destruct (keep_fixed tags fg new) as [new1|] eqn:Ek; simpl in H;
        [|done].
      apply keep_fixed_result in Ek as (Hl1 & Hout & _).
      exists new1. split_and!; [done|done|].
      intros j dt Hj Ha. apply Hout. intros Hjf.
      apply Hfiff in Hjf as (dt' & Hj' & Hf').
      assert (dt' = dt) as -> by congruence. by destruct dt.
    - destruct (convert_computed shape tags cg new (EInt 1))
        as [[[new1 s1]|]|] eqn:Ew; simpl in H; try done.
      apply convert_computed_result in Ew as (Hl1 & Hout & _).
      exists new1. split_and!; [done|done|].
      intros j dt Hj Ha. apply Hout. intros Hjc.
      apply Hciff in Hjc as (dt' & Hj' & Hc').
      assert (dt' = dt) as -> by congruence. congruence. }
  destruct Hstep as (new1 & Hrest & Hl1 & Hsame).
  destruct (IH new1 new' Hin' Hnot Hrest) as [Hl Hs].
  split; [lia|]. intros j dt Hj Ha. rewrite (Hs j dt Hj Ha).
  by apply (Hsame j dt).
Qed.

End AxisLoopRuns.

(** ** Normalisation with and without a shape *)

Section SymbolicWalks.

Variables (o : string) (tags : list dim_tag) (ext : list expr).
Hypothesis Hplain : plain_order o tags = true.
Hypothesis Hlen : List.length ext = List.length tags.

(** One step of the walk at position [i], without padding, whatever the
    extent is. *)
Lemma convert_computed_step_symbolic i e rest new s :
  ext !! i = Some e →
  convert_computed (ShapeTuple ext) tags (i :: rest) new s
  = convert_computed (ShapeTuple ext) tags rest
      (<[i := FixedStrideArrayDimTag s 0]> new) (py_mul s e).
Proof.
  intros He. cbn [convert_computed].
  rewrite (index_Some _ _ _ (plain_order_lookup o tags i Hplain
             ltac:(rewrite <- Hlen; by eapply lookup_lt_Some))).
  cbn [mbind result_bind].
  by rewrite (index_Some _ _ _ He).
Qed.

Lemma walk_upwards_symbolic n : ∀ i new s,
  (i + n ≤ List.length ext)%nat →
  ∃ new' s',
    convert_computed (ShapeTuple ext) tags (seq i n) new s
    = Ok (Some (new', s'))
    ∧ List.length new' = List.length new
    ∧ (∀ j, (j < i ∨ i + n ≤ j)%nat → new' !! j = new !! j)
    ∧ (∀ j, (i ≤ j < i + n)%nat → (j < List.length new)%nat →
         new' !! j
         = Some (FixedStrideArrayDimTag
                   (foldl py_mul s (take (j - i) (drop i ext))) 0)).
Proof.
  induction n as [|n IH]; intros i new s Hi.
  { exists new, s. simpl. split_and!; [done|done|done|]. intros j ?. lia. }
  destruct (lookup_lt_is_Some_2 ext i) as [e He]; [lia|].
  cbn [seq]. rewrite (convert_computed_step_symbolic i e _ _ _ He).
  destruct (IH (S i) (<[i := FixedStrideArrayDimTag s 0]> new)
              (py_mul s e)) as (new' & s' & -> & Hl & Hout & Hin); [lia|].
  rewrite length_insert in Hl, Hin.
  exists new', s'. split_and!; [done|done|..].
  - intros j Hj. rewrite Hout by lia. apply list_lookup_insert_ne. lia.
  - intros j Hj Hlt. destruct (decide (j = i)) as [->|Hne].
    + rewrite Hout by lia. rewrite list_lookup_insert_eq by done.
      by rewrite Nat.sub_diag.
    + rewrite Hin by lia. rewrite (drop_S _ _ _ He).
      replace (j - i)%nat with (S (j - S i)) by lia. done.
Qed.

Lemma walk_downwards_symbolic n : ∀ new s,
  (n ≤ List.length ext)%nat →
  ∃ new' s',
    convert_computed (ShapeTuple ext) tags (reverse (seq 0 n)) new s
    = Ok (Some (new', s'))
    ∧ List.length new' = List.length new
    ∧ (∀ j, (n ≤ j)%nat → new' !! j = new !! j)
    ∧ (∀ j, (j < n)%nat → (j < List.length new)%nat →
         new' !! j
         = Some (FixedStrideArrayDimTag
                   (foldl py_mul s (reverse (drop (S j) (take n ext))))
                   0)).
Proof.
  induction n as [|n IH]; intros new s Hn.
  { exists new, s. simpl. split_and!; [done|done|done|]. intros j ?. lia. }
  destruct (lookup_lt_is_Some_2 ext n) as [e He]; [lia|].
  rewrite seq_S, reverse_snoc, Nat.add_0_l.
  rewrite (convert_computed_step_symbolic n e _ _ _ He).
  destruct (IH (<[n := FixedStrideArrayDimTag s 0]> new) (py_mul s e))
    as (new' & s' & -> & Hl & Hout & Hin); [lia|].
  rewrite length_insert in Hl, Hin.
  rewrite (take_S_r _ _ _ He).
  exists new', s'. split_and!; [done|done|..].
  - intros j Hj. rewrite Hout by lia. apply list_lookup_insert_ne. lia.
  - intros j Hj Hlt. destruct (decide (j = n)) as [->|Hne].
    + rewrite Hout by lia. rewrite list_lookup_insert_eq by done.
      by rewrite drop_ge by (rewrite length_app, length_take; simpl; lia).
    + rewrite Hin by lia.
      rewrite drop_app_le by (rewrite length_take; lia).
      by rewrite reverse_snoc.
Qed.

End SymbolicWalks.

Lemma convert_plain_F_symbolic
    (name : string) (num_user_axes : option nat)
    (tags : list dim_tag) (ext : list expr) :
  List.length ext = List.length tags →
  plain_order "F" tags = true →
  convert_computed_to_fixed_dim_tags name num_user_axes 1
    (ShapeTuple ext) tags
  = Ok (Some ((λ j, FixedStrideArrayDimTag
                      (symbolic_product (take j ext)) 0)
              <$> seq 0 (List.length tags))).
Proof.
  intros Hlen Hp. unfold convert_computed_to_fixed_dim_tags.
  change (replicate 1 (@nil nat)) with [@nil nat].
  change (seq 0 1) with [0%nat].
  rewrite (pick_apart_uniform_F tags 0 [] (plain_order_uniform _ _ Hp)).
  cbn [mbind result_bind]. rewrite app_nil_l.
  destruct (walk_upwards_symbolic "F" tags ext Hp Hlen (List.length tags)
              0 tags (EInt 1))
    as (new' & s' & Hw & Hl & _ & Hin); [lia|].
  rewrite (convert_axes_one_axis _ _ _ _ _ Hw). simpl. do 2 f_equal.
  apply list_eq. intros j. rewrite list_lookup_fmap.
  destruct (decide (j < List.length tags)%nat) as [Hj|Hj].
  - rewrite Hin by lia.
    rewrite (proj2 (lookup_seq 0 (List.length tags) j j)) by done.
    simpl. by rewrite Nat.sub_0_r.
  - rewrite lookup_ge_None_2 by lia.
    by rewrite lookup_ge_None_2 by (rewrite length_seq; lia).
Qed.

Lemma convert_plain_C_symbolic
    (name : string) (num_user_axes : option nat)
    (tags : list dim_tag) (ext : list expr) :
  List.length ext = List.length tags →
  plain_order "C" tags = true →
  convert_computed_to_fixed_dim_tags name num_user_axes 1
    (ShapeTuple ext) tags
  = Ok (Some ((λ j, FixedStrideArrayDimTag
                      (symbolic_product (reverse (drop (S j) ext))) 0)
              <$> seq 0 (List.length tags))).
Proof.
  intros Hlen Hp. unfold convert_computed_to_fixed_dim_tags.
  change (replicate 1 (@nil nat)) with [@nil nat].
  change (seq 0 1) with [0%nat].
  rewrite (pick_apart_uniform_C tags 0 [] (plain_order_uniform _ _ Hp)).
  cbn [mbind result_bind]. rewrite app_nil_r.
  destruct (walk_downwards_symbolic "C" tags ext Hp Hlen (List.length tags)
              tags (EInt 1))
    as (new' & s' & Hw & Hl & _ & Hin); [lia|].
  rewrite (convert_axes_one_axis _ _ _ _ _ Hw). simpl. do 2 f_equal.
  apply list_eq. intros j. rewrite list_lookup_fmap.
  destruct (decide (j < List.length tags)%nat) as [Hj|Hj].
  - rewrite Hin by done.
    rewrite (proj2 (lookup_seq 0 (List.length tags) j j)) by done.
    simpl. by rewrite take_ge by lia.
  - rewrite lookup_ge_None_2 by lia.
    by rewrite lookup_ge_None_2 by (rewrite length_seq; lia).
Qed.

(** What the state of [new_dim_tags] after all target axes means for the
    returned list. *)
Lemma axes_done_all num_target_axes tags new :
  groupable num_target_axes tags = true →
  axes_done tags (seq 0 num_target_axes) new →
  Forall2 normalised_from tags new ∧ normalised new = true.
Proof.
  intros Hg [Hlen Hdone].
  assert (HF : Forall2 normalised_from tags new).
  { apply Forall2_same_length_lookup_2; [by apply Nat.eq_sym|].
    intros j dt dt' Hj Hj'. specialize (Hdone j dt Hj).
    destruct dt as [s t|o p t| |]; simpl in *; try congruence.
    rewrite bool_decide_eq_true_2 in Hdone.
    + destruct Hdone as [s Hs]. exists s. congruence.
    + apply elem_of_seq. apply andb_true_iff in Hg as [Hr _].
      rewrite forallb_forall in Hr.
      specialize (Hr _ (proj1 (list_elem_of_In _ _)
                          (list_elem_of_lookup_2 _ _ _ Hj))).
      simpl in Hr. apply andb_true_iff in Hr as [Hr%Nat.ltb_lt _]. lia. }
  split; [done|].
  unfold normalised. apply forallb_forall. intros dt' Hin.
  apply list_elem_of_In, list_elem_of_lookup in Hin as [j Hj'].
  destruct (Forall2_lookup_r _ _ _ _ _ HF Hj') as (dt & Hj & Hn).
  apply bool_decide_eq_true.
  destruct dt; simpl in Hn; try (by subst).
  by destruct Hn as [s ->].
Qed.

(** C6, amended.  When [shape] is [None] and the tag list is one that the
    grouping loop accepts, the normaliser returns the sentinel [None] as
    soon as it reaches a target axis that carries a computed-stride tag
    (the lowest such axis, provided it carries no fixed-stride tag): no
    exception, no tags.  When [shape] is a tuple, the sentinel is never
    returned, whatever the extents are.  For a tuple at least as long as
    the tag list and a tag list that the two loops accept (no target axis
    with both kinds of stride tags, no padding to the integer 0), the
    normaliser returns tags: a fixed-stride tag on target axis 0 at the
    position of every computed-stride tag, every other tag as it was.  An
    extent that is not an integer is multiplied into the running stride
    like any other: for plain tags F the stride of axis j is the product,
    formed from 1 with Python's multiplication, of the extents before j in
    declaration order; for plain tags C it is the product of the extents
    after j, last extent first. *)
Theorem normalisation_deferred_only_without_shape
    (name : string) (num_user_axes : option nat) (num_target_axes : nat)
    (tags : list dim_tag) (t : nat) (extents : list expr) :
  (groupable num_target_axes tags = true →
   has_computed t tags = true →
   has_fixed t tags = false →
   (∀ t', (t' < t)%nat → has_computed t' tags = false) →
   convert_computed_to_fixed_dim_tags name num_user_axes num_target_axes
     ShapeNone tags = Ok None)
  ∧ convert_computed_to_fixed_dim_tags name num_user_axes num_target_axes
      (ShapeTuple extents) tags ≠ Ok None
  ∧ (groupable num_target_axes tags = true →
     unmixed num_target_axes tags = true →
     forallb pad_nonzero tags = true →
     (List.length tags ≤ List.length extents)%nat →
     ∃ new,
       convert_computed_to_fixed_dim_tags name num_user_axes
         num_target_axes (ShapeTuple extents) tags = Ok (Some new)
       ∧ Forall2 normalised_from tags new
       ∧ normalised new = true)
  ∧ (List.length extents = List.length tags →
     plain_order "F" tags = true →
     convert_computed_to_fixed_dim_tags name num_user_axes 1
       (ShapeTuple extents) tags
     = Ok (Some ((λ j, FixedStrideArrayDimTag
                         (symbolic_product (take j extents)) 0)
                 <$> seq 0 (List.length tags))))
  ∧ (List.length extents = List.length tags →
     plain_order "C" tags = true →
     convert_computed_to_fixed_dim_tags name num_user_axes 1
       (ShapeTuple extents) tags
     = Ok (Some ((λ j, FixedStrideArrayDimTag
                         (symbolic_product (reverse (drop (S j) extents)))
                         0)
                 <$> seq 0 (List.length tags)))).
Proof.
  split_and!.
  - intros Hg Hc Hf Hbefore.
    destruct (pick_apart_groups _ _ Hg) as (g & Hp & Hgroups).
    unfold convert_computed_to_fixed_dim_tags. rewrite Hp. simpl.
    apply andb_true_iff in Hg as [Hr _].
    pose proof (has_computed_in_range _ _ _ Hr Hc).
    apply (convert_axes_deferred num_target_axes tags g Hgroups
             num_target_axes 0 t); [lia|lia|done|done|].
    intros t' Ht'. apply Hbefore. lia.
  - unfold convert_computed_to_fixed_dim_tags.
    destruct (pick_apart _ _ _) as [g|]; simpl; [|done].
    apply convert_axes_tuple_not_deferred.
  - intros Hg Hmix Hpad Hlen.
    destruct (pick_apart_groups _ _ Hg) as (g & Hp & Hgroups).
    unfold convert_computed_to_fixed_dim_tags. rewrite Hp.
    cbn [mbind result_bind].
    assert (Hin : ∀ t', t' ∈ seq 0 num_target_axes →
                        (t' < num_target_axes)%nat).
    { intros t' Ht'%elem_of_seq. lia. }
    destruct (convert_axes_ok num_target_axes tags g Hgroups extents
                (seq 0 num_target_axes) Hpad Hlen Hmix Hin tags)
      as [new Hrun].
    exists new. split; [done|].
    apply (axes_done_all num_target_axes); [done|].
    apply (convert_axes_result (ShapeTuple extents) num_target_axes tags g
             Hgroups (seq 0 num_target_axes) [] tags new Hin); [|done].
    split; [done|]. intros j dt Hj.
    destruct (computed_axis dt); [|done].
    rewrite bool_decide_eq_false_2; [done|]. by intros ?%elem_of_nil.
  - intros Hlen Hp. by apply convert_plain_F_symbolic.
  - intros Hlen Hp. by apply convert_plain_C_symbolic.
Qed.

Lemma normalisation_deferred_only_without_shape_witness :
  convert_computed_to_fixed_dim_tags "a" (Some 3%nat) 2 ShapeNone
    [FixedStrideArrayDimTag (EVar "s") 0;
     SeparateArrayArrayDimTag;
     ComputedStrideArrayDimTag "C" None 1] = Ok None
  ∧ (∃ new,
       convert_computed_to_fixed_dim_tags "a" (Some 3%nat) 2
         (ShapeTuple [EVar "n"; EInt 3; EVar "m"])
         [FixedStrideArrayDimTag (EVar "s") 0;
          SeparateArrayArrayDimTag;
          ComputedStrideArrayDimTag "C" None 1] = Ok (Some new)
       ∧ Forall2 normalised_from
           [FixedStrideArrayDimTag (EVar "s") 0;
            SeparateArrayArrayDimTag;
            ComputedStrideArrayDimTag "C" None 1] new
       ∧ normalised new = true)
  ∧ convert_computed_to_fixed_dim_tags "a" (Some 3%nat) 1
      (ShapeTuple [EVar "n"; EInt 3; EVar "m"])
      [ComputedStrideArrayDimTag "F" None 0;
       ComputedStrideArrayDimTag "F" None 0;
       ComputedStrideArrayDimTag "F" None 0]
    = Ok (Some [FixedStrideArrayDimTag (EInt 1) 0;
                FixedStrideArrayDimTag (EProduct (EInt 1) (EVar "n")) 0;
                FixedStrideArrayDimTag
                  (EProduct (EProduct (EInt 1) (EVar "n")) (EInt 3)) 0]).
Proof.
  pose proof (normalisation_deferred_only_without_shape "a" (Some 3%nat) 2
           [FixedStrideArrayDimTag (EVar "s") 0;
            SeparateArrayArrayDimTag;
            ComputedStrideArrayDimTag "C" None 1] 1
           [EVar "n"; EInt 3; EVar "m"]) as (HA & _ & HC & _).
  pose proof (normalisation_deferred_only_without_shape "a" (Some 3%nat) 1
           [ComputedStrideArrayDimTag "F" None 0;
            ComputedStrideArrayDimTag "F" None 0;
            ComputedStrideArrayDimTag "F" None 0] 0
           [EVar "n"; EInt 3; EVar "m"]) as (_ & _ & _ & HF & _).
  split_and!.
  - apply HA; [reflexivity|reflexivity|reflexivity|].
    intros t' Ht'. assert (t' = 0%nat) as -> by lia. reflexivity.
  - apply HC; [reflexivity|reflexivity|reflexivity|simpl; lia].
  - apply HF; reflexivity.
Defined.

(** ** Which axis receives the smallest stride, for any tag list *)

Lemma axis_ready_lookup t tags extents j o p :
  axis_ready t tags extents = true →
  (List.length tags ≤ List.length extents)%nat →
  tags !! j = Some (ComputedStrideArrayDimTag o p t) →
  pad_positive p = true ∧ ∃ e, extents !! j = Some (EInt e) ∧ 1 ≤ e.
Proof.
  intros Hr Hlen Hj.
  destruct (lookup_lt_is_Some_2 extents j) as [e He].
  { apply lookup_lt_Some in Hj. lia. }
  unfold axis_ready in Hr. rewrite forallb_forall in Hr.
  assert (Hz : zip tags extents !! j
               = Some (ComputedStrideArrayDimTag o p t, e))
    by (by apply lookup_zip_Some).
  specialize (Hr _ (proj1 (list_elem_of_In _ _)
                      (list_elem_of_lookup_2 _ _ _ Hz))).
  simpl in Hr. rewrite bool_decide_eq_true_2 in Hr by done. simpl in Hr.
  apply andb_true_iff in Hr as [Hp He'].
  split; [done|]. destruct e as [z| | | |]; try done.
  exists z. split; [done|]. by apply Z.leb_le.
Qed.

Section OneTargetAxis.

Variables (name : string) (num_user_axes : option nat)
          (num_target_axes : nat) (tags : list dim_tag)
          (extents : list expr) (t : nat).
Hypothesis Hmix : unmixed num_target_axes tags = true.
Hypothesis Hpad : forallb pad_nonzero tags = true.
Hypothesis Hlen : (List.length tags ≤ List.length extents)%nat.
Hypothesis Ht : (t < num_target_axes)%nat.
Hypothesis Hready : axis_ready t tags extents = true.

(** The normaliser, seen from target axis [t], whose computed-stride tags
    the second loop visits in the order [cg]: the first position visited
    receives the stride 1, every position visited an integer stride that
    is at least 1, and the other target axes do not touch them. *)
Lemma normalise_axis g cg :
  pick_apart 0 tags
    {| vector_dim := None;
       computed_stride_dim_tags := replicate num_target_axes [];
       fixed_stride_dim_tags := replicate num_target_axes [] |} = Ok g →
  groups_of num_target_axes tags g →
  computed_stride_dim_tags g !! t = Some cg →
  NoDup cg →
  ∃ new,
    convert_computed_to_fixed_dim_tags name num_user_axes num_target_axes
      (ShapeTuple extents) tags = Ok (Some new)
    ∧ (∀ j, j ∈ cg →
         ∃ s, new !! j = Some (FixedStrideArrayDimTag (EInt s) 0) ∧ 1 ≤ s)
    ∧ (∀ j, head cg = Some j →
         new !! j = Some (FixedStrideArrayDimTag (EInt 1) 0)).
Proof.
  intros Hp Hgroups Hcg Hnd.
  unfold convert_computed_to_fixed_dim_tags. rewrite Hp.
  cbn [mbind result_bind].
  assert (Hin : ∀ a k t', t' ∈ seq a k → (a + k ≤ num_target_axes)%nat →
                          (t' < num_target_axes)%nat).
  { intros a k t' Ht'%elem_of_seq ?. lia. }
  destruct cg as [|j0 rest].
  { destruct (convert_axes_ok num_target_axes tags g Hgroups extents
                (seq 0 num_target_axes) Hpad Hlen Hmix
                (λ t' H, Hin 0%nat _ t' H ltac:(lia)) tags)
      as [new Hrun].
    exists new. split_and!; [done| |done]. by intros j ?%elem_of_nil. }
  destruct (Hgroups t Ht) as (cg' & fg & Hcg' & Hfg & Hciff & Hfiff).
  assert (cg' = j0 :: rest) as -> by congruence.
  destruct (groups_of_computed _ _ _ _ _ Hgroups Ht Hcg) as [Hcne Hcin].
  destruct (groups_of_fixed _ _ _ _ _ Hgroups Ht Hfg) as [Hfne _].
  assert (Hfe : ¬ fg ≠ []).
  { rewrite Hfne, (unmixed_spec _ _ _ Hmix Ht); [done|]. by apply Hcne. }
  assert (Hsplit : seq 0 num_target_axes
                   = (seq 0 t ++ t :: seq (S t) (num_target_axes - S t))%list).
  { replace num_target_axes with (t + S (num_target_axes - S t))%nat
      at 1 by lia.
    by rewrite seq_app. }
  rewrite Hsplit, convert_axes_app.
  destruct (convert_axes_ok num_target_axes tags g Hgroups extents
              (seq 0 t) Hpad Hlen Hmix
              (λ t' H, Hin 0%nat _ t' H ltac:(lia)) tags)
    as [new1 Hrun1].
  rewrite Hrun1. cbn [mbind result_bind].
  destruct (convert_axes_frame num_target_axes tags g Hgroups
              (ShapeTuple extents) t (seq 0 t) tags new1
              (λ t' H, Hin 0%nat _ t' H ltac:(lia))
              ltac:(rewrite elem_of_seq; lia) Hrun1) as [Hl1 _].
  cbn [convert_axes].
  rewrite (index_Some _ _ _ Hcg), (index_Some _ _ _ Hfg).
  cbn [mbind result_bind].
  rewrite (bool_decide_eq_false_2 _ Hfe), andb_false_r.
  destruct (convert_computed_walk extents tags (j0 :: rest) new1 1)
    as (new2 & s2 & Hw & _ & Hl2 & _ & Hin2 & Hhead); [lia|done|..].
  { intros j Hj. destruct (Hcin j Hj) as (o & p & Hjt).
    destruct (axis_ready_lookup _ _ _ _ _ _ Hready Hlen Hjt)
      as (Hpp & e & He & Hle).
    exists o, p, t, e. done. }
  rewrite Hw. cbn [mbind result_bind].
  destruct (convert_axes_ok num_target_axes tags g Hgroups extents
              (seq (S t) (num_target_axes - S t)) Hpad Hlen Hmix
              (λ t' H, Hin (S t) _ t' H ltac:(lia)) new2)
    as [new3 Hrun3].
  rewrite Hrun3.
  destruct (convert_axes_frame num_target_axes tags g Hgroups
              (ShapeTuple extents) t (seq (S t) (num_target_axes - S t))
              new2 new3
              (λ t' H, Hin (S t) _ t' H ltac:(lia))
              ltac:(rewrite elem_of_seq; lia) Hrun3) as [_ Hsame].
  assert (Hat : ∀ j, j ∈ j0 :: rest →
            new3 !! j = new2 !! j ∧ (j < List.length new1)%nat).
  { intros j Hj. destruct (Hcin j Hj) as (o & p & Hjt). split.
    - by apply (Hsame j _ Hjt).
    - rewrite Hl1. by eapply lookup_lt_Some. }
  exists new3. split_and!; [done|..].
  - intros j Hj. destruct (Hat j Hj) as [-> Hlt].
    by apply Hin2.
  - intros j [= <-]. destruct (Hat j0 ltac:(left)) as [-> Hlt].
    by apply (Hhead j0 rest).
Qed.

End OneTargetAxis.

(** C5, amended.  Take any tag list that the normaliser accepts (target
    axes below [num_target_axes], known orders, at most one vector tag, no
    target axis with both kinds of stride tags, no padding to the integer
    0), a shape tuple that is at least as long, and a target axis [t]
    whose computed-stride tags come with integer extents of at least 1 and
    with no padding or a padding to a positive integer; the list may hold
    any other tags.  The normaliser returns tags, and every
    computed-stride tag of axis [t] receives an integer stride that is at
    least 1.  If the computed-stride tags of axis [t] all have order C,
    the last-declared of them receives the smallest stride, 1; if they all
    have order F, the first-declared of them receives the smallest stride,
    1. *)
Theorem smallest_stride_by_order
    (name : string) (num_user_axes : option nat) (num_target_axes : nat)
    (tags : list dim_tag) (extents : list expr) (t : nat) :
  groupable num_target_axes tags = true →
  unmixed num_target_axes tags = true →
  forallb pad_nonzero tags = true →
  (List.length tags ≤ List.length extents)%nat →
  (t < num_target_axes)%nat →
  axis_ready t tags extents = true →
  (axis_order "C" t tags = true →
   ∃ new,
     convert_computed_to_fixed_dim_tags name num_user_axes num_target_axes
       (ShapeTuple extents) tags = Ok (Some new)
     ∧ Forall (λ j, ∃ s, new !! j = Some (FixedStrideArrayDimTag (EInt s) 0)
                         ∧ 1 ≤ s)
         (computed_positions t tags)
     ∧ ∀ j, last (computed_positions t tags) = Some j →
            new !! j = Some (FixedStrideArrayDimTag (EInt 1) 0))
  ∧ (axis_order "F" t tags = true →
     ∃ new,
       convert_computed_to_fixed_dim_tags name num_user_axes
         num_target_axes (ShapeTuple extents) tags = Ok (Some new)
       ∧ Forall (λ j, ∃ s, new !! j
                           = Some (FixedStrideArrayDimTag (EInt s) 0)
                           ∧ 1 ≤ s)
           (computed_positions t tags)
       ∧ ∀ j, head (computed_positions t tags) = Some j →
              new !! j = Some (FixedStrideArrayDimTag (EInt 1) 0)).
Proof.
  intros Hg Hmix Hpad Hlen Ht Hready.
  destruct (pick_apart_groups _ _ Hg) as (g & Hp & Hgroups).
  assert (Hinit : computed_stride_dim_tags
                    {| vector_dim := None;
                       computed_stride_dim_tags :=
                         replicate num_target_axes [];
                       fixed_stride_dim_tags :=
                         replicate num_target_axes [] |} !! t
                  = Some []).
  { simpl. by apply lookup_replicate_2. }
  split; intros Ho.
  - pose proof (pick_apart_order_C t tags 0 _ g [] Ho Hp Hinit) as Hcg.
    rewrite app_nil_r in Hcg. fold (computed_positions t tags) in Hcg.
    destruct (normalise_axis name num_user_axes num_target_axes tags
                extents t Hmix Hpad Hlen Ht Hready g _ Hp Hgroups Hcg)
      as (new & Hrun & Hall & Hhead).
    { rewrite reverse_Permutation. apply positions_from_NoDup. }
    exists new. split_and!; [done|..].
    + apply Forall_forall. intros j Hj. apply Hall.
      by apply elem_of_reverse.
    + intros j Hj. apply Hhead. by rewrite head_reverse.
  - pose proof (pick_apart_order_F t tags 0 _ g [] Ho Hp Hinit) as Hcg.
    rewrite app_nil_l in Hcg. fold (computed_positions t tags) in Hcg.
    destruct (normalise_axis name num_user_axes num_target_axes tags
                extents t Hmix Hpad Hlen Ht Hready g _ Hp Hgroups Hcg)
      as (new & Hrun & Hall & Hhead).
    { apply positions_from_NoDup. }
    exists new. split_and!; [done|..].
    + apply Forall_forall. intros j Hj. by apply Hall.
    + intros j Hj. by apply Hhead.
Qed.

Lemma smallest_stride_by_order_witness :
  (∃ new,
     convert_computed_to_fixed_dim_tags "a" (Some 6%nat) 2
       (ShapeTuple [EVar "n"; EInt 4; EInt 3; EInt 5; EInt 4; EInt 6])
       [FixedStrideArrayDimTag (EVar "s") 0;
        ComputedStrideArrayDimTag "C" None 1;
        SeparateArrayArrayDimTag;
        ComputedStrideArrayDimTag "C" (Some (EInt 8)) 1;
        VectorArrayDimTag;
        ComputedStrideArrayDimTag "C" None 1] = Ok (Some new)
     ∧ new !! 5%nat = Some (FixedStrideArrayDimTag (EInt 1) 0))
  ∧ (∃ new,
       convert_computed_to_fixed_dim_tags "a" (Some 3%nat) 2
         (ShapeTuple [EInt 4; EVar "n"; EInt 5])
         [ComputedStrideArrayDimTag "F" None 1;
          FixedStrideArrayDimTag (EVar "s") 0;
          ComputedStrideArrayDimTag "F" None 1] = Ok (Some new)
       ∧ new !! 0%nat = Some (FixedStrideArrayDimTag (EInt 1) 0)).
Proof.
  split.
  - destruct (smallest_stride_by_order "a" (Some 6%nat) 2
             [FixedStrideArrayDimTag (EVar "s") 0;
              ComputedStrideArrayDimTag "C" None 1;
              SeparateArrayArrayDimTag;
              ComputedStrideArrayDimTag "C" (Some (EInt 8)) 1;
              VectorArrayDimTag;
              ComputedStrideArrayDimTag "C" None 1]
             [EVar "n"; EInt 4; EInt 3; EInt 5; EInt 4; EInt 6] 1)
      as [HC _];
      [reflexivity|reflexivity|reflexivity|simpl; lia|lia|reflexivity|].
    destruct (HC eq_refl) as (new & Hrun & _ & Hlast).
    exists new. split; [exact Hrun|]. apply Hlast. reflexivity.
  - destruct (smallest_stride_by_order "a" (Some 3%nat) 2
             [ComputedStrideArrayDimTag "F" None 1;
              FixedStrideArrayDimTag (EVar "s") 0;
              ComputedStrideArrayDimTag "F" None 1]
             [EInt 4; EVar "n"; EInt 5] 1)
      as [_ HF];
      [reflexivity|reflexivity|reflexivity|simpl; lia|lia|reflexivity|].
    destruct (HF eq_refl) as (new & Hrun & _ & Hhead).
    exists new. split; [exact Hrun|]. apply Hhead. reflexivity.
Defined.
